(** * LinkedIn job agent: the pipeline's stages as Rocq functions

    A shallow embedding of the Python sources

      - [resume_job_matcher.py]  (Matching and Reporting stages),
      - [get_jd.py]              (Enrichment stage),
      - [get_jobs.py]            (Discovery stage),
      - [src/app.py]             (the web front end: its routes and its
                                  background work),
      - [src/generate_url.py]    (the search URL),
      - [src/resume_handling.py] (the structured resume),
      - [main.py]                (the script, as far as the Enrichment stage),

    followed by the properties of the specification that were checked against
    them, and by further properties of the code.  Python values are a small dynamically typed universe [pyval];
    exceptions are an explicit [result]; the outside world (inference service,
    HTTP, browser, clock, files) is explicit state read through oracles.
    What the code prints and how long it sleeps is left out: no property
    below depends on it. *)

From Stdlib Require Import ZArith String Ascii List Bool Lia DecimalString.
From Stdlib Require Import Floats.SpecFloat.
From stdpp Require Import gmap strings list fin_maps sorting.

Local Open Scope string_scope.
Local Open Scope Z_scope.
Local Set Warnings "-register-all".

(* ===================================================================== *)
(** * Python values and exceptions *)
(* ===================================================================== *)

Module Py.

(** The exceptions the modelled code can meet. *)
Inductive exn : Set :=
| TypeError
| KeyError (key : string)
| ZeroDivisionError
| OverflowError
| FileNotFoundError.

(** The outcome of a call: a value or a raised exception. *)
Inductive result (A : Type) : Type :=
| Ok (a : A)
| Raise (e : exn).
Arguments Ok {A} a.
Arguments Raise {A} e.

Definition bind {A B : Type} (m : result A) (k : A -> result B) : result B :=
  match m with
  | Ok a => k a
  | Raise e => Raise e
  end.

(** [x ← m; k] runs [m] and, unless it raises, goes on with [k]. *)
Declare Scope result_scope.
Delimit Scope result_scope with result.
Bind Scope result_scope with result.
Notation "x ← m ; k" := (bind m (fun x => k))
  (at level 20, m at level 100, k at level 200, only parsing) : result_scope.
Notation "' x ← m ; k" := (bind m (fun x => k))
  (at level 20, x pattern, m at level 100, k at level 200, only parsing)
  : result_scope.

(** A Python object as [json.loads] and the stages build them.  A [str] is
    the string of its UTF-8 bytes; a [float] is an IEEE binary64 number in
    the Standard Library's integer specification of it; a nested [dict] is
    the list of its items in insertion order, each key once. *)
Inductive pyval : Type :=
| PNone
| PBool (b : bool)
| PInt (z : Z)
| PFloat (f : spec_float)
| PStr (s : string)
| PList (l : list pyval)
| PDict (d : list (string * pyval)).

(** A record that a stage passes on (a JobRecord, an AnalysisRecord, the
    details of a fetched page): a Python [dict] with string keys. *)
Abbreviation dict := (gmap string pyval).

(** [d.get(k, v)] *)
Definition get (d : dict) (k : string) (v : pyval) : pyval :=
  match d !! k with
  | Some x => x
  | None => v
  end.

(** [d.get(k)] *)
Definition get_none (d : dict) (k : string) : pyval := get d k PNone.

(** [d[k]] *)
Definition getitem (d : dict) (k : string) : result pyval :=
  match d !! k with
  | Some x => Ok x
  | None => Raise (KeyError k)
  end.

(** Items of a nested [dict]: [d[k] = v] keeps the place of a key that is
    already there and appends a new one. *)
Fixpoint items_set (k : string) (v : pyval) (d : list (string * pyval))
  : list (string * pyval) :=
  match d with
  | [] => [(k, v)]
  | (k', v') :: d' =>
      if String.eqb k k' then (k, v) :: d' else (k', v') :: items_set k v d'
  end.

Fixpoint items_get (k : string) (d : list (string * pyval)) : option pyval :=
  match d with
  | [] => None
  | (k', v') :: d' => if String.eqb k k' then Some v' else items_get k d'
  end.

(** Truth value of an object ([if x:], [not x]). *)
Definition float_is_zero (f : spec_float) : bool :=
  match f with S754_zero _ => true | _ => false end.

Definition truthy (v : pyval) : bool :=
  match v with
  | PNone => false
  | PBool b => b
  | PInt z => negb (z =? 0)
  | PFloat f => negb (float_is_zero f)
  | PStr s => negb (String.eqb s "")
  | PList l => match l with [] => false | _ => true end
  | PDict d => match d with [] => false | _ => true end
  end.

(** Truth value of a record: it has an item. *)
Definition dict_truthy (d : dict) : bool := negb (size d =? 0)%nat.

(** [v == s] for a string literal [s]: only the same [str] is equal to it. *)
Definition eq_str (v : pyval) (s : string) : bool :=
  match v with
  | PStr t => String.eqb t s
  | _ => false
  end.

End Py.

(* ===================================================================== *)
(** * Text: the string operations and regular expressions of the sources *)
(* ===================================================================== *)

Module Text.

Definition byte (c : ascii) : Z := Z.of_N (N_of_ascii c).

(** [str(n)] of an integer. *)
Definition str_of_Z (z : Z) : string := NilZero.string_of_int (Z.to_int z).
Definition str_of_nat (n : nat) : string := NilZero.string_of_uint (Nat.to_uint n).

(** [sep.join(l)] *)
Fixpoint join (sep : string) (l : list string) : string :=
  match l with
  | [] => ""
  | [x] => x
  | x :: l' => x +:+ sep +:+ join sep l'
  end.

(** Number of bytes of the character at the head of [s] when the pattern
    [\s] matches it, 0 when it does not.  For a [str] pattern [\s] is
    Unicode white space: U+0009-000D, U+001C-0020, U+0085, U+00A0, U+1680,
    U+2000-200A, U+2028, U+2029, U+202F, U+205F and U+3000. *)
Definition ws_len (s : string) : nat :=
  match s with
  | "" => 0%nat
  | String a r =>
      let x := byte a in
      if (9 <=? x) && (x <=? 13) || (28 <=? x) && (x <=? 32) then 1%nat
      else
        match r with
        | String b r' =>
            let y := byte b in
            if (x =? 0xC2) && ((y =? 0x85) || (y =? 0xA0)) then 2%nat
            else
              match r' with
              | String c _ =>
                  let z := byte c in
                  if (x =? 0xE1) && (y =? 0x9A) && (z =? 0x80) then 3%nat
                  else if (x =? 0xE2) && (y =? 0x80)
                          && ((0x80 <=? z) && (z <=? 0x8A) || (z =? 0xA8)
                              || (z =? 0xA9) || (z =? 0xAF)) then 3%nat
                  else if (x =? 0xE2) && (y =? 0x81) && (z =? 0x9F) then 3%nat
                  else if (x =? 0xE3) && (y =? 0x80) && (z =? 0x80) then 3%nat
                  else 0%nat
              | "" => 0%nat
              end
        | "" => 0%nat
        end
  end.

(** [re.sub(r'\s+', ' ', text)]: every maximal run of white space becomes
    one space.  [in_run] says that the previous character was white space,
    [skip] counts the bytes of a white-space character still to pass. *)
Fixpoint collapse_ws (in_run : bool) (skip : nat) (s : string) : string :=
  match s with
  | "" => ""
  | String c s' =>
      match skip with
      | S k => collapse_ws in_run k s'
      | O =>
          match ws_len s with
          | O => String c (collapse_ws false 0 s')
          | S k =>
              if in_run then collapse_ws true k s'
              else String " " (collapse_ws true k s')
          end
      end
  end.

(** [text.strip()] where the only white space of [text] is the space (the
    state of [text] after [collapse_ws]). *)
Fixpoint lstrip (s : string) : string :=
  match s with
  | String c s' => if Ascii.eqb c " " then lstrip s' else s
  | "" => ""
  end.

Fixpoint rstrip (s : string) : string :=
  match s with
  | "" => ""
  | String c s' =>
      let r := rstrip s' in
      if Ascii.eqb c " " && String.eqb r "" then "" else String c r
  end.

Definition strip (s : string) : string := rstrip (lstrip s).

(** Lower case of an ASCII letter; other bytes unchanged. *)
Definition lower (c : ascii) : ascii :=
  let x := byte c in
  if (65 <=? x) && (x <=? 90) then ascii_of_N (Z.to_N (x + 32)) else c.

(** The literal character [p] of a pattern compiled with [re.IGNORECASE],
    matched at the head of [s]: the rest of [s] after it.  Besides the two
    cases of an ASCII letter, the letter s also matches U+017F (long s). *)
Definition ci_char (p : ascii) (s : string) : option string :=
  match s with
  | "" => None
  | String a r =>
      if Ascii.eqb (lower a) (lower p) then Some r
      else if Ascii.eqb (lower p) "s" && (byte a =? 0xC5) then
        match r with
        | String b r' => if byte b =? 0xBF then Some r' else None
        | "" => None
        end
      else None
  end.

Fixpoint ci_prefix (pat s : string) : option string :=
  match pat with
  | "" => Some s
  | String p pat' =>
      match ci_char p s with
      | Some r => ci_prefix pat' r
      | None => None
      end
  end.

Definition newline : ascii := ascii_of_N 10.

(** [.*?Show less] at the head of [s], ignoring case: the rest of [s] after
    the nearest [Show less]; [.] stops at a line feed. *)
Fixpoint lazy_show_less (s : string) : option string :=
  match ci_prefix "Show less" s with
  | Some r => Some r
  | None =>
      match s with
      | "" => None
      | String c s' => if Ascii.eqb c newline then None else lazy_show_less s'
      end
  end.

(** [re.sub(r'Show more.*?Show less', '', text, flags=re.IGNORECASE)] *)
Fixpoint sub_show_more (skip : nat) (s : string) : string :=
  match s with
  | "" => ""
  | String c s' =>
      match skip with
      | S k => sub_show_more k s'
      | O =>
          match ci_prefix "Show more" s with
          | Some r =>
              match lazy_show_less r with
              | Some rest =>
                  sub_show_more (String.length s - String.length rest - 1) s'
              | None => String c (sub_show_more 0 s')
              end
          | None => String c (sub_show_more 0 s')
          end
      end
  end.

(** Does the character [c] occur in [s]? *)
Fixpoint occurs (c : ascii) (s : string) : bool :=
  match s with
  | "" => false
  | String a r => Ascii.eqb a c || occurs c r
  end.

(** [s] from its first [{] on. *)
Fixpoint from_first_lbrace (s : string) : option string :=
  match s with
  | "" => None
  | String c s' => if Ascii.eqb c "{" then Some s else from_first_lbrace s'
  end.

(** The longest prefix of [s] that ends with [}]. *)
Fixpoint upto_last_rbrace (s : string) : option string :=
  match s with
  | "" => None
  | String c s' =>
      match upto_last_rbrace s' with
      | Some p => Some (String c p)
      | None => if Ascii.eqb c "}" then Some (String c "") else None
      end
  end.

(** [re.search(r'\{.*\}', content, re.DOTALL)] and [.group()]: the match
    starts at the first [{] and, [.*] being greedy and matching every
    character, ends at the last [}] after it. *)
Definition search_braces (content : string) : option string :=
  match from_first_lbrace content with
  | Some (String c t) =>
      match upto_last_rbrace t with
      | Some p => Some (String c p)
      | None => None
      end
  | _ => None
  end.

End Text.

(* ===================================================================== *)
(** * Numbers: Python's [int] and [float] arithmetic used by the report *)
(* ===================================================================== *)

Module Num.
Import Py.
Local Open Scope result_scope.

Definition prec : Z := 53.
Definition emax : Z := 1024.

(** A number: an [int] (a [bool] counts as 0 or 1) or a [float]. *)
Inductive num : Type :=
| NInt (z : Z)
| NFloat (f : spec_float).

Definition as_num (v : pyval) : option num :=
  match v with
  | PBool b => Some (NInt (if b then 1 else 0))
  | PInt z => Some (NInt z)
  | PFloat f => Some (NFloat f)
  | _ => None
  end.

(** [float(n)] of an integer: correctly rounded, [OverflowError] past the
    largest double. *)
Definition float_of_int (z : Z) : result spec_float :=
  match binary_normalize prec emax z 0 false with
  | S754_infinity _ => Raise OverflowError
  | f => Ok f
  end.

(** The double nearest to [digits * 10 ^ exp10], as [float(text)] and
    [json.loads] read a decimal numeral. *)
Definition float_of_decimal (neg : bool) (digits exp10 : Z) : spec_float :=
  match digits with
  | Zpos p =>
      if 0 <=? exp10 then
        binary_normalize prec emax ((if neg then -1 else 1) * digits * 10 ^ exp10) 0 false
      else
        match 10 ^ (- exp10) with
        | Zpos q => SFdiv prec emax (S754_finite neg p 0) (S754_finite false q 0)
        | _ => S754_nan
        end
  | _ => S754_zero neg
  end.

(** Exact comparison of an integer with a double ([None]: unordered). *)
Definition cmp_int_float (z : Z) (f : spec_float) : option comparison :=
  match f with
  | S754_nan => None
  | S754_infinity s => Some (if s then Gt else Lt)
  | S754_zero _ => Some (z ?= 0)
  | S754_finite s m e =>
      let v := if s then Zneg m else Zpos m in
      if 0 <=? e then Some (z ?= v * 2 ^ e) else Some (z * 2 ^ (- e) ?= v)
  end.

Definition cmp_num (a b : num) : option comparison :=
  match a, b with
  | NInt x, NInt y => Some (x ?= y)
  | NInt x, NFloat g => cmp_int_float x g
  | NFloat f, NInt y => option_map CompOpp (cmp_int_float y f)
  | NFloat f, NFloat g => SFcompare f g
  end.

(** [a + b] *)
Definition add (a b : num) : result num :=
  match a, b with
  | NInt x, NInt y => Ok (NInt (x + y))
  | NInt x, NFloat g =>
      f ← float_of_int x; Ok (NFloat (SFadd prec emax f g))
  | NFloat f, NInt y =>
      g ← float_of_int y; Ok (NFloat (SFadd prec emax f g))
  | NFloat f, NFloat g => Ok (NFloat (SFadd prec emax f g))
  end.

(** [a / n] for an integer [n] (true division): the quotient of two
    integers is correctly rounded. *)
Definition true_div (a : num) (n : Z) : result spec_float :=
  if n =? 0 then Raise ZeroDivisionError
  else
    match a with
    | NInt x =>
        match x, n with
        | Z0, _ => Ok (S754_zero false)
        | _, Z0 => Raise ZeroDivisionError
        | _, _ =>
            match SFdiv prec emax
                    (S754_finite (x <? 0) (Z.to_pos (Z.abs x)) 0)
                    (S754_finite (n <? 0) (Z.to_pos (Z.abs n)) 0) with
            | S754_infinity _ => Raise OverflowError
            | q => Ok q
            end
        end
    | NFloat f => g ← float_of_int n; Ok (SFdiv prec emax f g)
    end.

(** [num / den] rounded to the nearest integer, ties to even
    ([0 <= num], [0 < den]). *)
Definition round_half_even (n d : Z) : Z :=
  let q := n / d in
  let r := n mod d in
  if (d <? 2 * r) || ((2 * r =? d) && Z.odd q) then q + 1 else q.

(** [format(f, '.1f')] *)
Definition format_1f (f : spec_float) : string :=
  match f with
  | S754_nan => "nan"
  | S754_infinity s => if s then "-inf" else "inf"
  | S754_zero s => if s then "-0.0" else "0.0"
  | S754_finite s m e =>
      let t := if 0 <=? e then Zpos m * 2 ^ e * 10
               else round_half_even (Zpos m * 10) (2 ^ (- e)) in
      (if s then "-" else "") +:+ Text.str_of_Z (t / 10) +:+ "."
        +:+ Text.str_of_Z (t mod 10)
  end.

(** ** [repr] of a [float]: the shortest decimal that reads back as it *)

(** The positive double [m * 2 ^ e] as the fraction [r / s], with the
    distances [mminus] and [mplus] (over [s]) to the ends of the interval of
    reals that round to it. *)
Record interval := {
  i_r : Z;
  i_s : Z;
  i_mminus : Z;
  i_mplus : Z;
  i_closed : bool
}.

Definition interval_of (m : positive) (e : Z) : interval :=
  let up := 2 ^ Z.max e 0 in
  let boundary := (Zpos m =? 2 ^ 52) && (-1074 <? e) in
  {| i_r := 4 * Zpos m * up;
     i_s := 4 * 2 ^ Z.max (- e) 0;
     i_mminus := if boundary then up else 2 * up;
     i_mplus := 2 * up;
     i_closed := Z.even (Zpos m) |}.

(** Does [d * 10 ^ x] round to the double of [i]? *)
Definition inside (i : interval) (d x : Z) : bool :=
  let a := if 0 <=? x then d * 10 ^ x * i_s i else d * i_s i in
  let b := if 0 <=? x then 1 else 10 ^ (- x) in
  let lo := (i_r i - i_mminus i) * b in
  let hi := (i_r i + i_mplus i) * b in
  if i_closed i then (lo <=? a) && (a <=? hi) else (lo <? a) && (a <? hi).

(** The exponent [k] of the leading decimal digit:
    [10 ^ k <= r / s < 10 ^ (k + 1)]. *)
Fixpoint leading_exp (fuel : nat) (i : interval) (k : Z) : Z :=
  match fuel with
  | O => k
  | S fuel' =>
      let above :=
        if 0 <=? k + 1 then i_s i * 10 ^ (k + 1) <=? i_r i
        else i_s i <=? i_r i * 10 ^ (- (k + 1)) in
      if above then leading_exp fuel' i (k + 1) else k
  end.

(** The [n]-digit decimals next to the double, nearest first. *)
Definition candidates (i : interval) (k n : Z) : list (Z * Z) :=
  let x := k - n + 1 in
  let nn := if 0 <=? x then i_r i else i_r i * 10 ^ (- x) in
  let dd := if 0 <=? x then i_s i * 10 ^ x else i_s i in
  let q := nn / dd in
  let r := nn mod dd in
  if (2 * r <? dd) || ((2 * r =? dd) && Z.even q)
  then [(q, x); (q + 1, x)] else [(q + 1, x); (q, x)].

Fixpoint shortest (fuel : nat) (i : interval) (k n : Z) : Z * Z :=
  match fuel with
  | O => (round_half_even (i_r i * 10 ^ Z.max (16 - k) 0)
                          (i_s i * 10 ^ Z.max (k - 16) 0), k - 16)
  | S fuel' =>
      match filter (fun c => inside i c.1 c.2) (candidates i k n) with
      | c :: _ => c
      | [] => shortest fuel' i k (n + 1)
      end
  end.

Fixpoint strip_zeros (fuel : nat) (d x : Z) : Z * Z :=
  match fuel with
  | O => (d, x)
  | S fuel' =>
      if (d mod 10 =? 0) && negb (d =? 0) then strip_zeros fuel' (d / 10) (x + 1)
      else (d, x)
  end.

Fixpoint zeros (n : nat) : string :=
  match n with
  | O => ""
  | S n' => String "0" (zeros n')
  end.

Definition substring_from (n : nat) (s : string) : string :=
  String.substring n (String.length s - n) s.

(** The digits [ds] with the decimal point after [decpt] of them, as
    [repr] lays them out: exponent form when [decpt <= -4] or [16 < decpt]. *)
Definition layout (ds : string) (decpt : Z) : string :=
  let len := Z.of_nat (String.length ds) in
  if (decpt <=? -4) || (16 <? decpt) then
    let e := decpt - 1 in
    let mant := match ds with
                | String c "" => String c ""
                | String c rest => String c ("." +:+ rest)
                | "" => ""
                end in
    let es := Text.str_of_Z (Z.abs e) in
    mant +:+ "e" +:+ (if e <? 0 then "-" else "+")
         +:+ (if Z.abs e <? 10 then "0" else "") +:+ es
  else if decpt <=? 0 then "0." +:+ zeros (Z.to_nat (- decpt)) +:+ ds
  else if len <=? decpt then ds +:+ zeros (Z.to_nat (decpt - len)) +:+ ".0"
  else String.substring 0 (Z.to_nat decpt) ds +:+ "."
         +:+ substring_from (Z.to_nat decpt) ds.

(** [repr(f)] and [str(f)] of a float. *)
Definition repr_float (f : spec_float) : string :=
  match f with
  | S754_nan => "nan"
  | S754_infinity s => if s then "-inf" else "inf"
  | S754_zero s => if s then "-0.0" else "0.0"
  | S754_finite s m e =>
      let i := interval_of m e in
      let b := Z.log2 (Zpos m) + e in
      let k := leading_exp 6 i (b * 30103 / 100000 - 2) in
      let '(d0, x0) := shortest 17 i k 1 in
      let '(d, x) := strip_zeros 400 d0 x0 in
      let ds := Text.str_of_Z d in
      (if s then "-" else "") +:+ layout ds (Z.of_nat (String.length ds) + x)
  end.

End Num.

(* ===================================================================== *)
(** * [str], [repr], [==] and [<] of Python objects *)
(* ===================================================================== *)

Module Obj.
Import Py.

Definition hex_digit (n : Z) : ascii :=
  if n <? 10 then ascii_of_N (Z.to_N (48 + n)) else ascii_of_N (Z.to_N (87 + n)).

Definition contains (c : ascii) (s : string) : bool :=
  existsb (Ascii.eqb c) (list_ascii_of_string s).

(** Body of [repr] of a [str] quoted with [q].  Bytes of characters outside
    ASCII are kept as they are (they are taken to be printable). *)
Fixpoint repr_str_body (q : ascii) (s : string) : string :=
  match s with
  | "" => ""
  | String c s' =>
      let x := Text.byte c in
      let rest := repr_str_body q s' in
      if Ascii.eqb c q || (x =? 92) then String (ascii_of_N 92) (String c rest)
      else if x =? 9 then String (ascii_of_N 92) (String "t" rest)
      else if x =? 10 then String (ascii_of_N 92) (String "n" rest)
      else if x =? 13 then String (ascii_of_N 92) (String "r" rest)
      else if (x <? 32) || (x =? 127) then
        String (ascii_of_N 92)
          (String "x" (String (hex_digit (x / 16)) (String (hex_digit (x mod 16)) rest)))
      else String c rest
  end.

Definition squote : ascii := ascii_of_N 39.
Definition dquote : ascii := ascii_of_N 34.

Definition repr_str (s : string) : string :=
  let q := if contains squote s && negb (contains dquote s) then dquote else squote in
  String q (repr_str_body q s +:+ String q "").

(** [repr(v)] *)
Fixpoint repr (v : pyval) : string :=
  match v with
  | PNone => "None"
  | PBool b => if b then "True" else "False"
  | PInt z => Text.str_of_Z z
  | PFloat f => Num.repr_float f
  | PStr s => repr_str s
  | PList l => "[" +:+ Text.join ", " (map repr l) +:+ "]"
  | PDict d =>
      "{" +:+ Text.join ", " (map (fun kv => repr_str kv.1 +:+ ": " +:+ repr kv.2) d)
          +:+ "}"
  end.

(** [str(v)], which is also how an f-string lays [{v}] out. *)
Definition str (v : pyval) : string :=
  match v with
  | PStr s => s
  | _ => repr v
  end.

(** [a == b] *)
Fixpoint eq (a b : pyval) : bool :=
  match a, b with
  | PNone, PNone => true
  | PStr s, PStr t => String.eqb s t
  | PList l1, PList l2 =>
      (fix go (l1 l2 : list pyval) : bool :=
         match l1, l2 with
         | [], [] => true
         | x :: l1', y :: l2' => eq x y && go l1' l2'
         | _, _ => false
         end) l1 l2
  | PDict d1, PDict d2 =>
      (length d1 =? length d2)%nat
      && (fix go (d : list (string * pyval)) : bool :=
            match d with
            | [] => true
            | (k, v) :: d' =>
                match items_get k d2 with
                | Some w => eq v w
                | None => false
                end && go d'
            end) d1
  | _, _ =>
      match Num.as_num a, Num.as_num b with
      | Some x, Some y =>
          match Num.cmp_num x y with Some Eq => true | _ => false end
      | _, _ => false
      end
  end.

(** [a < b]: numbers by value, strings and lists lexicographically,
    [TypeError] otherwise. *)
Fixpoint lt (a b : pyval) : result bool :=
  match a, b with
  | PStr s, PStr t => Ok (String.ltb s t)
  | PList l1, PList l2 =>
      (fix go (l1 l2 : list pyval) : result bool :=
         match l1, l2 with
         | [], [] => Ok false
         | [], _ :: _ => Ok true
         | _ :: _, [] => Ok false
         | x :: l1', y :: l2' => if eq x y then go l1' l2' else lt x y
         end) l1 l2
  | _, _ =>
      match Num.as_num a, Num.as_num b with
      | Some x, Some y =>
          Ok match Num.cmp_num x y with Some Lt => true | _ => false end
      | _, _ => Raise TypeError
      end
  end.

(** [a >= n] and [a < n] for an integer literal [n]: a number is compared
    by value (nothing holds of a NaN), any other object raises. *)
Definition ge_int (a : pyval) (n : Z) : result bool :=
  match Num.as_num a with
  | Some x =>
      Ok match Num.cmp_num x (Num.NInt n) with
         | Some Gt | Some Eq => true
         | _ => false
         end
  | None => Raise TypeError
  end.

Definition lt_int (a : pyval) (n : Z) : result bool :=
  match Num.as_num a with
  | Some x =>
      Ok match Num.cmp_num x (Num.NInt n) with
         | Some Lt => true
         | _ => false
         end
  | None => Raise TypeError
  end.

End Obj.

(* ===================================================================== *)
(** * [json.loads] *)
(* ===================================================================== *)

Module Json.
Import Py.

(** White space between tokens: space, tab, line feed, carriage return. *)
Definition is_ws (c : ascii) : bool :=
  let x := Text.byte c in
  (x =? 32) || (x =? 9) || (x =? 10) || (x =? 13).

Fixpoint skip_ws (s : string) : string :=
  match s with
  | String c s' => if is_ws c then skip_ws s' else s
  | "" => ""
  end.

Definition is_digit (c : ascii) : bool :=
  let x := Text.byte c in (48 <=? x) && (x <=? 57).

(** The digits at the head of [s] and what follows them. *)
Fixpoint take_digits (s : string) : string * string :=
  match s with
  | String c s' =>
      if is_digit c then let '(d, r) := take_digits s' in (String c d, r)
      else ("", s)
  | "" => ("", "")
  end.

Fixpoint Z_of_digits (acc : Z) (s : string) : Z :=
  match s with
  | String c s' => Z_of_digits (10 * acc + (Text.byte c - 48)) s'
  | "" => acc
  end.

(** [p] removed from the head of [s]. *)
Fixpoint strip_prefix (p s : string) : option string :=
  match p, s with
  | "", _ => Some s
  | String a p', String b s' => if Ascii.eqb a b then strip_prefix p' s' else None
  | String _ _, "" => None
  end.

(** The interpreter's limit on the digits of an integer numeral
    ([sys.get_int_max_str_digits()], 4300 unless configured). *)
Definition int_max_str_digits : nat := 4300.

(** A numeral at the head of [s]: an optional minus, then 0 or digits that
    do not start with 0, then an optional fraction (a point and digits) and
    an optional exponent (e or E, an optional sign, digits).  It is an
    [int] without fraction and exponent, else a [float]. *)
Definition parse_number (s : string) : option (pyval * string) :=
  let '(neg, s1) :=
    match s with
    | String c r => if Ascii.eqb c "-" then (true, r) else (false, s)
    | "" => (false, s)
    end in
  let int_part :=
    match s1 with
    | String c r =>
        if Ascii.eqb c "0" then Some ("0", r)
        else if is_digit c then Some (take_digits s1)
        else None
    | "" => None
    end in
  match int_part with
  | None => None
  | Some (ds, r1) =>
      let '(frac, r2) :=
        match r1 with
        | String c r =>
            if Ascii.eqb c "." then
              match take_digits r with
              | ("", _) => ("", r1)
              | (fd, r') => (fd, r')
              end
            else ("", r1)
        | "" => ("", r1)
        end in
      let '(ex, r3) :=
        match r2 with
        | String c r =>
            if Ascii.eqb c "e" || Ascii.eqb c "E" then
              let '(eneg, rs) :=
                match r with
                | String g r' =>
                    if Ascii.eqb g "-" then (true, r')
                    else if Ascii.eqb g "+" then (false, r')
                    else (false, r)
                | "" => (false, r)
                end in
              match take_digits rs with
              | ("", _) => (None, r2)
              | (ed, r') =>
                  (Some (if eneg then - Z_of_digits 0 ed else Z_of_digits 0 ed), r')
              end
            else (None, r2)
        | "" => (None, r2)
        end in
      match frac, ex with
      | "", None =>
          if (int_max_str_digits <? String.length ds)%nat then None
          else Some (PInt (if neg then - Z_of_digits 0 ds else Z_of_digits 0 ds), r3)
      | _, _ =>
          let e := match ex with Some e => e | None => 0 end in
          Some (PFloat (Num.float_of_decimal neg (Z_of_digits 0 (ds +:+ frac))
                          (e - Z.of_nat (String.length frac))), r3)
      end
  end.

Definition hex_val (c : ascii) : option Z :=
  let x := Text.byte c in
  if (48 <=? x) && (x <=? 57) then Some (x - 48)
  else if (97 <=? x) && (x <=? 102) then Some (x - 87)
  else if (65 <=? x) && (x <=? 70) then Some (x - 55)
  else None.

Definition hex4 (a b c d : ascii) : option Z :=
  match hex_val a, hex_val b, hex_val c, hex_val d with
  | Some w, Some x, Some y, Some z => Some (((w * 16 + x) * 16 + y) * 16 + z)
  | _, _, _, _ => None
  end.

Definition chr (n : Z) : ascii := ascii_of_N (Z.to_N n).

(** UTF-8 bytes of a code point (a lone surrogate gets its three bytes). *)
Definition utf8 (cp : Z) : string :=
  if cp <? 0x80 then String (chr cp) ""
  else if cp <? 0x800 then
    String (chr (0xC0 + cp / 64)) (String (chr (0x80 + cp mod 64)) "")
  else if cp <? 0x10000 then
    String (chr (0xE0 + cp / 4096))
      (String (chr (0x80 + cp / 64 mod 64)) (String (chr (0x80 + cp mod 64)) ""))
  else
    String (chr (0xF0 + cp / 262144))
      (String (chr (0x80 + cp / 4096 mod 64))
         (String (chr (0x80 + cp / 64 mod 64)) (String (chr (0x80 + cp mod 64)) ""))).

Definition simple_escape (c : ascii) : option ascii :=
  let x := Text.byte c in
  if (x =? 34) || (x =? 92) || (x =? 47) then Some c
  else if Ascii.eqb c "b" then Some (chr 8)
  else if Ascii.eqb c "f" then Some (chr 12)
  else if Ascii.eqb c "n" then Some (chr 10)
  else if Ascii.eqb c "r" then Some (chr 13)
  else if Ascii.eqb c "t" then Some (chr 9)
  else None.

Definition backslash : ascii := chr 92.

(** A string literal after its opening quote (strict mode): its value and
    what follows the closing quote. *)
Fixpoint scanstring (s : string) : option (string * string) :=
  match s with
  | "" => None
  | String c r =>
      if Ascii.eqb c Obj.dquote then Some ("", r)
      else if Ascii.eqb c backslash then
        match r with
        | "" => None
        | String e r' =>
            match simple_escape e with
            | Some ch =>
                match scanstring r' with
                | Some (t, rest) => Some (String ch t, rest)
                | None => None
                end
            | None =>
                if Ascii.eqb e "u" then
                  match r' with
                  | String h1 (String h2 (String h3 (String h4 r2))) =>
                      match hex4 h1 h2 h3 h4 with
                      | None => None
                      | Some hi =>
                          let single :=
                            match scanstring r2 with
                            | Some (t, rest) => Some (utf8 hi +:+ t, rest)
                            | None => None
                            end in
                          if (0xD800 <=? hi) && (hi <=? 0xDBFF) then
                            match r2 with
                            | String b (String u (String l1 (String l2
                                (String l3 (String l4 r3))))) =>
                                if Ascii.eqb b backslash && Ascii.eqb u "u" then
                                  match hex4 l1 l2 l3 l4 with
                                  | None => None
                                  | Some lo =>
                                      if (0xDC00 <=? lo) && (lo <=? 0xDFFF) then
                                        match scanstring r3 with
                                        | Some (t, rest) =>
                                            Some (utf8 (0x10000 + (hi - 0xD800) * 1024
                                                        + (lo - 0xDC00)) +:+ t, rest)
                                        | None => None
                                        end
                                      else single
                                  end
                                else single
                            | _ => single
                            end
                          else single
                      end
                  | _ => None
                  end
                else None
            end
        end
      else if Text.byte c <? 32 then None
      else
        match scanstring r with
        | Some (t, rest) => Some (String c t, rest)
        | None => None
        end
  end.

Definition nan : spec_float := S754_nan.

(** One JSON value at the head of [s] ([scan_once]), the members of an
    object from a key on, and the elements of an array.  Every call gets a
    shorter text than its caller's, so [fuel] beyond the length of the text
    is never used up. *)
Fixpoint scan_once (fuel : nat) (s : string) : option (pyval * string) :=
  match fuel with
  | O => None
  | S fuel' =>
      match s with
      | "" => None
      | String c r =>
          if Ascii.eqb c Obj.dquote then
            match scanstring r with
            | Some (t, rest) => Some (PStr t, rest)
            | None => None
            end
          else if Ascii.eqb c "{" then
            match skip_ws r with
            | String c1 r1 =>
                if Ascii.eqb c1 "}" then Some (PDict [], r1)
                else if Ascii.eqb c1 Obj.dquote then members fuel' r1 []
                else None
            | "" => None
            end
          else if Ascii.eqb c "[" then
            match skip_ws r with
            | String c1 r1 =>
                if Ascii.eqb c1 "]" then Some (PList [], r1)
                else elements fuel' (String c1 r1) []
            | "" => None
            end
          else
            match strip_prefix "null" s, strip_prefix "true" s,
                  strip_prefix "false" s with
            | Some rest, _, _ => Some (PNone, rest)
            | _, Some rest, _ => Some (PBool true, rest)
            | _, _, Some rest => Some (PBool false, rest)
            | None, None, None =>
                match parse_number s with
                | Some res => Some res
                | None =>
                    match strip_prefix "NaN" s, strip_prefix "Infinity" s,
                          strip_prefix "-Infinity" s with
                    | Some rest, _, _ => Some (PFloat nan, rest)
                    | _, Some rest, _ => Some (PFloat (S754_infinity false), rest)
                    | _, _, Some rest => Some (PFloat (S754_infinity true), rest)
                    | None, None, None => None
                    end
                end
            end
      end
  end

(** [s] follows the opening quote of a key; [acc] holds the items so far. *)
with members (fuel : nat) (s : string) (acc : list (string * pyval))
  : option (pyval * string) :=
  match fuel with
  | O => None
  | S fuel' =>
      match scanstring s with
      | None => None
      | Some (key, r1) =>
          match skip_ws r1 with
          | String c r2 =>
              if Ascii.eqb c ":" then
                match scan_once fuel' (skip_ws r2) with
                | None => None
                | Some (v, r3) =>
                    let acc' := items_set key v acc in
                    match skip_ws r3 with
                    | String c3 r4 =>
                        if Ascii.eqb c3 "}" then Some (PDict acc', r4)
                        else if Ascii.eqb c3 "," then
                          match skip_ws r4 with
                          | String c5 r5 =>
                              if Ascii.eqb c5 Obj.dquote then members fuel' r5 acc'
                              else None
                          | "" => None
                          end
                        else None
                    | "" => None
                    end
                end
              else None
          | "" => None
          end
      end
  end

(** [s] is at an element; [acc] holds the elements so far, last first. *)
with elements (fuel : nat) (s : string) (acc : list pyval)
  : option (pyval * string) :=
  match fuel with
  | O => None
  | S fuel' =>
      match scan_once fuel' s with
      | None => None
      | Some (v, r1) =>
          match skip_ws r1 with
          | String c r2 =>
              if Ascii.eqb c "]" then Some (PList (rev (v :: acc)), r2)
              else if Ascii.eqb c "," then elements fuel' (skip_ws r2) (v :: acc)
              else None
          | "" => None
          end
      end
  end.

(** The byte order mark U+FEFF, which [json.loads] refuses. *)
Definition bom : string := String (chr 0xEF) (String (chr 0xBB) (String (chr 0xBF) "")).

(** [json.loads(s)]: [None] stands for a raised exception (a
    [JSONDecodeError], or the [ValueError] of an over-long integer).  The
    interpreter's recursion limit on nesting is not modelled. *)
Definition loads (s : string) : option pyval :=
  match strip_prefix bom s with
  | Some _ => None
  | None =>
      match scan_once (S (String.length s)) (skip_ws s) with
      | Some (v, rest) =>
          match skip_ws rest with
          | "" => Some v
          | String _ _ => None
          end
      | None => None
      end
  end.

End Json.

(* ===================================================================== *)
(** * resume_job_matcher.py: the Matching and Reporting stages *)
(* ===================================================================== *)

Module Matcher.
Import Py.
Local Open Scope result_scope.

(** ** The world of the two stages *)

(** A reading of [datetime.now()]. *)
Record datetime := {
  year : nat;
  month : nat;
  day : nat;
  hour : nat;
  minute : nat;
  second : nat;
  microsecond : nat
}.

(** [n] in at least [w] digits. *)
Definition pad (w n : nat) : string :=
  let s := Text.str_of_nat n in
  Num.zeros (w - String.length s) +:+ s.

(** [t.strftime('%Y-%m-%d %H:%M:%S')] *)
Definition strftime (t : datetime) : string :=
  pad 4 (year t) +:+ "-" +:+ pad 2 (month t) +:+ "-" +:+ pad 2 (day t) +:+ " "
    +:+ pad 2 (hour t) +:+ ":" +:+ pad 2 (minute t) +:+ ":" +:+ pad 2 (second t).

(** [t.isoformat()]: the microseconds are left out when they are 0. *)
Definition isoformat (t : datetime) : string :=
  pad 4 (year t) +:+ "-" +:+ pad 2 (month t) +:+ "-" +:+ pad 2 (day t) +:+ "T"
    +:+ pad 2 (hour t) +:+ ":" +:+ pad 2 (minute t) +:+ ":" +:+ pad 2 (second t)
    +:+ (if (microsecond t =? 0)%nat then "" else "." +:+ pad 6 (microsecond t)).

(** What [client.chat.completions.create(...)] followed by
    [response.choices[0].message.content] gives: an exception (network,
    key, rate limit, no choice), or the content, which may be [None]. *)
Inductive reply : Type :=
| Failed
| Content (c : option string).

(** The collaborators: the inference service answers its [n]-th request
    from the prompt, the clock gives its [n]-th reading. *)
Record env := {
  llm : nat -> string -> reply;
  now : nat -> datetime
}.

(** What a run changes: the requests made, the clock readings taken, and
    the JSON files, each a sequence of records. *)
Record state := {
  calls : nat;
  ticks : nat;
  files : gmap string (list dict)
}.

Definition tick (st : state) : state :=
  {| calls := calls st; ticks := S (ticks st); files := files st |}.

Definition called (st : state) : state :=
  {| calls := S (calls st); ticks := ticks st; files := files st |}.

(** ** [ResumeJobMatcher.clean_text] *)

Definition clean_text (text : pyval) : result string :=
  if negb (truthy text) then Ok ""
  else
    match text with
    | PStr s =>
        (* Remove extra whitespace and normalize *)
        let text1 := Text.collapse_ws false 0 s in
        let text2 := Text.strip text1 in
        (* Remove "Show more/Show less" artifacts *)
        Ok (Text.sub_show_more 0 text2)
    | _ => Raise TypeError
    end.

(** ** [ResumeJobMatcher.calculate_match_score] *)

(** The prompt (an f-string). *)
Definition match_prompt (resume_text job_description : string)
    (job_title company : pyval) : string :=
  "
        As an expert technical recruiter, analyze how well this resume matches the job requirements.
        
        RESUME:
        "
  +:+ resume_text +:+
  "
        
        JOB DESCRIPTION:
        "
  +:+ job_description +:+
  "
        
        JOB TITLE: "
  +:+ Obj.str job_title +:+
  "
        COMPANY: "
  +:+ Obj.str company +:+
  "
        
        Provide a comprehensive analysis with:
        
        1. OVERALL MATCH SCORE (0-100): Based on skills, experience, and requirements alignment
        
        2. DETAILED BREAKDOWN:
        - Technical Skills Match (0-100): How well technical skills align
        - Experience Level Match (0-100): Experience years and seniority fit
        - Domain Experience Match (0-100): Relevant industry/domain experience
        - Responsibilities Match (0-100): How past roles align with job duties
        
        3. STRENGTHS: Top 3-5 strongest matching points
        
        4. GAPS: Top 3-5 areas where resume doesn't match requirements
        
        5. KEYWORDS MISSING: Important keywords from job description not in resume
        
        6. RECOMMENDATIONS: Specific advice to improve match score
        
        7. APPLICATION PRIORITY: HIGH/MEDIUM/LOW based on match quality
        
        Format as JSON with keys: overall_score, technical_skills_score, experience_score, domain_score, responsibilities_score, strengths, gaps, missing_keywords, recommendations, priority
        ".

(** [ResumeJobMatcher._create_fallback_analysis] *)
Definition _create_fallback_analysis (E : env) (job_title company : pyval)
    (st : state) : dict * state :=
  (list_to_map
     [("overall_score", PInt 0);
      ("technical_skills_score", PInt 0);
      ("experience_score", PInt 0);
      ("domain_score", PInt 0);
      ("responsibilities_score", PInt 0);
      ("strengths", PList [PStr "Analysis failed - manual review needed"]);
      ("gaps", PList [PStr "Could not analyze - check API connection"]);
      ("missing_keywords", PList []);
      ("recommendations", PList [PStr "Retry analysis or review manually"]);
      ("priority", PStr "UNKNOWN");
      ("job_title", job_title);
      ("company", company);
      ("analysis_timestamp", PStr (isoformat (now E (ticks st))));
      ("error", PStr "AI analysis failed")],
   tick st).

(** The body of the [try]: the request, the search for the JSON span, its
    parse, the metadata.  Whatever is raised there ([json.loads] failing,
    the service failing, a content that is [None], a parsed value that
    takes no item assignment) ends in the [except] branch, which returns
    the fallback analysis, as does the [else] of [if json_match]. *)
Definition calculate_match_score (E : env) (resume_text job_description : string)
    (job_title company : pyval) (st : state) : dict * state :=
  let prompt := match_prompt resume_text job_description job_title company in
  let response := llm E (calls st) prompt in
  let st1 := called st in
  match response with
  | Content (Some content) =>
      (* Extract JSON from response *)
      match Text.search_braces content with
      | Some json_match =>
          match Json.loads json_match with
          | Some (PDict items) =>
              let analysis : dict := list_to_map items in
              (* Add metadata *)
              let analysis := <["job_title" := job_title]> analysis in
              let analysis := <["company" := company]> analysis in
              let analysis :=
                <["analysis_timestamp" := PStr (isoformat (now E (ticks st1)))]>
                  analysis in
              (analysis, tick st1)
          | _ => _create_fallback_analysis E job_title company st1
          end
      | None => _create_fallback_analysis E job_title company st1
      end
  | _ => _create_fallback_analysis E job_title company st1
  end.

(** ** [ResumeJobMatcher.analyze_all_jobs] *)

(** The sort key [lambda x: x.get('overall_score', 0)]. *)
Definition score_key (x : dict) : pyval := get x "overall_score" (PInt 0).

(** [results.sort(key=..., reverse=True)]: a stable sort, highest key
    first, as an insertion sort on [<] of the keys; it raises when a
    comparison it makes raises.  Python's own sort makes other comparisons:
    the two agree when [<] orders the keys totally, and both raise when two
    keys are of kinds that do not compare. *)
Fixpoint insert_desc (x : dict) (l : list dict) : result (list dict) :=
  match l with
  | [] => Ok [x]
  | y :: l' =>
      below ← Obj.lt (score_key x) (score_key y);
      if below then (r ← insert_desc x l'; Ok (y :: r))
      else Ok (x :: l)
  end.

Fixpoint sort_desc (l : list dict) : result (list dict) :=
  match l with
  | [] => Ok []
  | x :: l' => sorted ← sort_desc l'; insert_desc x sorted
  end.

(** The loop over the jobs; [results] is the list built so far. *)
Fixpoint analyze_jobs (E : env) (resume_text : string) (jobs : list dict)
    (results : list dict) (st : state) : result (list dict * state) :=
  match jobs with
  | [] => Ok (results, st)
  | job :: jobs' =>
      let job_id := get job "job_id" (PStr "unknown") in
      let job_title := get job "title" (PStr "No title") in
      let company := get job "company" (PStr "No company") in
      description ← clean_text (get job "description" (PStr ""));
      if String.eqb description "" then
        analyze_jobs E resume_text jobs' results st
      else
        (* Calculate match score *)
        let '(analysis, st') :=
          calculate_match_score E resume_text description job_title company st in
        (* Add job metadata *)
        let analysis := <["job_id" := job_id]> analysis in
        let analysis := <["job_url" := get job "url" (PStr "")]> analysis in
        analyze_jobs E resume_text jobs' (results ++ [analysis])%list st'
  end.

Definition analyze_all_jobs (E : env) (jobs_file resume_text : string)
    (st : state) : result (list dict * state) :=
  (* Load jobs data *)
  match files st !! jobs_file with
  | None => Raise FileNotFoundError
  | Some jobs =>
      '(results, st') ← analyze_jobs E resume_text jobs [] st;
      (* Sort by overall score (highest first) *)
      sorted ← sort_desc results;
      Ok (sorted, st')
  end.

(** ** [ResumeJobMatcher.create_summary_report] *)

Definition nl : string := String (ascii_of_N 10) "".

(** [sum(scores)]: the scores added from the left, starting from 0.
    (CPython from 3.12 on keeps a correction term while it adds floats, so
    a sum of several floats can differ there in the last place; sums of
    integers are exact in both.) *)
Fixpoint sum (acc : Num.num) (scores : list pyval) : result Num.num :=
  match scores with
  | [] => Ok acc
  | s :: scores' =>
      match Num.as_num s with
      | Some x => acc' ← Num.add acc x; sum acc' scores'
      | None => Raise TypeError
      end
  end.

(** [sum(scores) / len(scores)] *)
Definition mean (scores : list pyval) : result spec_float :=
  total ← sum (Num.NInt 0) scores;
  Num.true_div total (Z.of_nat (length scores)).

(** [len([s for s in scores if p(s)])] *)
Fixpoint count_if (p : pyval -> result bool) (scores : list pyval) : result nat :=
  match scores with
  | [] => Ok O
  | s :: scores' =>
      b ← p s;
      n ← count_if p scores';
      Ok (if b then S n else n)
  end.

(** [60 <= s < 80] *)
Definition is_medium (s : pyval) : result bool :=
  b ← Obj.ge_int s 60; if b then Obj.lt_int s 80 else Ok false.

Definition is_cont (c : ascii) : bool :=
  let x := Text.byte c in (0x80 <=? x) && (x <? 0xC0).

(** The characters of a [str], each with its UTF-8 bytes. *)
Definition head_is_cont (s : string) : bool :=
  match s with
  | String d _ => is_cont d
  | "" => false
  end.

Fixpoint chars (s : string) : list string :=
  match s with
  | "" => []
  | String c r =>
      match chars r with
      | g :: gs =>
          if head_is_cont r then String c g :: gs else String c "" :: g :: gs
      | [] => [String c ""]
      end
  end.

(** [', '.join(job.get('strengths', [])[:2])] behind [if strengths:]: the
    text added to the report.  A list gives its first two elements, which
    must be strings; a [str] gives its first two characters; other objects
    take no slice. *)
Definition strengths_line (job : dict) : result string :=
  match get job "strengths" (PList []) with
  | PList l =>
      match take 2 l with
      | [] => Ok ""
      | [PStr a] => Ok (nl +:+ "   Strengths: " +:+ a)
      | [PStr a; PStr b] => Ok (nl +:+ "   Strengths: " +:+ a +:+ ", " +:+ b)
      | _ => Raise TypeError
      end
  | PStr s =>
      match take 2 (chars s) with
      | [] => Ok ""
      | l => Ok (nl +:+ "   Strengths: " +:+ Text.join ", " l)
      end
  | _ => Raise TypeError
  end.

(** One entry of the top 5. *)
Definition top_entry (i : nat) (job : dict) : result string :=
  let score := get job "overall_score" (PInt 0) in
  let title := get job "job_title" (PStr "No title") in
  let company := get job "company" (PStr "No company") in
  let priority := get job "priority" (PStr "UNKNOWN") in
  strengths ← strengths_line job;
  Ok (nl +:+ Text.str_of_nat i +:+ ". " +:+ Obj.str title +:+ " at "
        +:+ Obj.str company
      +:+ nl +:+ "   Score: " +:+ Obj.str score +:+ "/100 | Priority: "
        +:+ Obj.str priority
      +:+ nl +:+ "   Job ID: " +:+ Obj.str (get job "job_id" (PStr "unknown"))
      +:+ strengths +:+ nl).

Fixpoint top_entries (i : nat) (jobs : list dict) : result string :=
  match jobs with
  | [] => Ok ""
  | job :: jobs' =>
      e ← top_entry i job;
      rest ← top_entries (S i) jobs';
      Ok (e +:+ rest)
  end.

Definition count_priority (p : string) (results : list dict) : nat :=
  length (filter (fun j => eq_str (get_none j "priority") p = true) results).

Definition report_head (generated : string) (total : nat) (avg_score : spec_float)
    (high_matches medium_matches : nat) : string :=
  "
üéØ RESUME-JOB MATCH ANALYSIS REPORT
Generated: " +:+ generated +:+
  "

üìà SUMMARY STATISTICS
‚Ä¢ Total Jobs Analyzed: " +:+ Text.str_of_nat total +:+
  "
‚Ä¢ Average Match Score: " +:+ Num.format_1f avg_score +:+
  "/100
‚Ä¢ High Matches (80+): " +:+ Text.str_of_nat high_matches +:+
  " jobs
‚Ä¢ Medium Matches (60-79): " +:+ Text.str_of_nat medium_matches +:+
  " jobs

üîù TOP 5 MATCHES
".

Definition report_foot (high_priority medium_priority : nat) : string :=
  "
üéØ APPLICATION STRATEGY
‚Ä¢ HIGH Priority: " +:+ Text.str_of_nat high_priority +:+
  " jobs - Apply immediately
‚Ä¢ MEDIUM Priority: " +:+ Text.str_of_nat medium_priority +:+
  " jobs - Apply with tailored resume
‚Ä¢ Review top gaps and missing keywords to improve future matches

üìù NEXT STEPS
1. Apply to HIGH priority jobs first
2. Tailor resume for top medium matches
3. Review missing keywords to update resume
4. Focus on addressing top skill gaps
".

Definition create_summary_report (E : env) (results : list dict) (st : state)
  : result (string * state) :=
  match results with
  | [] => Ok ("No jobs analyzed.", st)
  | _ :: _ =>
      (* Calculate statistics *)
      let scores := map score_key results in
      avg_score ← mean scores;
      high_matches ← count_if (fun s => Obj.ge_int s 80) scores;
      medium_matches ← count_if is_medium scores;
      let generated := strftime (now E (ticks st)) in
      let st' := tick st in
      let report :=
        report_head generated (length results) avg_score high_matches
          medium_matches in
      (* Add top 5 matches *)
      top ← top_entries 1 (take 5 results);
      (* Add priority recommendations *)
      let high_priority := count_priority "HIGH" results in
      let medium_priority := count_priority "MEDIUM" results in
      Ok (report +:+ top +:+ report_foot high_priority medium_priority, st')
  end.

End Matcher.

(* ===================================================================== *)
(** * get_jd.py: the Enrichment stage *)
(* ===================================================================== *)

Module GetJD.
Import Py.

(** A fetched page as BeautifulSoup shows it to the stage: for a CSS
    selector, [select_one(selector)] and, when an element matches, its
    [get_text(strip=True)]. *)
Definition soup : Type := string -> option string.

(** The remote site: what the [n]-th request of the run, to [url], gives.
    [None] stands for whatever the [try] of [fetch_job_description]
    catches (a [requests.RequestException], an HTTP error status, a parse
    error). *)
Record env := {
  http_get : nat -> pyval -> option soup
}.

(** What a run changes: the requests made and the JSON files. *)
Record state := {
  requests : nat;
  files : gmap string (list dict)
}.

(** [load_collected_jobs]: a missing file gives the empty list. *)
Definition load_collected_jobs (filename : string) (st : state) : list dict :=
  match files st !! filename with
  | Some jobs => jobs
  | None => []
  end.

(** [for selector in selectors: e = soup.select_one(selector); if e: ...;
    break]: the text of the first selector that matches an element. *)
Fixpoint first_match (page : soup) (selectors : list string) : option string :=
  match selectors with
  | [] => None
  | selector :: rest =>
      match page selector with
      | Some text => Some text
      | None => first_match page rest
      end
  end.

Definition selectors : list string :=
  [".description__text";
   ".show-more-less-html__markup";
   ".jobs-description-content__text";
   ".jobs-box__html-content";
   "[data-testid=" +:+ String Obj.dquote "job-details" +:+ String Obj.dquote "]";
   ".jobs-description__container"].

Definition title_selectors : list string :=
  [".top-card-layout__title";
   ".jobs-unified-top-card__job-title";
   "h1.t-24"].

Definition company_selectors : list string :=
  [".top-card-layout__card .top-card-layout__second-subline a";
   ".jobs-unified-top-card__company-name";
   ".top-card-layout__card .top-card-layout__second-subline"].

Definition location_selectors : list string :=
  [".top-card-layout__card .top-card-layout__third-subline";
   ".jobs-unified-top-card__bullet"].

(** A field of [job_details] that starts as [None]. *)
Definition field (page : soup) (sels : list string) : pyval :=
  match first_match page sels with
  | Some text => PStr text
  | None => PNone
  end.

(** The [job_details] built from a page. *)
Definition job_details_of (page : soup) : dict :=
  let job_description :=
    match first_match page selectors with
    | Some text => text
    | None => ""
    end in
  list_to_map
    [("title", field page title_selectors);
     ("company", field page company_selectors);
     ("location", field page location_selectors);
     ("employment_type", PNone);
     ("seniority_level", PNone);
     ("description", PStr job_description)].

(** [fetch_job_description]: the details, or [None] after an exception. *)
Definition fetch_job_description (E : env) (job_url : pyval) (st : state)
  : option dict * state :=
  let st' := {| requests := S (requests st); files := files st |} in
  match http_get E (requests st) job_url with
  | Some page => (Some (job_details_of page), st')
  | None => (None, st')
  end.

(** [json.dump(jobs, f)] into [output_file]. *)
Definition save (output_file : string) (jobs : list dict) (st : state) : state :=
  {| requests := requests st; files := <[output_file := jobs]> (files st) |}.

(** The loop of [fetch_all_job_descriptions]; [i] counts the jobs from 1
    and [jobs_with_descriptions] is the list built so far.  The state is
    returned with an exception too: what was saved stays saved. *)
Fixpoint fetch_loop (E : env) (output_file : string) (i : nat)
    (jobs_data : list dict) (jobs_with_descriptions : list dict) (st : state)
  : result (list dict) * state :=
  match jobs_data with
  | [] => (Ok jobs_with_descriptions, st)
  | job :: rest =>
      match getitem job "job_id", getitem job "url" with
      | Raise e, _ => (Raise e, st)
      | Ok _, Raise e => (Raise e, st)
      | Ok _, Ok url =>
          let '(job_details, st1) := fetch_job_description E url st in
          let jobs_with_descriptions :=
            match job_details with
            | Some details =>
                if dict_truthy details then
                  (* Merge original job data with fetched details *)
                  (jobs_with_descriptions ++ [details ∪ job])%list
                else (jobs_with_descriptions ++ [job])%list
            | None =>
                (* Keep original job data even if fetch failed *)
                (jobs_with_descriptions ++ [job])%list
            end in
          (* Save progress every 5 jobs *)
          let st2 :=
            if (i mod 5 =? 0)%nat then save output_file jobs_with_descriptions st1
            else st1 in
          fetch_loop E output_file (S i) rest jobs_with_descriptions st2
      end
  end.

Definition fetch_all_job_descriptions (E : env) (jobs_data : list dict)
    (output_file : string) (st : state) : result (list dict) * state :=
  match fetch_loop E output_file 1 jobs_data [] st with
  | (Ok jobs, st') =>
      (* Save final results *)
      (Ok jobs, save output_file jobs st')
  | (Raise e, st') => (Raise e, st')
  end.

End GetJD.

(* ===================================================================== *)
(** * get_jobs.py: the Discovery stage *)
(* ===================================================================== *)

Module GetJobs.
Import Py.

(** What the collector asks of the browser, in the order it asks. *)
Inductive event : Type :=
| UseCookiesLogin (cookies_file : string)
| AutoLogin
| ManualLoginPrompt
| SaveCookies
| DriverGet (url : string)
| GetJobIdsFromPage
| GetJobInfo (job_id : string)
| ScrollToLoadMoreJobs
| ClickNextJob.

(** What [get_job_ids_from_page] reads off the page. *)
Record snapshot := {
  (* [get_attribute("data-job-id")] of the elements with that attribute *)
  data_job_ids : list (option string);
  (* for the links to [/jobs/view/]: the digits after it in [href] *)
  view_link_ids : list (option string);
  (* [currentJobId] of the current URL *)
  current_job_id : option string
}.

(** The browser and the site behind it.  Each field answers the request
    made when [n] requests have been made before: any behaviour of the
    browser is such a script. *)
Record env := {
  cookies_login_ok : nat -> bool;
  auto_login_ok : nat -> bool;
  manual_login_ok : nat -> bool;
  page : nat -> snapshot;
  (* title, company and location that [get_job_info] finds ([None]: the
     element is missing), or [None] when the job card cannot be opened *)
  job_fields : nat -> string -> option (option string * option string * option string);
  scroll_ok : nat -> bool;
  click_next_ok : nat -> bool;
  time_time : nat -> spec_float
}.

(** The collector object: [self.is_logged_in], [self.collected_jobs], and
    the requests made of [self.driver]. *)
Record state := {
  is_logged_in : bool;
  collected_jobs : list dict;
  log : list event
}.

Definition init : state :=
  {| is_logged_in := false; collected_jobs := []; log := [] |}.

Definition emit (e : event) (st : state) : state :=
  {| is_logged_in := is_logged_in st;
     collected_jobs := collected_jobs st;
     log := (log st ++ [e])%list |}.

Definition logged_in (st : state) : state :=
  {| is_logged_in := true; collected_jobs := collected_jobs st; log := log st |}.

(** The three ways to log in: each asks the browser and, on success, sets
    [self.is_logged_in]. *)
Definition use_cookies_login (E : env) (cookies_file : string) (st : state)
  : bool * state :=
  let ok := cookies_login_ok E (length (log st)) in
  let st' := emit (UseCookiesLogin cookies_file) st in
  (ok, if ok then logged_in st' else st').

Definition auto_login (E : env) (st : state) : bool * state :=
  let ok := auto_login_ok E (length (log st)) in
  let st' := emit AutoLogin st in
  (ok, if ok then logged_in st' else st').

Definition manual_login_prompt (E : env) (st : state) : bool * state :=
  let ok := manual_login_ok E (length (log st)) in
  let st' := emit ManualLoginPrompt st in
  (ok, if ok then logged_in st' else st').

Definition save_cookies (st : state) : state := emit SaveCookies st.

(** [ensure_logged_in] *)
Definition ensure_logged_in (E : env) (email password : pyval)
    (cookies_file : string) (st : state) : bool * state :=
  if is_logged_in st then (true, st)
  else
    (* Method 1: Try cookies if provided *)
    let '(done1, st1) :=
      if negb (String.eqb cookies_file "") then use_cookies_login E cookies_file st
      else (false, st) in
    if done1 then (true, st1)
    else
      (* Method 2: Try automatic login if credentials provided *)
      let '(done2, st2) :=
        if truthy email && truthy password then
          let '(ok, st') := auto_login E st1 in
          if ok then (true, save_cookies st') else (false, st')
        else (false, st1) in
      if done2 then (true, st2)
      else
        (* Method 3: Manual login (most reliable) *)
        let '(ok, st3) := manual_login_prompt E st2 in
        if ok then (true, save_cookies st3) else (false, st3).

(** [if x and x not in job_ids: job_ids.append(x)] *)
Definition add_id (x : option string) (job_ids : list string) : list string :=
  match x with
  | Some job_id =>
      if negb (String.eqb job_id "") && negb (bool_decide (job_id ∈ job_ids))
      then (job_ids ++ [job_id])%list else job_ids
  | None => job_ids
  end.

(** [get_job_ids_from_page]; an exception on the way leaves the ids read so
    far, which is what a shorter snapshot gives. *)
Definition get_job_ids_from_page (E : env) (st : state) : list string * state :=
  let p := page E (length (log st)) in
  (* Method 1: Look for data-job-id attributes *)
  let job_ids := fold_left (fun ids x => add_id x ids) (data_job_ids p) [] in
  (* Method 2: Extract from href attributes *)
  let job_ids :=
    match job_ids with
    | [] => fold_left (fun ids x => add_id x ids) (view_link_ids p) []
    | _ => job_ids
    end in
  (* Method 3: Extract from current URL *)
  (add_id (current_job_id p) job_ids, emit GetJobIdsFromPage st).

Definition field (x : option string) : pyval :=
  match x with
  | Some text => PStr text
  | None => PNone
  end.

(** [get_job_info]: both the normal path and the [except] path return a
    record with the id, the URL made from it and a timestamp. *)
Definition get_job_info (E : env) (job_id : string) (st : state) : dict * state :=
  let n := length (log st) in
  let '(title, company, location) :=
    match job_fields E n job_id with
    | Some fields => fields
    | None => (None, None, None)
    end in
  (list_to_map
     [("job_id", PStr job_id);
      ("url", PStr ("https://www.linkedin.com/jobs/view/" +:+ job_id));
      ("timestamp", PFloat (time_time E n));
      ("title", field title);
      ("company", field company);
      ("location", field location)],
   emit (GetJobInfo job_id) st).

Definition scroll_to_load_more_jobs (E : env) (st : state) : bool * state :=
  (scroll_ok E (length (log st)), emit ScrollToLoadMoreJobs st).

Definition click_next_job (E : env) (st : state) : bool * state :=
  (click_next_ok E (length (log st)), emit ClickNextJob st).

(** The [for job_id in current_job_ids] loop. *)
Fixpoint collect_page (E : env) (max_jobs : Z) (current_job_ids : list string)
    (collected : list dict) (seen_job_ids : gset string) (st : state)
  : list dict * gset string * state :=
  match current_job_ids with
  | [] => (collected, seen_job_ids, st)
  | job_id :: rest =>
      if negb (bool_decide (job_id ∈ seen_job_ids))
         && (Z.of_nat (length collected) <? max_jobs)
      then
        let '(job_info, st') := get_job_info E job_id st in
        if dict_truthy job_info then
          collect_page E max_jobs rest (collected ++ [job_info])%list
            ({[job_id]} ∪ seen_job_ids) st'
        else collect_page E max_jobs rest collected seen_job_ids st'
      else collect_page E max_jobs rest collected seen_job_ids st
  end.

(** The [while len(collected_jobs) < max_jobs] loop.  [fuel] bounds its
    rounds: the source has no bound of its own, and [None] is a run that
    is still going after [fuel] rounds. *)
Fixpoint collect_loop (fuel : nat) (E : env) (max_jobs : Z)
    (collected : list dict) (seen_job_ids : gset string) (st : state)
  : option (list dict * state) :=
  match fuel with
  | O => None
  | S fuel' =>
      if Z.of_nat (length collected) <? max_jobs then
        (* Get current page job IDs *)
        let '(current_job_ids, st1) := get_job_ids_from_page E st in
        (* Process each job ID *)
        let '(collected', seen', st2) :=
          collect_page E max_jobs current_job_ids collected seen_job_ids st1 in
        (* Try to load more jobs *)
        let '(more, st3) := scroll_to_load_more_jobs E st2 in
        if more then collect_loop fuel' E max_jobs collected' seen' st3
        else
          (* Try clicking next job to get more from pagination *)
          let '(next, st4) := click_next_job E st3 in
          if next then collect_loop fuel' E max_jobs collected' seen' st4
          else Some (collected', st4)
      else Some (collected, st)
  end.

(** [collect_job_ids_from_search].  The calls of the browser outside a
    [try] ([self.driver.get]) are taken to return; were one to raise, the
    call would end with the exception and return no collection. *)
Definition collect_job_ids_from_search (fuel : nat) (E : env) (search_url : string)
    (max_jobs : Z) (email password : pyval) (st : state)
  : option (list dict * state) :=
  (* Ensure we're logged in *)
  let '(ok, st1) := ensure_logged_in E email password "linkedin_cookies.json" st in
  if negb ok then Some ([], st1)
  else
    (* Navigate to search URL *)
    let st2 := emit (DriverGet search_url) st1 in
    match collect_loop fuel E max_jobs [] ∅ st2 with
    | None => None
    | Some (collected, st3) =>
        Some (collected,
              {| is_logged_in := is_logged_in st3;
                 collected_jobs := (collected_jobs st3 ++ collected)%list;
                 log := log st3 |})
    end.

(** [collect_linkedin_job_ids]: a new collector, used once and closed. *)
Definition collect_linkedin_job_ids (fuel : nat) (E : env) (search_url : string)
    (max_jobs : Z) (email password : pyval) : option (list dict * state) :=
  collect_job_ids_from_search fuel E search_url max_jobs email password init.

End GetJobs.

(* ===================================================================== *)
(** * src/app.py: the background collection of the web front end *)
(* ===================================================================== *)

Module App.
Import Py.

Record env := {
  browser : GetJobs.env;
  site : GetJD.env
}.

(** The global [process_status], the files and the requests to the job
    site, and what the last collector asked of its browser. *)
Record state := {
  process_status : dict;
  store : GetJD.state;
  browser_log : list GetJobs.event
}.

(** [process_status.update(d)] *)
Definition update (d : list (string * pyval)) (st : state) : state :=
  {| process_status := list_to_map d ∪ process_status st;
     store := store st;
     browser_log := browser_log st |}.

(** [str(e)] of a caught exception. *)
Definition exn_str (e : exn) : string :=
  match e with
  | KeyError k => Obj.repr_str k
  | TypeError => "TypeError"
  | ZeroDivisionError => "division by zero"
  | OverflowError => "OverflowError"
  | FileNotFoundError => "FileNotFoundError"
  end.

(** [collect_jobs_background]; [None] is a Discovery that is still going
    after [fuel] rounds. *)
Definition collect_jobs_background (fuel : nat) (E : env) (linkedin_url : string)
    (max_jobs : Z) (st : state) : option state :=
  let st :=
    update [("status", PStr "processing");
            ("step", PStr "Opening browser for LinkedIn login");
            ("progress", PInt 10);
            ("message", PStr "Please complete LinkedIn login in the browser window...")]
      st in
  (* Collect jobs *)
  match GetJobs.collect_linkedin_job_ids fuel (browser E) linkedin_url max_jobs
          PNone PNone with
  | None => None
  | Some (jobs, collector) =>
      let st :=
        {| process_status := process_status st;
           store := store st;
           browser_log := GetJobs.log collector |} in
      let st :=
        update [("step", PStr "Saving collected jobs");
                ("progress", PInt 70);
                ("message", PStr ("Collected " +:+ Text.str_of_nat (length jobs)
                                    +:+ " jobs, saving data..."))]
          st in
      (* Save collected jobs *)
      let st :=
        {| process_status := process_status st;
           store := GetJD.save "collected_jobs.json" jobs (store st);
           browser_log := browser_log st |} in
      let st :=
        update [("step", PStr "Fetching job descriptions");
                ("progress", PInt 80);
                ("message", PStr "Fetching detailed job descriptions...")]
          st in
      (* Fetch job descriptions *)
      let jobs_data := GetJD.load_collected_jobs "collected_jobs.json" (store st) in
      let '(fetched, store') :=
        GetJD.fetch_all_job_descriptions (site E) jobs_data
          "jobs_with_descriptions.json" (store st) in
      let st :=
        {| process_status := process_status st;
           store := store';
           browser_log := browser_log st |} in
      match fetched with
      | Ok jobs_with_descriptions =>
          let n := Text.str_of_nat (length jobs_with_descriptions) in
          Some (update
                  [("status", PStr "completed");
                   ("step", PStr "Jobs collected successfully");
                   ("progress", PInt 100);
                   ("message", PStr ("Successfully collected " +:+ n
                                       +:+ " jobs with descriptions!"));
                   ("results",
                    PDict [("job_count",
                            PInt (Z.of_nat (length jobs_with_descriptions)));
                           ("jobs_file", PStr "jobs_with_descriptions.json")])]
                  st)
      | Raise e =>
          Some (update
                  [("status", PStr "error");
                   ("error", PStr (exn_str e));
                   ("message", PStr ("Error collecting jobs: " +:+ exn_str e))]
                  st)
      end
  end.

End App.

(* ===================================================================== *)
(** * main.py: the script, from Discovery to the end of Enrichment *)
(* ===================================================================== *)

Module Main.
Import Py.

(** How the script leaves the part modelled here: [exit(1)] when there
    are no jobs to enrich, or the outcome of the Enrichment stage. *)
Inductive outcome : Type :=
| Exit (code : Z) (store : GetJD.state)
| Enriched (jobs : result (list dict)) (store : GetJD.state).

(** [None] is a Discovery that is still going after [fuel] rounds. *)
Definition discover_and_enrich (fuel : nat) (E : App.env) (linkedin_url : string)
    (store : GetJD.state) : option outcome :=
  (* Collect job data from LinkedIn *)
  match GetJobs.collect_linkedin_job_ids fuel (App.browser E) linkedin_url 10
          PNone PNone with
  | None => None
  | Some (jobs, _) =>
      (* make the collected_jobs.json file *)
      let store :=
        match jobs with
        | [] => store
        | _ :: _ => GetJD.save "collected_jobs.json" jobs store
        end in
      (* Fetch job descriptions for collected jobs *)
      let jobs_data := GetJD.load_collected_jobs "collected_jobs.json" store in
      match jobs_data with
      | [] => Some (Exit 1 store)
      | _ :: _ =>
          let '(fetched, store') :=
            GetJD.fetch_all_job_descriptions (App.site E) jobs_data
              "jobs_with_descriptions.json" store in
          Some (Enriched fetched store')
      end
  end.

End Main.

(* ===================================================================== *)
(** * src/generate_url.py: the search URL *)
(* ===================================================================== *)

Module Url.
Import Py.

(** The characters that [urllib.parse.quote] never escapes: the ASCII
    letters and digits and [_.-~]. *)
Definition always_safe (c : ascii) : bool :=
  let x := Text.byte c in
  (65 <=? x) && (x <=? 90) || (97 <=? x) && (x <=? 122)
  || (48 <=? x) && (x <=? 57)
  || (x =? 95) || (x =? 46) || (x =? 45) || (x =? 126).

(** A hexadecimal digit of ['%{:02X}'.format(b)]. *)
Definition hex_upper (n : Z) : ascii :=
  ascii_of_N (Z.to_N (if n <? 10 then 48 + n else 55 + n)).

Definition quote_byte (c : ascii) : string :=
  if always_safe c then String c ""
  else
    let x := Text.byte c in
    String "%" (String (hex_upper (x / 16)) (String (hex_upper (x mod 16)) "")).

(** [urllib.parse.quote(s, safe='')] of a [str]: its UTF-8 bytes, each one
    kept when it is always safe and written [%XX] otherwise. *)
Fixpoint quote (s : string) : string :=
  match s with
  | "" => ""
  | String c r => quote_byte c +:+ quote r
  end.

(** One item of [urlencode]: [quote_via(str(k), safe) + '=' +
    quote_via(str(v), safe)] with the default [safe=''] *)
Definition encode_item (kv : string * pyval) : string :=
  quote kv.1 +:+ "=" +:+ quote (Obj.str kv.2).

(** [urllib.parse.urlencode(params, quote_via=urllib.parse.quote)] *)
Definition urlencode (params : list (string * pyval)) : string :=
  Text.join "&" (map encode_item params).

(** [params.update(additional_params)] *)
Definition update (params additional : list (string * pyval))
  : list (string * pyval) :=
  fold_left (fun d kv => items_set kv.1 kv.2 d) additional params.

(** [{k: v for k, v in params.items() if v is not None}] *)
Definition is_none (v : pyval) : bool :=
  match v with PNone => true | _ => false end.

Definition without_none (params : list (string * pyval)) : list (string * pyval) :=
  List.filter (fun kv => negb (is_none kv.2)) params.

Definition base_url : string := "https://www.linkedin.com/jobs/search/".

(** The dictionary [params] at the call of [urlencode]. *)
Definition search_params
    (keywords geoId location distance f_TPR sortBy f_E f_SB2 origin refresh
       currentJobId : pyval)
    (additional_params : list (string * pyval)) : list (string * pyval) :=
  (* Build parameters dictionary *)
  let params :=
    [("keywords", keywords);
     ("geoId", geoId);
     ("location", location);
     ("distance", distance);
     ("sortBy", sortBy);
     ("f_E", f_E);
     ("f_SB2", f_SB2);
     ("origin", origin);
     ("refresh", PStr (if truthy refresh then "true" else "false"))] in
  (* Add time period filter if specified *)
  let params := if truthy f_TPR then items_set "f_TPR" f_TPR params else params in
  (* Add current job ID if specified *)
  let params :=
    if truthy currentJobId then items_set "currentJobId" currentJobId params
    else params in
  (* Add any additional parameters *)
  let params := update params additional_params in
  (* Remove None values *)
  without_none params.

(** [generate_linkedin_job_url] *)
Definition generate_linkedin_job_url
    (keywords geoId location distance f_TPR sortBy f_E f_SB2 origin refresh
       currentJobId : pyval)
    (additional_params : list (string * pyval)) : string :=
  let params :=
    search_params keywords geoId location distance f_TPR sortBy f_E f_SB2 origin
      refresh currentJobId additional_params in
  (* URL encode the parameters *)
  let query_string := urlencode params in
  base_url +:+ "?" +:+ query_string.

(** The defaults of the parameters. *)
Definition default_keywords : pyval := PStr "AI Engineer".
Definition default_location : pyval := PStr "United States".
Definition default_origin : pyval := PStr "JOB_SEARCH_PAGE_JOB_FILTER".
Definition default_refresh : pyval := PBool true.
Definition default_currentJobId : pyval := PNone.

End Url.

(* ===================================================================== *)
(** * src/app.py: the routes of the web front end *)
(* ===================================================================== *)

Module Api.
Import Py.
Local Open Scope result_scope.

(** The generated files of the working directory, each with what the
    front end writes into it; [None] is a file that does not exist. *)
Record store := {
  collected_jobs : option (list dict);          (* collected_jobs.json *)
  jobs_with_descriptions : option (list dict);  (* jobs_with_descriptions.json *)
  analysis_results : option (list dict);        (* analysis_results.json *)
  job_match_report : option string;             (* job_match_report.txt *)
  resume_data : option pyval                    (* resume_data.json *)
}.

Definition is_some {A : Type} (x : option A) : bool :=
  match x with Some _ => true | None => false end.

(** [os.path.exists(name)] for the names that the routes ask about. *)
Definition file_exists (name : string) (fs : store) : bool :=
  if String.eqb name "collected_jobs.json" then is_some (collected_jobs fs)
  else if String.eqb name "jobs_with_descriptions.json" then
    is_some (jobs_with_descriptions fs)
  else if String.eqb name "analysis_results.json" then is_some (analysis_results fs)
  else if String.eqb name "job_match_report.txt" then is_some (job_match_report fs)
  else if String.eqb name "resume_data.json" then is_some (resume_data fs)
  else false.

(** [os.remove(name)] *)
Definition remove (name : string) (fs : store) : store :=
  {| collected_jobs :=
       if String.eqb name "collected_jobs.json" then None else collected_jobs fs;
     jobs_with_descriptions :=
       if String.eqb name "jobs_with_descriptions.json" then None
       else jobs_with_descriptions fs;
     analysis_results :=
       if String.eqb name "analysis_results.json" then None else analysis_results fs;
     job_match_report :=
       if String.eqb name "job_match_report.txt" then None else job_match_report fs;
     resume_data :=
       if String.eqb name "resume_data.json" then None else resume_data fs |}.

(** [json.dump(results, f)] into [analysis_results.json], and [f.write(report)]
    into [job_match_report.txt]. *)
Definition save_results (results : list dict) (fs : store) : store :=
  {| collected_jobs := collected_jobs fs;
     jobs_with_descriptions := jobs_with_descriptions fs;
     analysis_results := Some results;
     job_match_report := job_match_report fs;
     resume_data := resume_data fs |}.

Definition save_report (report : string) (fs : store) : store :=
  {| collected_jobs := collected_jobs fs;
     jobs_with_descriptions := jobs_with_descriptions fs;
     analysis_results := analysis_results fs;
     job_match_report := Some report;
     resume_data := resume_data fs |}.

(** What can be raised inside the handlers: an exception of the modelled
    code, the client of the inference service refusing to start (no API
    key), or an attribute that an object does not have. *)
Inductive error : Type :=
| Raised (e : exn)
| OpenAIError
| AttributeError.

(** The collaborators: the inference service and the clock of the
    matcher, whether [ResumeJobMatcher()] can be made, and [str(e)] of an
    exception. *)
Record env := {
  matcher : Matcher.env;
  matcher_starts : bool;
  error_text : error -> string
}.

(** The global [process_status], the files, and the requests and clock
    readings of the matcher so far. *)
Record state := {
  process_status : dict;
  files : store;
  calls : nat;
  ticks : nat
}.

(** [process_status.update(d)] *)
Definition update (d : list (string * pyval)) (st : state) : state :=
  {| process_status := list_to_map d ∪ process_status st;
     files := files st;
     calls := calls st;
     ticks := ticks st |}.

Definition write (f : store -> store) (st : state) : state :=
  {| process_status := process_status st;
     files := f (files st);
     calls := calls st;
     ticks := ticks st |}.

(** The state of the matcher in a state of the front end, and back. *)
Definition matcher_state (st : state) : Matcher.state :=
  {| Matcher.calls := calls st;
     Matcher.ticks := ticks st;
     Matcher.files :=
       match jobs_with_descriptions (files st) with
       | Some jobs => {[ "jobs_with_descriptions.json" := jobs ]}
       | None => ∅
       end |}.

Definition after_matcher (m : Matcher.state) (st : state) : state :=
  {| process_status := process_status st;
     files := files st;
     calls := Matcher.calls m;
     ticks := Matcher.ticks m |}.

(** The initial [process_status]. *)
Definition idle_status : dict :=
  list_to_map [("status", PStr "idle"); ("step", PStr ""); ("progress", PInt 0);
               ("message", PStr ""); ("error", PNone); ("results", PNone)].

(** [resume_data['text']] *)
Definition resume_text_of (resume_data : pyval) : result pyval :=
  match resume_data with
  | PDict items =>
      match items_get "text" items with
      | Some text => Ok text
      | None => Raise (KeyError "text")
      end
  | _ => Raise TypeError
  end.

(** [len([r for r in results if r.get('overall_score', 0) >= 80])] *)
Definition high_matches (results : list dict) : result nat :=
  Matcher.count_if (fun s => Obj.ge_int s 80) (map Matcher.score_key results).

(** [len([r for r in results if 60 <= r.get('overall_score', 0) < 80])] *)
Definition medium_matches (results : list dict) : result nat :=
  Matcher.count_if Matcher.is_medium (map Matcher.score_key results).

(** [sum(r.get('overall_score', 0) for r in results) / len(results) if
    results else 0] *)
Definition average_score (results : list dict) : result pyval :=
  match results with
  | [] => Ok (PInt 0)
  | _ :: _ =>
      avg ← Matcher.mean (map Matcher.score_key results);
      Ok (PFloat avg)
  end.

(** The body of the [try] of [analyze_matches_background]: the state it
    reaches and, when it raises, what it raises. *)
Definition analysis_steps (E : env) (st : state) : option error * state :=
  let st :=
    update [("status", PStr "processing");
            ("step", PStr "Loading resume and job data");
            ("progress", PInt 10);
            ("message", PStr "Preparing analysis...")] st in
  (* Load resume data *)
  match resume_data (files st) with
  | None => (Some (Raised FileNotFoundError), st)
  | Some resume_data =>
      match resume_text_of resume_data with
      | Raise e => (Some (Raised e), st)
      | Ok resume_text =>
          let st :=
            update [("step", PStr "Initializing AI matcher");
                    ("progress", PInt 20);
                    ("message", PStr "Setting up AI analysis...")] st in
          (* Initialize matcher *)
          if negb (matcher_starts E) then (Some OpenAIError, st)
          else
            let st :=
              update [("step", PStr "Analyzing job matches");
                      ("progress", PInt 30);
                      ("message", PStr "Analyzing matches with AI...")] st in
            (* Run analysis *)
            match Matcher.analyze_all_jobs (matcher E) "jobs_with_descriptions.json"
                    (Obj.str resume_text) (matcher_state st) with
            | Raise e => (Some (Raised e), st)
            | Ok (results, m) =>
                let st := after_matcher m st in
                let st :=
                  update [("step", PStr "Generating reports");
                          ("progress", PInt 80);
                          ("message", PStr "Creating summary reports...")] st in
                (* Save results *)
                let st := write (save_results results) st in
                (* Create summary report *)
                match Matcher.create_summary_report (matcher E) results
                        (matcher_state st) with
                | Raise e => (Some (Raised e), st)
                | Ok (report, m) =>
                    let st := after_matcher m st in
                    let st := write (save_report report) st in
                    match high_matches results, average_score results with
                    | Raise e, _ => (Some (Raised e), st)
                    | Ok _, Raise e => (Some (Raised e), st)
                    | Ok high, Ok average =>
                        (None,
                         update
                           [("status", PStr "completed");
                            ("step", PStr "Analysis complete");
                            ("progress", PInt 100);
                            ("message",
                             PStr "Job matching analysis completed successfully!");
                            ("results",
                             PDict [("total_jobs", PInt (Z.of_nat (length results)));
                                    ("high_matches", PInt (Z.of_nat high));
                                    ("average_score", average);
                                    ("results_file", PStr "analysis_results.json");
                                    ("report_file", PStr "job_match_report.txt")])]
                           st)
                    end
                end
            end
      end
  end.

(** [analyze_matches_background] *)
Definition analyze_matches_background (E : env) (st : state) : state :=
  match analysis_steps E st with
  | (None, st') => st'
  | (Some e, st') =>
      update [("status", PStr "error");
              ("error", PStr (error_text E e));
              ("message", PStr ("Error during analysis: " +:+ error_text E e))]
        st'
  end.

(** What a route answers: a JSON body with its status code, or a file
    sent as an attachment. *)
Inductive response : Type :=
| Json (code : Z) (body : list (string * pyval))
| Results (results : list dict) (report : string) (summary : list (string * pyval))
| Attachment (filename : string).

(** [analyze_matches]: the answer, and whether the background analysis
    is started. *)
Definition analyze_matches (st : state) : response * bool :=
  (* Check if resume and jobs data exist *)
  if negb (file_exists "resume_data.json" (files st)) then
    (Json 400 [("error", PStr "No resume data found. Please upload a resume first.")],
     false)
  else if negb (file_exists "jobs_with_descriptions.json" (files st)) then
    (Json 400 [("error", PStr "No job data found. Please collect jobs first.")],
     false)
  else
    (* Start background analysis *)
    (Json 200 [("success", PBool true);
               ("message", PStr "Analysis started. This may take a few minutes...")],
     true).

(** [get_results] *)
Definition get_results (E : env) (st : state) : response :=
  match analysis_results (files st) with
  | None => Json 404 [("error", PStr "No analysis results found")]
  | Some results =>
      (* Also load the summary report if it exists *)
      let report :=
        match job_match_report (files st) with
        | Some text => text
        | None => ""
        end in
      let summary :=
        high ← high_matches results;
        medium ← medium_matches results;
        average ← average_score results;
        Ok [("total_jobs", PInt (Z.of_nat (length results)));
            ("high_matches", PInt (Z.of_nat high));
            ("medium_matches", PInt (Z.of_nat medium));
            ("average_score", average)] in
      match summary with
      | Ok summary => Results results report summary
      | Raise e => Json 500 [("error", PStr (error_text E (Raised e)))]
      end
  end.

Definition files_to_remove : list string :=
  ["collected_jobs.json"; "jobs_with_descriptions.json"; "analysis_results.json";
   "job_match_report.txt"; "resume_data.json"].

(** [reset_process] *)
Definition reset_process (st : state) : response * state :=
  (* Remove generated files *)
  let fs :=
    fold_left (fun fs file_path =>
                 if file_exists file_path fs then remove file_path fs else fs)
      files_to_remove (files st) in
  (* Reset status *)
  (Json 200 [("success", PBool true); ("message", PStr "Process reset successfully")],
   {| process_status := idle_status; files := fs; calls := calls st;
      ticks := ticks st |}).

Definition allowed_files : list string :=
  ["analysis_results.json"; "job_match_report.txt"; "collected_jobs.json";
   "jobs_with_descriptions.json"].

(** [download_file] *)
Definition download_file (filename : string) (st : state) : response :=
  if negb (bool_decide (filename ∈ allowed_files)) then
    Json 403 [("error", PStr "File not allowed")]
  else if negb (file_exists filename (files st)) then
    Json 404 [("error", PStr "File not found")]
  else Attachment filename.

(** [generate_url]; [data] is what [request.get_json()] returns, and
    [arg k default] is [data.get(k, default)]: anything but an object has no
    [get]. *)
Definition generate_url (E : env) (data : pyval) : response :=
  match data with
  | PDict items =>
      let arg k default :=
        match items_get k items with
        | Some v => v
        | None => default
        end in
      let linkedin_url :=
        Url.generate_linkedin_job_url
          (arg "keywords" (PStr "AI Engineer"))
          (arg "geoId" (PStr "103644278"))
          (arg "location" (PStr "United States"))
          (arg "distance" (PInt 25))
          (arg "f_TPR" (PStr "r86400"))
          (arg "sortBy" (PStr "R"))
          (arg "f_E" (PInt 4))
          (arg "f_SB2" (PInt 1))
          Url.default_origin Url.default_refresh Url.default_currentJobId [] in
      Json 200 [("success", PBool true); ("url", PStr linkedin_url);
                ("parameters", data)]
  | _ => Json 500 [("error", PStr (error_text E AttributeError))]
  end.

End Api.

(* ===================================================================== *)
(** * resume_job_matcher.py: the key information of a job *)
(* ===================================================================== *)

Module KeyInfo.
Import Py Matcher.

(** The prompt (an f-string). *)
Definition key_info_prompt (job_description : string) : string :=
  "
        Analyze this job description and extract key information in JSON format:
        
        Job Description:
        "
  +:+ job_description +:+
  "
        
        Extract:
        1. Required technical skills (programming languages, frameworks, tools)
        2. Required experience level (years)
        3. Key responsibilities
        4. Preferred qualifications
        5. Company type/industry
        6. Salary range (if mentioned)
        
        Return as JSON with keys: technical_skills, experience_years, responsibilities, preferred_qualifications, industry, salary_range
        ".

(** [ResumeJobMatcher.extract_key_info]: the parsed span of the response,
    and [{}] when there is none or when anything in the [try] raises. *)
Definition extract_key_info (E : env) (job_description : string) (st : state)
  : pyval * state :=
  let prompt := key_info_prompt job_description in
  let response := llm E (calls st) prompt in
  let st1 := called st in
  match response with
  | Content (Some content) =>
      (* Try to extract JSON from the response *)
      match Text.search_braces content with
      | Some json_match =>
          match Json.loads json_match with
          | Some info => (info, st1)
          | None => (PDict [], st1)
          end
      | None => (PDict [], st1)
      end
  | _ => (PDict [], st1)
  end.

End KeyInfo.

(* ===================================================================== *)
(** * White space at the ends of a string, and slices *)
(* ===================================================================== *)

Module Space.

(** Is [s], after [skip] bytes, made of white-space characters only? *)
Fixpoint blank_from (skip : nat) (s : string) : bool :=
  match s with
  | "" => true
  | String _ s' =>
      match skip with
      | S k => blank_from k s'
      | O =>
          match Text.ws_len s with
          | O => false
          | S k => blank_from k s'
          end
      end
  end.

(** [s.strip()]: the white-space characters at the two ends removed. *)
Fixpoint lstrip (skip : nat) (s : string) : string :=
  match s with
  | "" => ""
  | String _ s' =>
      match skip with
      | S k => lstrip k s'
      | O =>
          match Text.ws_len s with
          | O => s
          | S k => lstrip k s'
          end
      end
  end.

Fixpoint rstrip (s : string) : string :=
  match s with
  | "" => ""
  | String c s' => if blank_from 0 s then "" else String c (rstrip s')
  end.

Definition strip (s : string) : string := rstrip (lstrip 0 s).

(** [s[a:-b]] for [b > 0], counted in characters. *)
Definition slice (a b : nat) (s : string) : string :=
  let cs := Matcher.chars s in
  Text.join "" (take (length cs - b - a) (drop a cs)).

End Space.

(* ===================================================================== *)
(** * src/resume_handling.py: the structured resume *)
(* ===================================================================== *)

Module ResumeHandling.
Import Py Matcher.

(** [k] between double quotes. *)
Definition quoted (k : string) : string :=
  String Obj.dquote "" +:+ k +:+ String Obj.dquote "".

(** The prompt (an f-string). *)
Definition resume_prompt (text : string) : string :=
  "
    Extract the following information from the resume text and return it as a valid JSON object. 
    Be intelligent about parsing dates, locations, and skills. If information is not available, use null.

    Resume Text:
    "
  +:+ text +:+
  "

    Please extract and structure the information into the following JSON format:

    {
        " +:+ quoted "personal_info" +:+ ": {
            " +:+ quoted "name" +:+ ": " +:+ quoted "Full name" +:+ ",
            " +:+ quoted "email" +:+ ": " +:+ quoted "Email address" +:+ ",
            " +:+ quoted "phone" +:+ ": " +:+ quoted "Phone number" +:+ ",
            " +:+ quoted "location" +:+ ": {
                " +:+ quoted "city" +:+ ": " +:+ quoted "City" +:+ ",
                " +:+ quoted "state" +:+ ": " +:+ quoted "State/Province" +:+ ",
                " +:+ quoted "country" +:+ ": " +:+ quoted "Country" +:+ "
            },
            " +:+ quoted "linkedin" +:+ ": " +:+ quoted "LinkedIn URL" +:+ ",
            " +:+ quoted "github" +:+ ": " +:+ quoted "GitHub URL" +:+ ",
            " +:+ quoted "portfolio" +:+ ": " +:+ quoted "Portfolio website URL" +:+ "
        },
        " +:+ quoted "summary" +:+ ": " +:+ quoted "Professional summary or objective statement" +:+ ",
        " +:+ quoted "experience" +:+ ": [
            {
                " +:+ quoted "company" +:+ ": " +:+ quoted "Company name" +:+ ",
                " +:+ quoted "position" +:+ ": " +:+ quoted "Job title" +:+ ",
                " +:+ quoted "location" +:+ ": " +:+ quoted "Job location" +:+ ",
                " +:+ quoted "start_date" +:+ ": " +:+ quoted "YYYY-MM format" +:+ ",
                " +:+ quoted "end_date" +:+ ": " +:+ quoted "YYYY-MM format or 'Present'" +:+ ",
                " +:+ quoted "responsibilities" +:+ ": [" +:+ quoted "List of key responsibilities and achievements" +:+ "],
                " +:+ quoted "technologies" +:+ ": [" +:+ quoted "Technologies/tools used" +:+ "]
            }
        ],
        " +:+ quoted "education" +:+ ": [
            {
                " +:+ quoted "institution" +:+ ": " +:+ quoted "School/University name" +:+ ",
                " +:+ quoted "degree" +:+ ": " +:+ quoted "Degree type and field" +:+ ",
                " +:+ quoted "location" +:+ ": " +:+ quoted "Institution location" +:+ ",
                " +:+ quoted "start_date" +:+ ": " +:+ quoted "YYYY-MM or YYYY" +:+ ",
                " +:+ quoted "end_date" +:+ ": " +:+ quoted "YYYY-MM or YYYY" +:+ ",
                " +:+ quoted "gpa" +:+ ": " +:+ quoted "GPA if mentioned" +:+ "
            }
        ],
        " +:+ quoted "skills" +:+ ": {
            " +:+ quoted "technical" +:+ ": [" +:+ quoted "Technical skills" +:+ "],
            " +:+ quoted "programming_languages" +:+ ": [" +:+ quoted "Programming languages" +:+ "],
            " +:+ quoted "frameworks" +:+ ": [" +:+ quoted "Frameworks and libraries" +:+ "],
            " +:+ quoted "tools" +:+ ": [" +:+ quoted "Tools and software" +:+ "],
            " +:+ quoted "soft_skills" +:+ ": [" +:+ quoted "Soft skills" +:+ "]
        },
        " +:+ quoted "projects" +:+ ": [
            {
                " +:+ quoted "name" +:+ ": " +:+ quoted "Project name" +:+ ",
                " +:+ quoted "description" +:+ ": " +:+ quoted "Project description" +:+ ",
                " +:+ quoted "technologies" +:+ ": [" +:+ quoted "Technologies used" +:+ "],
                " +:+ quoted "url" +:+ ": " +:+ quoted "Project URL if available" +:+ "
            }
        ],
        " +:+ quoted "certifications" +:+ ": [
            {
                " +:+ quoted "name" +:+ ": " +:+ quoted "Certification name" +:+ ",
                " +:+ quoted "issuer" +:+ ": " +:+ quoted "Issuing organization" +:+ ",
                " +:+ quoted "date" +:+ ": " +:+ quoted "YYYY-MM" +:+ "
            }
        ]
    }

    Important instructions:
    1. Be intelligent about date parsing - convert various date formats to standardized YYYY-MM format
    2. Extract skills smartly - categorize them appropriately
    3. If a field is not present in the resume, use null
    4. For arrays, if no items exist, use empty array []
    5. Extract email addresses, phone numbers, and URLs accurately
    6. Don't hallucinate information not present in the resume

    Return only the JSON object, no additional text.
    ".

Definition fence_json : string := "```json".
Definition fence : string := "```".

(** The collaborators: the inference service answers the [n]-th request
    of this module from the user prompt (the model, the system message,
    the temperature and the token limit are always the same); [str(e)] of
    what the [n]-th request raised; and the message of the error object
    when [json.loads(text)] raises: [Failed to parse JSON response: ]
    before [str(e)] for a [JSONDecodeError], [API call failed: ] before
    it for anything else. *)
Record env := {
  create : nat -> string -> reply;
  create_error : nat -> string;
  loads_error : string -> string
}.

(** The requests made, and [resume_extraction.json]. *)
Record state := {
  requests : nat;
  resume_extraction : option string
}.

Definition asked (st : state) : state :=
  {| requests := S (requests st); resume_extraction := resume_extraction st |}.

Definition error_object (message : string) : pyval :=
  PDict [("error", PStr message)].

(** [get_info_from_text] *)
Definition get_info_from_text (E : env) (text : string) (st : state)
  : pyval * state :=
  let prompt := resume_prompt text in
  (* Make API call to OpenAI *)
  let response := create E (requests st) prompt in
  let st1 := asked st in
  match response with
  | Failed =>
      (error_object ("API call failed: " +:+ create_error E (requests st)), st1)
  | Content None =>
      (error_object "API call failed: 'NoneType' object has no attribute 'strip'",
       st1)
  | Content (Some content) =>
      (* Extract JSON from response *)
      let json_text := Space.strip content in
      (* Clean up the response (remove any markdown formatting) *)
      let json_text :=
        if String.prefix fence_json json_text then Space.slice 7 3 json_text
        else if String.prefix fence json_text then Space.slice 3 3 json_text
        else json_text in
      (* store the raw JSON text for debugging *)
      let st2 :=
        {| requests := requests st1; resume_extraction := Some json_text |} in
      (* Parse and return JSON *)
      match Json.loads json_text with
      | Some info => (info, st2)
      | None => (error_object (loads_error E json_text), st2)
      end
  end.

End ResumeHandling.

(* ===================================================================== *)
(** * src/app.py: the upload of a resume *)
(* ===================================================================== *)

Module Upload.
Import Py.

(** A file part of the request: its name and its bytes. *)
Record file_storage := {
  filename : string;
  body : string
}.

(** What the body of the [try] can raise: [partition_pdf] refusing the
    saved file, [.get] asked of an object that is no dict, [len] of an
    object that has none. *)
Inductive error : Type :=
| PdfError (pdf : string)
| NoGet (v : pyval)
| NoLen (v : pyval).

(** The collaborators: those of the other routes (for the clock), the
    text that [extract_text_from_pdf] finds in a saved file ([None]: it
    raises) with [str(e)] of what it raises, and the inference service of
    the resume parser. *)
Record env := {
  api : Api.env;
  pdf_text : string -> option string;
  pdf_error : string -> string;
  parser : ResumeHandling.env
}.

(** The state of the other routes, [uploads/resume.pdf], and the state
    of the resume parser. *)
Record state := {
  app : Api.state;
  resume_pdf : option string;
  parsing : ResumeHandling.state
}.

(** [process_status.update(d)] *)
Definition update (d : list (string * pyval)) (st : state) : state :=
  {| app := Api.update d (app st);
     resume_pdf := resume_pdf st;
     parsing := parsing st |}.

(** [file.save(filepath)] *)
Definition save (file : file_storage) (st : state) : state :=
  {| app := app st;
     resume_pdf := Some (body file);
     parsing := parsing st |}.

(** [json.dump(data, f)] into [resume_data.json] *)
Definition save_resume_data (data : pyval) (fs : Api.store) : Api.store :=
  {| Api.collected_jobs := Api.collected_jobs fs;
     Api.jobs_with_descriptions := Api.jobs_with_descriptions fs;
     Api.analysis_results := Api.analysis_results fs;
     Api.job_match_report := Api.job_match_report fs;
     Api.resume_data := Some data |}.

(** [type(v).__name__] *)
Definition type_name (v : pyval) : string :=
  match v with
  | PNone => "NoneType"
  | PBool _ => "bool"
  | PInt _ => "int"
  | PFloat _ => "float"
  | PStr _ => "str"
  | PList _ => "list"
  | PDict _ => "dict"
  end.

(** [str(e)] *)
Definition error_text (E : env) (e : error) : string :=
  match e with
  | PdfError pdf => pdf_error E pdf
  | NoGet v => "'" +:+ type_name v +:+ "' object has no attribute 'get'"
  | NoLen v => "object of type '" +:+ type_name v +:+ "' has no len()"
  end.

(** [v.get(key, otherwise)] *)
Definition get (key : string) (v otherwise : pyval) : error + pyval :=
  match v with
  | PDict items => inr (default otherwise (items_get key items))
  | _ => inl (NoGet v)
  end.

(** [len(v)] *)
Definition len (v : pyval) : error + pyval :=
  match v with
  | PStr s => inr (PInt (Z.of_nat (length (Matcher.chars s))))
  | PList l => inr (PInt (Z.of_nat (length l)))
  | PDict d => inr (PInt (Z.of_nat (length d)))
  | _ => inl (NoLen v)
  end.

Definition and_then {A B : Type} (m : error + A) (k : A -> error + B) : error + B :=
  match m with
  | inl e => inl e
  | inr a => k a
  end.

(** The [preview] of the answer, its four entries computed in order. *)
Definition preview (resume_json : pyval) : error + pyval :=
  and_then (get "personal_info" resume_json (PDict [])) (fun personal_info =>
  and_then (get "name" personal_info (PStr "N/A")) (fun name =>
  and_then (get "experience" resume_json (PList [])) (fun experience =>
  and_then (len experience) (fun experience_count =>
  and_then (get "education" resume_json (PList [])) (fun education =>
  and_then (len education) (fun education_count =>
  and_then (get "skills" resume_json (PDict [])) (fun skills =>
  and_then (get "technical" skills (PList [])) (fun technical =>
  and_then (len technical) (fun skills_count =>
  inr (PDict [("name", name);
              ("experience_count", experience_count);
              ("education_count", education_count);
              ("skills_count", skills_count)])))))))))).

Fixpoint lower_str (s : string) : string :=
  match s with
  | "" => ""
  | String c r => String (Text.lower c) (lower_str r)
  end.

(** [name.lower().endswith('.pdf')]: no character outside ASCII has one of
    the four characters of the suffix as its lower case. *)
Definition is_pdf (name : string) : bool :=
  String.eqb (lower_str (substring (String.length name - 4) 4 name)) ".pdf".

(** The [except] clause of [upload_resume]. *)
Definition failed (E : env) (e : error) (st : state) : Api.response * state :=
  (Api.Json 500 [("error", PStr (error_text E e))],
   update [("status", PStr "error");
           ("error", PStr (error_text E e));
           ("message", PStr ("Error processing resume: " +:+ error_text E e))]
          st).

(** [upload_resume]; [resume] is [request.files.get('resume')]. *)
Definition upload_resume (E : env) (resume : option file_storage) (st : state)
  : Api.response * state :=
  match resume with
  | None => (Api.Json 400 [("error", PStr "No resume file provided")], st)
  | Some file =>
      if String.eqb (filename file) "" then
        (Api.Json 400 [("error", PStr "No file selected")], st)
      else if negb (is_pdf (filename file)) then
        (Api.Json 400 [("error", PStr "Only PDF files are allowed")], st)
      else
        (* Save uploaded file *)
        let st := save file st in
        (* Extract text from PDF *)
        let st :=
          update [("status", PStr "processing");
                  ("step", PStr "Extracting text from PDF");
                  ("progress", PInt 25);
                  ("message", PStr "Processing your resume...")] st in
        match pdf_text E (body file) with
        | None => failed E (PdfError (body file)) st
        | Some resume_text =>
            (* Extract structured information *)
            let st :=
              update [("step", PStr "Analyzing resume content");
                      ("progress", PInt 50);
                      ("message", PStr "Extracting key information...")] st in
            let '(resume_json, parsed) :=
              ResumeHandling.get_info_from_text (parser E) resume_text (parsing st) in
            (* Save processed data *)
            let uploaded_at :=
              Matcher.isoformat
                (Matcher.now (Api.matcher (api E)) (Api.ticks (app st))) in
            let data :=
              PDict [("text", PStr resume_text);
                     ("structured", resume_json);
                     ("uploaded_at", PStr uploaded_at)] in
            let st :=
              {| app :=
                   {| Api.process_status := Api.process_status (app st);
                      Api.files := save_resume_data data (Api.files (app st));
                      Api.calls := Api.calls (app st);
                      Api.ticks := S (Api.ticks (app st)) |};
                 resume_pdf := resume_pdf st;
                 parsing := parsed |} in
            let st :=
              update [("status", PStr "completed");
                      ("step", PStr "Resume processed");
                      ("progress", PInt 100);
                      ("message",
                       PStr "Resume uploaded and processed successfully!")] st in
            match preview resume_json with
            | inr p =>
                (Api.Json 200 [("success", PBool true);
                               ("message", PStr "Resume processed successfully");
                               ("preview", p)],
                 st)
            | inl e => failed E e st
            end
        end
  end.

End Upload.

(* ===================================================================== *)
(** * The vocabulary of the properties, and the inputs of the examples *)
(* ===================================================================== *)

Section MatchingTerms.
Import Py Matcher.

(** The object that the stage reads out of a reply, if it reads one. *)
Definition parsed_object (r : reply) : option (list (string * pyval)) :=
  match r with
  | Content (Some content) =>
      match Text.search_braces content with
      | Some span =>
          match Json.loads span with
          | Some (PDict items) => Some items
          | _ => None
          end
      | None => None
      end
  | _ => None
  end.

(** The failure path of an item: the call raises (or brings no text), or
    the response has no span that parses. *)
Definition no_span_parses (content : string) : Prop :=
  match Text.search_braces content with
  | None => True
  | Some span => Json.loads span = None
  end.

Definition failure_path (r : reply) : Prop :=
  match r with
  | Failed => True
  | Content None => True
  | Content (Some content) => no_span_parses content
  end.

(** The fields of a fallback record that the specification fixes. *)
Definition fallback_shape (a : dict) : Prop :=
  a !! "overall_score" = Some (PInt 0)
  /\ a !! "technical_skills_score" = Some (PInt 0)
  /\ a !! "experience_score" = Some (PInt 0)
  /\ a !! "domain_score" = Some (PInt 0)
  /\ a !! "responsibilities_score" = Some (PInt 0)
  /\ a !! "priority" = Some (PStr "UNKNOWN")
  /\ a !! "error" = Some (PStr "AI analysis failed")
  /\ a !! "strengths" = Some (PList [PStr "Analysis failed - manual review needed"])
  /\ a !! "gaps" = Some (PList [PStr "Could not analyze - check API connection"])
  /\ a !! "recommendations" = Some (PList [PStr "Retry analysis or review manually"]).

(** The record of the genuine path: the parsed object with the metadata. *)
Definition genuine (E : env) (items : list (string * pyval))
    (job_title company : pyval) (st : state) : dict * state :=
  (<["analysis_timestamp" := PStr (isoformat (now E (ticks (called st))))]>
     (<["company" := company]> (<["job_title" := job_title]> (list_to_map items))),
   tick (called st)).

(** The declared schema of an AnalysisRecord: five integer scores between
    0 and 100 and a priority out of four. *)
Definition score_ok (v : option pyval) : Prop :=
  exists z, v = Some (PInt z) /\ 0 <= z <= 100.

Definition priority_ok (v : option pyval) : Prop :=
  v = Some (PStr "HIGH") \/ v = Some (PStr "MEDIUM")
  \/ v = Some (PStr "LOW") \/ v = Some (PStr "UNKNOWN").

Definition schema_ok (a : dict) : Prop :=
  score_ok (a !! "overall_score")
  /\ score_ok (a !! "technical_skills_score")
  /\ score_ok (a !! "experience_score")
  /\ score_ok (a !! "domain_score")
  /\ score_ok (a !! "responsibilities_score")
  /\ priority_ok (a !! "priority").

Definition schema_keys : list string :=
  ["overall_score"; "technical_skills_score"; "experience_score"; "domain_score";
   "responsibilities_score"; "priority"].

(** A job qualifies when its cleaned description is not empty. *)
Definition qualifies (job : dict) : bool :=
  match clean_text (get job "description" (PStr "")) with
  | Ok description => negb (String.eqb description "")
  | Raise _ => false
  end.

(** The JobRecord of the data model: the description, when present, is a
    string or null. *)
Definition description_is_text (job : dict) : Prop :=
  match job !! "description" with
  | None | Some PNone | Some (PStr _) => True
  | Some _ => False
  end.

(** The job metadata that [analyze_all_jobs] adds to an analysis. *)
Definition decorate (job a : dict) : dict :=
  <["job_url" := get job "url" (PStr "")]>
    (<["job_id" := get job "job_id" (PStr "unknown")]> a).

(** [a] is the record of the stage for [job]: its analysis, made from the
    cleaned description, with the identifier and URL of the job. *)
Definition produced_for (E : env) (resume_text : string) (job a : dict) : Prop :=
  exists description st,
    clean_text (get job "description" (PStr "")) = Ok description
    /\ description <> ""
    /\ a = decorate job
             (calculate_match_score E resume_text description
                (get job "title" (PStr "No title"))
                (get job "company" (PStr "No company")) st).1.

(** The sort key of a record is a number. *)
Definition number_keyed (x : dict) : Prop := is_Some (Num.as_num (score_key x)).


(** What the caller of [create_summary_report] gets: the text or the
    exception. *)
Definition outcome (r : result (string * state)) : result string :=
  match r with
  | Ok (text, _) => Ok text
  | Raise e => Raise e
  end.

End MatchingTerms.

Section MatchingExamples.
Import Py Matcher.

Definition dq : string := String Obj.dquote "".

(** [k] between double quotes. *)
Definition quoted (k : string) : string := dq +:+ k +:+ dq.

Definition clock (n : nat) : datetime :=
  {| year := 2025; month := 1; day := 15; hour := 9; minute := 30;
     second := n; microsecond := 0 |}.

(** An inference service that gives the listed replies in turn and fails
    afterwards. *)
Definition scripted (replies : list reply) : env :=
  {| llm := fun n _ => nth n replies Failed; now := clock |}.

Definition st0 : state := {| calls := 0; ticks := 0; files := ∅ |}.

(** The state in which the clock has been read [n] times. *)
Definition at_tick (n : nat) : state := {| calls := 0; ticks := n; files := ∅ |}.

(** The object with the overall score 42 and the priority HIGH. *)
Definition obj42 : string :=
  "{" +:+ quoted "overall_score" +:+ ": 42, " +:+ quoted "priority" +:+ ": "
      +:+ quoted "HIGH" +:+ "}".

Definition items42 : list (string * pyval) :=
  [("overall_score", PInt 42); ("priority", PStr "HIGH")].

(** The response of the specification's example, and one whose leading
    prose has a brace of its own. *)
Definition prose_response : string :=
  "Sure! Here is the result: " +:+ obj42 +:+ " Thanks.".

Definition braced_prose_response : string :=
  "Sure! Here (in {braces}) is the result: " +:+ obj42 +:+ " Thanks.".

(** A well-formed object whose values are outside the schema: the overall
    score is 150 and the priority is URGENT. *)
Definition obj150 : string :=
  "{" +:+ quoted "overall_score" +:+ ": 150, "
      +:+ quoted "technical_skills_score" +:+ ": 90, "
      +:+ quoted "experience_score" +:+ ": 80, "
      +:+ quoted "domain_score" +:+ ": 70, "
      +:+ quoted "responsibilities_score" +:+ ": 60, "
      +:+ quoted "priority" +:+ ": " +:+ quoted "URGENT" +:+ "}".



Definition score_70 : string := "{" +:+ quoted "overall_score" +:+ ": 70}".


(** Three jobs, the second with a description that is only an expansion
    artifact. *)
Definition three_jobs : list dict :=
  [ {[ "job_id" := PStr "1"; "description" := PStr "Build   agents" ]};
    {[ "job_id" := PStr "2"; "description" := PStr " Show more details Show less " ]};
    {[ "job_id" := PStr "3"; "description" := PStr "Train models" ]} ].

Definition st_three_jobs : state :=
  {| calls := 0; ticks := 0; files := {[ "jobs_with_descriptions.json" := three_jobs ]} |}.

(** A service that answers twice, with the scores 42 and 70. *)
Definition two_answers : env :=
  scripted [Content (Some prose_response); Content (Some score_70)].

(** One job, and the records that the stage makes of it for a response. *)
Definition one_job : dict :=
  {[ "job_id" := PStr "4266063414"; "title" := PStr "AI Engineer";
     "description" := PStr "Build agents" ]}.

Definition st_one_job : state :=
  {| calls := 0; ticks := 0; files := {[ "jobs_with_descriptions.json" := [one_job] ]} |}.

Definition record_of (response : string) : dict :=
  decorate one_job
    (calculate_match_score (scripted [Content (Some response)]) "resume"
       "Build agents" (PStr "AI Engineer") (PStr "No company") st_one_job).1.

Definition record42 : dict := record_of prose_response.
Definition record150 : dict := record_of ("Here you go: " +:+ obj150).

(** The report on [record42] alone, for a given text of its line
    [Generated:]; the mean of the one score is 42.0. *)
Definition report42 (generated : string) : string :=
  report_head generated 1 (binary_normalize Num.prec Num.emax 42 0 false) 0 0
  +:+ "
1. AI Engineer at No company
   Score: 42/100 | Priority: HIGH
   Job ID: 4266063414
" +:+ report_foot 1 0.

End MatchingExamples.

Section EnrichmentTerms.
Import Py GetJD.


(** What the stage makes of [job] when its request is the [n]-th. *)
Definition enrich (E : env) (n : nat) (job : dict) : dict :=
  match job !! "url" with
  | Some url =>
      match http_get E n url with
      | Some page => job_details_of page ∪ job
      | None => job
      end
  | None => job
  end.


(** The keys of [job_details]. *)
Definition detail_keys : list string :=
  ["title"; "company"; "location"; "employment_type"; "seniority_level";
   "description"].

(** A job that Discovery found with its title, a page of which only the
    description is found, and a site that serves this page. *)
Definition titled_job : dict :=
  {[ "job_id" := PStr "4266063414";
     "url" := PStr "https://www.linkedin.com/jobs/view/4266063414";
     "title" := PStr "AI Engineer"; "company" := PStr "Initech";
     "location" := PStr "Austin, TX" ]}.

Definition description_only : soup :=
  fun selector =>
    if String.eqb selector ".description__text" then Some "Build agents" else None.

Definition serving (page : soup) : env := {| http_get := fun _ _ => Some page |}.


Definition other_job : dict :=
  {[ "job_id" := PStr "4266063415";
     "url" := PStr "https://www.linkedin.com/jobs/view/4266063415" ]}.

Definition fresh_store : state := {| requests := 0; files := ∅ |}.

End EnrichmentTerms.

Section DiscoveryTerms.
Import Py GetJobs.

Definition id_of (r : dict) : option pyval := r !! "job_id".

Definition as_id (job_id : string) : option pyval := Some (PStr job_id).

(** The identifiers whose information the collector asked for, in order. *)
Fixpoint info_ids (l : list event) : list string :=
  match l with
  | [] => []
  | GetJobInfo job_id :: l' => job_id :: info_ids l'
  | _ :: l' => info_ids l'
  end.


(** The identifiers of a page that are new, each at its first place. *)
Fixpoint fresh (seen : gset string) (ids : list string) : list string :=
  match ids with
  | [] => []
  | job_id :: rest =>
      if bool_decide (job_id ∈ seen) then fresh seen rest
      else job_id :: fresh ({[job_id]} ∪ seen) rest
  end.

(** How many more jobs the quota admits. *)
Definition quota_left (max_jobs : Z) (collected : list dict) : nat :=
  Z.to_nat (max_jobs - Z.of_nat (length collected)).

(** A browser on which no way of logging in works. *)
Definition locked_out : env :=
  {| cookies_login_ok := fun _ => false;
     auto_login_ok := fun _ => false;
     manual_login_ok := fun _ => false;
     page := fun _ => {| data_job_ids := [Some "1"]; view_link_ids := [];
                         current_job_id := None |};
     job_fields := fun _ _ => None;
     scroll_ok := fun _ => true;
     click_next_ok := fun _ => true;
     time_time := fun _ => S754_zero false |}.

(** A browser where the manual login works; every view of the page shows
    the cards 1, 2, 1 and 3, the current job is 2, and nothing more
    loads. *)
Definition small_site : env :=
  {| cookies_login_ok := fun _ => false;
     auto_login_ok := fun _ => false;
     manual_login_ok := fun _ => true;
     page := fun _ => {| data_job_ids := [Some "1"; Some "2"; Some "1"; Some "3"];
                         view_link_ids := [];
                         current_job_id := Some "2" |};
     job_fields := fun _ job_id =>
       if String.eqb job_id "2" then None
       else Some (Some "AI Engineer", None, Some "Austin, TX");
     scroll_ok := fun _ => false;
     click_next_ok := fun _ => false;
     time_time := fun _ => S754_zero false |}.

(** A run on the small site with a quota of two. *)
Definition small_run : option (list dict * state) :=
  collect_job_ids_from_search 3 small_site "https://www.linkedin.com/jobs/search/"
    2 PNone PNone init.

Definition small_jobs : list dict :=
  match small_run with
  | Some r => r.1
  | None => []
  end.

Definition small_state : state :=
  match small_run with
  | Some r => r.2
  | None => init
  end.

End DiscoveryTerms.

Section PipelineTerms.
Import Py.

(** The idle [process_status], and a store with the file that an earlier
    run has left. *)
Definition idle : App.state :=
  {| App.process_status :=
       list_to_map [("status", PStr "idle"); ("step", PStr ""); ("progress", PInt 0);
                    ("message", PStr ""); ("error", PNone); ("results", PNone)];
     App.store :=
       {| GetJD.requests := 0;
          GetJD.files := {[ "collected_jobs.json" := [titled_job] ]} |};
     App.browser_log := [] |}.

Definition locked_out_world : App.env :=
  {| App.browser := locked_out; App.site := serving description_only |}.

End PipelineTerms.

Section MoreDiscoveryTerms.
Import Py GetJobs.

(** [fold_left] of [add_id], the loop of methods 1 and 2. *)
Definition add_ids (found : list (option string)) (job_ids : list string)
  : list string :=
  fold_left (fun ids x => add_id x ids) found job_ids.

(** The events a call adds to the log of the browser. *)
Definition asked_since (before after : state) (new : list event) : Prop :=
  log after = (log before ++ new)%list.

(** A record as [get_job_info] makes it for an identifier that is not
    empty: the identifier, the URL of the job made from it, a timestamp,
    and the three fields, each a string or null. *)
Definition text_or_null (v : option pyval) : Prop :=
  v = Some PNone \/ exists text, v = Some (PStr text).

Definition discovery_record (r : dict) : Prop :=
  exists job_id t,
    job_id <> ""
    /\ r !! "job_id" = Some (PStr job_id)
    /\ r !! "url" = Some (PStr ("https://www.linkedin.com/jobs/view/" +:+ job_id))
    /\ r !! "timestamp" = Some (PFloat t)
    /\ text_or_null (r !! "title")
    /\ text_or_null (r !! "company")
    /\ text_or_null (r !! "location")
    /\ r !! "description" = None.

(** A browser on which neither scrolling nor the next job brings more. *)
Definition single_page (E : env) : Prop :=
  (forall n, scroll_ok E n = false) /\ (forall n, click_next_ok E n = false).

End MoreDiscoveryTerms.

Section MoreDiscoveryExamples.
Import Py GetJobs.

(** The collector after the login on the small site, and a front end on
    the small site. *)
Definition small_login : state :=
  (ensure_logged_in small_site PNone PNone "linkedin_cookies.json" init).2.


End MoreDiscoveryExamples.

Section MoreEnrichmentTerms.
Import Py GetJD.



End MoreEnrichmentTerms.

Section MoreEnrichmentExamples.
Import Py GetJD.

(** Six jobs from Discovery and a record without URL. *)
Definition six_jobs : list dict := replicate 6 titled_job.

Definition no_url_job : dict := {[ "job_id" := PStr "4266063420" ]}.

End MoreEnrichmentExamples.

Section MoreFetchTerms.
Import Py GetJD.

(** [r] is what the loop over [sels] finds on [page]: the text of the
    first selector that matches an element, or nothing when none
    matches. *)
Definition first_text (page : soup) (sels : list string) (r : option string) : Prop :=
  match r with
  | Some text =>
      exists i sel,
        sels !! i = Some sel /\ page sel = Some text
        /\ forall j sel', (j < i)%nat -> sels !! j = Some sel' -> page sel' = None
  | None => forall sel, sel ∈ sels -> page sel = None
  end.

Definition text_or_none (r : option string) : pyval :=
  match r with
  | Some text => PStr text
  | None => PNone
  end.

End MoreFetchTerms.

Section MoreMatchingTerms.
Import Py Matcher.

(** The overall score of a record when it is an integer. *)
Definition int_keyed (a : dict) : Prop := exists z, score_key a = PInt z.

Definition score_of (a : dict) : Z :=
  match score_key a with
  | PInt z => z
  | _ => 0
  end.

(** Every object that the service returns has an integer as its overall
    score, or none. *)
Definition int_scores (E : env) : Prop :=
  forall n prompt items,
    parsed_object (llm E n prompt) = Some items ->
    exists z, get (list_to_map items) "overall_score" (PInt 0) = PInt z.

(** [a] comes before [b] in a ranking: its score is not lower. *)
Definition ranks_before (a b : dict) : Prop := score_of b <= score_of a.

(** The records of [l] with the score [z], in their order. *)
Definition with_score (z : Z) (l : list dict) : list dict :=
  filter (fun a => score_of a = z) l.

(** The run of the Matching stage on the three jobs with two answers. *)
Definition three_jobs_run : result (list dict * state) :=
  analyze_all_jobs two_answers "jobs_with_descriptions.json" "resume" st_three_jobs.

Definition three_jobs_results : list dict :=
  match three_jobs_run with
  | Ok r => r.1
  | Raise _ => []
  end.

Definition three_jobs_state : state :=
  match three_jobs_run with
  | Ok r => r.2
  | Raise _ => st_three_jobs
  end.

End MoreMatchingTerms.

Section MoreCleaningTerms.
Import Py Matcher.

(** A white-space control character: a tab, a line feed, a vertical tab,
    a form feed, a carriage return, or one of the four separators
    U+001C to U+001F. *)
Definition control_space (c : ascii) : bool :=
  let x := Text.byte c in
  (9 <=? x) && (x <=? 13) || (28 <=? x) && (x <=? 31).

(** A job with nothing to analyse: no description, a null one, or one of
    white space only. *)
Definition blank_description (job : dict) : Prop :=
  match job !! "description" with
  | None | Some PNone => True
  | Some (PStr s) => Space.blank_from 0 s = true
  | Some _ => False
  end.

(** Three jobs without a description to analyse. *)
Definition blank_jobs : list dict :=
  [ {[ "job_id" := PStr "1" ]};
    {[ "job_id" := PStr "2"; "description" := PNone ]};
    {[ "job_id" := PStr "3";
       "description" := PStr (" " +:+ String (ascii_of_N 9) (String (ascii_of_N 10) " ")) ]} ].

Definition st_blank_jobs : state :=
  {| calls := 0; ticks := 0; files := {[ "jobs_with_descriptions.json" := blank_jobs ]} |}.

End MoreCleaningTerms.

Section MoreReportTerms.
Import Py Matcher.

(** The fallback record of a job. *)
Definition failed_record : dict :=
  (_create_fallback_analysis (scripted []) (PStr "AI Engineer") (PStr "Initech") st0).1.

(** What the report reads of the records after the fifth: the score and
    the priority. *)
Definition tail_view (l : list dict) : list (pyval * pyval) :=
  map (fun j => (score_key j, get_none j "priority")) l.

(** Six records with the same score, and the same with another sixth
    title. *)
Definition six_records (title : string) : list dict :=
  replicate 5 record42 ++ [<["job_title" := PStr title]> record42].

End MoreReportTerms.

Section UrlTerms.
Import Py Url.




End UrlTerms.

Section UrlDecoding.
Import Py Url.



End UrlDecoding.

Section ApiTerms.
Import Py Api.

Definition status_of (st : state) : option pyval := process_status st !! "status".

(** The analysis can start and the Matching stage returns [results],
    leaving the matcher in the state [m]: there is resume data with a
    text, the matcher can be made, and [analyze_all_jobs] returns. *)
Definition matching_returns (E : env) (st : state) (results : list dict)
    (m : Matcher.state) : Prop :=
  exists rd text,
    resume_data (files st) = Some rd
    /\ resume_text_of rd = Ok text
    /\ matcher_starts E = true
    /\ Matcher.analyze_all_jobs (matcher E) "jobs_with_descriptions.json"
         (Obj.str text) (matcher_state st)
       = Ok (results, m).

(** The [results] entry of the status after a completed analysis. *)
Definition results_entry (results : list dict) (high : nat) (average : pyval)
  : pyval :=
  PDict [("total_jobs", PInt (Z.of_nat (length results)));
         ("high_matches", PInt (Z.of_nat high));
         ("average_score", average);
         ("results_file", PStr "analysis_results.json");
         ("report_file", PStr "job_match_report.txt")].

(** A front end whose inference service gives the two answers, and one
    whose matcher cannot be made. *)
Definition web (start : bool) : env :=
  {| matcher := two_answers; matcher_starts := start;
     error_text := fun _ => "error" |}.

(** The state after an upload of a resume and a collection of the three
    jobs, and a fresh state. *)
Definition empty_store : store :=
  {| collected_jobs := None; jobs_with_descriptions := None;
     analysis_results := None; job_match_report := None; resume_data := None |}.

Definition fresh_app : state :=
  {| process_status := idle_status; files := empty_store; calls := 0; ticks := 0 |}.

Definition ready_app : state :=
  {| process_status := idle_status;
     files :=
       {| collected_jobs := Some three_jobs;
          jobs_with_descriptions := Some three_jobs;
          analysis_results := None;
          job_match_report := None;
          resume_data := Some (PDict [("text", PStr "resume")]) |};
     calls := 0; ticks := 0 |}.

End ApiTerms.

Section MainTerms.
Import Py.




End MainTerms.

Section ResumeTerms.
Import Py.

(** The back tick. *)
Definition tick : ascii := "`".




Definition no_request : ResumeHandling.state :=
  {| ResumeHandling.requests := 0; ResumeHandling.resume_extraction := None |}.

End ResumeTerms.

Section UploadTerms.
Import Py Upload.

(** [resume_data.json] and an entry of the status in a state. *)
Definition saved_resume (st : state) : option pyval :=
  Api.resume_data (Api.files (app st)).

Definition status_entry (key : string) (st : state) : option pyval :=
  Api.process_status (app st) !! key.

(** One of the four sections that the preview looks at is null. *)
Definition null_section (items : list (string * pyval)) : Prop :=
  exists key, key ∈ ["personal_info"; "experience"; "education"; "skills"]
              /\ items_get key items = Some PNone.

(** The preview of a resume of which nothing is known. *)
Definition empty_preview : pyval :=
  PDict [("name", PStr "N/A"); ("experience_count", PInt 0);
         ("education_count", PInt 0); ("skills_count", PInt 0)].

(** An upload of a named PDF to a fresh front end, whose text can be
    extracted, with a parser whose request fails, and with one that
    answers with an object in which the experience is null. *)
Definition resume_file : file_storage :=
  {| filename := "Resume.PDF"; body := "%PDF-1.7" |}.

Definition fresh_upload : state :=
  {| app := fresh_app; resume_pdf := None;
     parsing := no_request |}.

Definition failing_parser : ResumeHandling.env :=
  {| ResumeHandling.create := fun _ _ => Matcher.Failed;
     ResumeHandling.create_error := fun _ => "Connection error.";
     ResumeHandling.loads_error := fun _ => "Failed to parse JSON response" |}.

Definition null_answer : string :=
  "{" +:+ ResumeHandling.quoted "experience" +:+ ": null}".

Definition null_parser : ResumeHandling.env :=
  {| ResumeHandling.create := fun _ _ => Matcher.Content (Some null_answer);
     ResumeHandling.create_error := fun _ => "Connection error.";
     ResumeHandling.loads_error := fun _ => "Failed to parse JSON response" |}.

Definition uploads (p : ResumeHandling.env) : env :=
  {| api := web true;
     pdf_text := fun _ => Some "Jane Doe";
     pdf_error := fun _ => "error";
     parser := p |}.

End UploadTerms.
(* ===================================================================== *)
(** * Properties *)
(* ===================================================================== *)

(** An equation between closed terms, checked by evaluating both sides. *)
Ltac run :=
  lazymatch goal with
  | |- ?x = ?y => vm_cast_no_check (@eq_refl _ y)
  end.

(** ** The search for the JSON span *)

Section Braces.
Import Text.

Lemma upto_last_rbrace_none s : occurs "}" s = false -> upto_last_rbrace s = None.
Proof.
  induction s as [|a s IH]; simpl; [done|].
  intros [Ha Hs]%orb_false_iff. by rewrite (IH Hs), Ha.
Qed.

Lemma upto_last_rbrace_app mid post :
  occurs "}" post = false ->
  upto_last_rbrace (mid +:+ String "}" post) = Some (mid +:+ "}").
Proof.
  intros Hpost. induction mid as [|a mid IH]; simpl.
  - by rewrite (upto_last_rbrace_none _ Hpost).
  - by rewrite IH.
Qed.

Lemma from_first_lbrace_app pre t :
  occurs "{" pre = false ->
  from_first_lbrace (pre +:+ String "{" t) = Some (String "{" t).
Proof.
  induction pre as [|a pre IH]; simpl; [done|].
  intros [Ha Hs]%orb_false_iff. rewrite Ha. auto.
Qed.

Lemma from_first_lbrace_inv s t :
  from_first_lbrace s = Some t ->
  exists pre t', s = pre +:+ t /\ t = String "{" t' /\ occurs "{" pre = false.
Proof.
  induction s as [|a s IH]; simpl; [done|].
  destruct (Ascii.eqb a "{") eqn:Ha.
  - intros [= <-]. apply Ascii.eqb_eq in Ha as ->. by exists "", s.
  - intros (pre & t' & -> & -> & Hpre)%IH.
    exists (String a pre), t'. simpl. by rewrite Ha, Hpre.
Qed.

Lemma upto_last_rbrace_inv s p :
  upto_last_rbrace s = Some p ->
  exists mid post, s = p +:+ post /\ p = mid +:+ "}" /\ occurs "}" post = false.
Proof.
  revert p. induction s as [|a s IH]; simpl; [done|]. intros p.
  destruct (upto_last_rbrace s) as [q|] eqn:Hq.
  - intros [= <-]. destruct (IH q eq_refl) as (mid & post & -> & -> & Hpost).
    by exists (String a mid), post.
  - destruct (Ascii.eqb a "}") eqn:Ha; [|done].
    intros [= <-]. apply Ascii.eqb_eq in Ha as ->.
    exists "", s. split_and!; [done..|].
    clear IH. induction s as [|b s IH]; simpl in *; [done|].
    destruct (upto_last_rbrace s); [done|].
    destruct (Ascii.eqb b "}") eqn:Hb; [done|]. auto.
Qed.

(** The match of [\{.*\}] is the text from the first [{] to the last [}]. *)
Lemma search_braces_app pre mid post :
  occurs "{" pre = false -> occurs "}" post = false ->
  search_braces (pre +:+ String "{" (mid +:+ String "}" post))
  = Some (String "{" (mid +:+ "}")).
Proof.
  intros Hpre Hpost. unfold search_braces.
  rewrite (from_first_lbrace_app _ _ Hpre).
  by rewrite (upto_last_rbrace_app _ _ Hpost).
Qed.

Lemma search_braces_inv content span :
  search_braces content = Some span ->
  exists pre mid post,
    content = pre +:+ span +:+ post /\ span = String "{" (mid +:+ "}")
    /\ occurs "{" pre = false /\ occurs "}" post = false.
Proof.
  unfold search_braces.
  destruct (from_first_lbrace content) as [t|] eqn:Ht; [|done].
  apply from_first_lbrace_inv in Ht as (pre & t' & -> & -> & Hpre).
  destruct (upto_last_rbrace t') as [p|] eqn:Hp; [|done].
  intros [= <-].
  apply upto_last_rbrace_inv in Hp as (mid & post & -> & -> & Hpost).
  exists pre, mid, post. split_and!; try done.
Qed.

End Braces.

(** ** The Matching stage *)

Section MatcherLemmas.
Import Py Matcher.

Lemma fallback_has_shape E job_title company st :
  fallback_shape (_create_fallback_analysis E job_title company st).1.
Proof. repeat split. Qed.

(** The stage has two outcomes: the parsed object with its metadata, or the
    fallback record.  It raises nothing. *)
Lemma calculate_match_score_cases E resume_text job_description job_title company st :
  let r := llm E (calls st) (match_prompt resume_text job_description job_title company) in
  calculate_match_score E resume_text job_description job_title company st
  = match parsed_object r with
    | Some items => genuine E items job_title company st
    | None => _create_fallback_analysis E job_title company (called st)
    end.
Proof.
  intros r. unfold calculate_match_score, parsed_object. fold r.
  destruct r as [|[content|]]; try done.
  destruct (Text.search_braces content) as [span|]; try done.
  destruct (Json.loads span) as [[]|]; done.
Qed.

Lemma failure_path_parsed r : failure_path r -> parsed_object r = None.
Proof.
  destruct r as [|[content|]]; simpl; try done.
  unfold no_span_parses.
  destruct (Text.search_braces content) as [span|]; [|done]. by intros ->.
Qed.

End MatcherLemmas.

Section JsonLemmas.
Import Py Json.

Lemma members_dict fuel s acc v r :
  members fuel s acc = Some (v, r) -> exists items, v = PDict items.
Proof.
  revert s acc. induction fuel as [|fuel IH]; intros s acc; simpl; [done|].
  destruct (scanstring s) as [[key r1]|]; [|done].
  destruct (skip_ws r1) as [|c r2]; [done|].
  destruct (Ascii.eqb c ":"); [|done].
  destruct (scan_once fuel (skip_ws r2)) as [[w r3]|]; [|done].
  destruct (skip_ws r3) as [|c3 r4]; [done|].
  destruct (Ascii.eqb c3 "}"); [intros [= <- _]; eauto|].
  destruct (Ascii.eqb c3 ","); [|done].
  destruct (skip_ws r4) as [|c5 r5]; [done|].
  destruct (Ascii.eqb c5 Obj.dquote); [|done].
  apply IH.
Qed.

(** A text that starts with [{] parses to a [dict] or not at all. *)
Lemma loads_object t v :
  loads (String "{" t) = Some v -> exists items, v = PDict items.
Proof.
  unfold loads.
  replace (strip_prefix bom (String "{" t)) with (@None string) by done.
  replace (skip_ws (String "{" t)) with (String "{" t) by done.
  cbn [scan_once String.length].
  replace (Ascii.eqb "{" Obj.dquote) with false by done.
  replace (Ascii.eqb "{" "{") with true by done.
  destruct (skip_ws t) as [|c1 r1]; [done|].
  destruct (Ascii.eqb c1 "}").
  - destruct (skip_ws r1); [|done]. intros [= <-]. eauto.
  - destruct (Ascii.eqb c1 Obj.dquote); [|done].
    destruct (members _ r1 []) as [[w r]|] eqn:Hm; [|done].
    destruct (skip_ws r); [|done]. intros [= <-].
    eapply members_dict, Hm.
Qed.

End JsonLemmas.

Section MatcherTheorems.
Import Py Matcher.

Lemma fallback_schema_ok a : fallback_shape a -> schema_ok a.
Proof.
  intros (H1 & H2 & H3 & H4 & H5 & H6 & _).
  unfold schema_ok, score_ok, priority_ok. rewrite H1, H2, H3, H4, H5, H6.
  split_and!; try (exists 0; split; [done|lia]). auto.
Qed.

(** C2. Whenever an item takes the failure path (the inference call raises
    or brings no text, or the response has no span that parses), the record
    of [calculate_match_score] has the overall score and the four
    sub-scores 0, the priority UNKNOWN, an error text, and one placeholder
    string in each of strengths, gaps and recommendations. *)
Theorem fallback_schema_uniformity E resume_text job_description job_title company st :
  failure_path
    (llm E (calls st) (match_prompt resume_text job_description job_title company)) ->
  let a :=
    (calculate_match_score E resume_text job_description job_title company st).1 in
  a !! "overall_score" = Some (PInt 0)
  /\ a !! "technical_skills_score" = Some (PInt 0)
  /\ a !! "experience_score" = Some (PInt 0)
  /\ a !! "domain_score" = Some (PInt 0)
  /\ a !! "responsibilities_score" = Some (PInt 0)
  /\ a !! "priority" = Some (PStr "UNKNOWN")
  /\ (exists e, a !! "error" = Some (PStr e) /\ e <> "")
  /\ (exists s, a !! "strengths" = Some (PList [PStr s]) /\ s <> "")
  /\ (exists s, a !! "gaps" = Some (PList [PStr s]) /\ s <> "")
  /\ (exists s, a !! "recommendations" = Some (PList [PStr s]) /\ s <> "").
Proof.
  intros Hfail a. subst a.
  rewrite calculate_match_score_cases. cbv zeta.
  rewrite (failure_path_parsed _ Hfail).
  destruct (fallback_has_shape E job_title company (called st))
    as (H1 & H2 & H3 & H4 & H5 & H6 & H7 & H8 & H9 & H10).
  split_and!; try done; eexists; (split; [eassumption|done]).
Qed.

Lemma fallback_schema_uniformity_witness :
  failure_path (llm (scripted [Content (Some "I cannot rate this {job.")])
                  (calls st0) (match_prompt "resume" "Build things" (PStr "Engineer") PNone))
  /\ (calculate_match_score (scripted [Content (Some "I cannot rate this {job.")])
        "resume" "Build things" (PStr "Engineer") PNone st0).1 !! "priority"
     = Some (PStr "UNKNOWN").
Proof.
  assert (H : failure_path
                (llm (scripted [Content (Some "I cannot rate this {job.")])
                   (calls st0)
                   (match_prompt "resume" "Build things" (PStr "Engineer") PNone)))
    by (vm_compute; exact I).
  split; [exact H|].
  exact (proj1 (proj2 (proj2 (proj2 (proj2 (proj2
    (fallback_schema_uniformity _ _ _ _ _ _ H))))))).
Defined.

End MatcherTheorems.

Section MatcherParsing.
Import Py Matcher.

(** C3 (amended). For a response [content], the stage parses the text from
    the first [{] to the last [}] and nothing else.  An object that stands
    between leading prose without [{] and trailing prose without [}] is
    that text: when it parses, the record is the parsed object with the
    metadata.  When there is no such text, or it does not parse, the record
    is the fallback record; in no case does the stage raise. *)
Theorem json_span_extraction E resume_text job_description job_title company st content :
  llm E (calls st) (match_prompt resume_text job_description job_title company)
  = Content (Some content) ->
  let result :=
    calculate_match_score E resume_text job_description job_title company st in
  (forall span, Text.search_braces content = Some span ->
     exists pre mid post,
       content = pre +:+ span +:+ post /\ span = String "{" (mid +:+ "}")
       /\ Text.occurs "{" pre = false /\ Text.occurs "}" post = false)
  /\ (forall pre mid post v,
        content = pre +:+ String "{" (mid +:+ String "}" post) ->
        Text.occurs "{" pre = false -> Text.occurs "}" post = false ->
        Json.loads (String "{" (mid +:+ "}")) = Some v ->
        exists items, v = PDict items
                      /\ result = genuine E items job_title company st)
  /\ (no_span_parses content ->
        result = _create_fallback_analysis E job_title company (called st)).
Proof.
  intros Hreply result. subst result.
  rewrite calculate_match_score_cases. cbv zeta. rewrite Hreply.
  split_and!.
  - intros span. apply search_braces_inv.
  - intros pre mid post v -> Hpre Hpost Hv.
    destruct (loads_object _ _ Hv) as [items ->]. exists items. split; [done|].
    simpl. by rewrite (search_braces_app _ _ _ Hpre Hpost), Hv.
  - intros Hno. by rewrite (failure_path_parsed (Content (Some content)) Hno).
Qed.

Lemma json_span_extraction_witness :
  llm (scripted [Content (Some prose_response)]) (calls st0)
    (match_prompt "resume" "Build things" (PStr "Engineer") PNone)
  = Content (Some prose_response)
  /\ exists items,
       PDict items42 = PDict items
       /\ calculate_match_score (scripted [Content (Some prose_response)])
            "resume" "Build things" (PStr "Engineer") PNone st0
          = genuine (scripted [Content (Some prose_response)]) items
              (PStr "Engineer") PNone st0.
Proof.
  split; [reflexivity|].
  refine (proj1 (proj2 (json_span_extraction
            (scripted [Content (Some prose_response)]) "resume" "Build things"
            (PStr "Engineer") PNone st0 prose_response eq_refl))
          "Sure! Here is the result: "
          (quoted "overall_score" +:+ ": 42, " +:+ quoted "priority" +:+ ": "
             +:+ quoted "HIGH")
          " Thanks." (PDict items42) _ _ _ _); by vm_compute.
Defined.

(** The claim as the specification words it lets any prose stand before
    the object.  Here the prose has a brace: the match starts there, the
    object itself parses, the matched text does not, and the record is the
    fallback record. *)
Lemma json_span_extraction_counterexample :
  braced_prose_response
  = "Sure! Here (in {braces}) is the result: " +:+ obj42 +:+ " Thanks."
  /\ Json.loads obj42 = Some (PDict items42)
  /\ Text.occurs "}" " Thanks." = false
  /\ Text.search_braces braced_prose_response
     = Some ("{braces}) is the result: " +:+ obj42)
  /\ Json.loads ("{braces}) is the result: " +:+ obj42) = None
  /\ (calculate_match_score (scripted [Content (Some braced_prose_response)])
        "resume" "Build things" (PStr "Engineer") PNone st0).1 !! "error"
     = Some (PStr "AI analysis failed")
  /\ (calculate_match_score (scripted [Content (Some braced_prose_response)])
        "resume" "Build things" (PStr "Engineer") PNone st0).1 !! "overall_score"
     = Some (PInt 0).
Proof. split_and!; by vm_compute. Qed.

(** The example of the specification, run: the score of the record is the
    one in the response. *)
Example json_span_extraction_example :
  (calculate_match_score (scripted [Content (Some prose_response)])
     "resume" "Build things" (PStr "Engineer") PNone st0).1 !! "overall_score"
  = Some (PInt 42).
Proof. by vm_compute. Qed.

End MatcherParsing.

Section AnalysisLemmas.
Import Py Matcher.

Lemma clean_text_total job :
  description_is_text job ->
  exists d, clean_text (get job "description" (PStr "")) = Ok d.
Proof.
  unfold description_is_text, get.
  destruct (job !! "description") as [[]|]; try done; intros _; unfold clean_text;
    simpl; try (eexists; reflexivity).
  all: destruct (negb _); eexists; reflexivity.
Qed.

Lemma analyze_jobs_inv E resume_text jobs : forall results st out st',
  analyze_jobs E resume_text jobs results st = Ok (out, st') ->
  exists new,
    out = (results ++ new)%list
    /\ Forall2 (produced_for E resume_text)
         (filter (fun j => qualifies j = true) jobs) new.
Proof.
  induction jobs as [|job jobs IH]; intros results st out st'; simpl.
  - intros [= <- <-]. exists []. by rewrite app_nil_r.
  - unfold qualifies at 1.
    destruct (clean_text (get job "description" (PStr ""))) as [d|e] eqn:Hd;
      simpl; [|done].
    destruct (String.eqb d "") eqn:Hempty.
    + intros H. rewrite filter_cons_False; [by eapply IH|].
      unfold qualifies. rewrite Hd, Hempty. done.
    + destruct (calculate_match_score E resume_text d _ _ st) as [a st1] eqn:Ha.
      intros (new & -> & Hnew)%IH.
      eexists (_ :: new). rewrite <- app_assoc. split; [done|].
      rewrite filter_cons_True
        by (unfold qualifies; by rewrite Hd, Hempty).
      constructor; [|done].
      exists d, st. rewrite Ha. split_and!; try done.
      intros ->. done.
Qed.

Lemma analyze_jobs_total E resume_text jobs : forall results st,
  Forall description_is_text jobs ->
  exists out st', analyze_jobs E resume_text jobs results st = Ok (out, st').
Proof.
  induction jobs as [|job jobs IH]; intros results st Hjobs; simpl; [eauto|].
  apply Forall_cons in Hjobs as [Hjob Hjobs].
  destruct (clean_text_total _ Hjob) as [d ->]. simpl.
  destruct (String.eqb d ""); [by apply IH|].
  destruct (calculate_match_score E resume_text d _ _ st) as [a st1].
  by apply IH.
Qed.

Lemma insert_desc_perm x l l' : insert_desc x l = Ok l' -> l' ≡ₚ x :: l.
Proof.
  revert l'. induction l as [|y l IH]; intros l'; simpl.
  - by intros [= <-].
  - destruct (Obj.lt (score_key x) (score_key y)) as [[]|]; simpl; [| |done].
    + destruct (insert_desc x l) as [r|]; simpl; [|done].
      intros [= <-]. rewrite (IH r eq_refl). apply Permutation_swap.
    + by intros [= <-].
Qed.

Lemma sort_desc_perm l l' : sort_desc l = Ok l' -> l' ≡ₚ l.
Proof.
  revert l'. induction l as [|x l IH]; intros l'; simpl.
  - by intros [= <-].
  - destruct (sort_desc l) as [r|]; simpl; [|done].
    intros ->%insert_desc_perm. by rewrite (IH r eq_refl).
Qed.

Lemma lt_numbers a b :
  is_Some (Num.as_num a) -> is_Some (Num.as_num b) -> exists r, Obj.lt a b = Ok r.
Proof.
  intros [x Hx] [y Hy].
  destruct a; try done; destruct b; try done; simpl; eauto.
Qed.

Lemma insert_desc_numbers x l :
  number_keyed x -> Forall number_keyed l -> exists l', insert_desc x l = Ok l'.
Proof.
  intros Hx. induction 1 as [|y l Hy Hl IH]; simpl; [eauto|].
  destruct (lt_numbers _ _ Hx Hy) as [[] ->]; simpl; [|eauto].
  destruct IH as [r ->]. simpl. eauto.
Qed.

Lemma sort_desc_numbers l :
  Forall number_keyed l -> exists l', sort_desc l = Ok l'.
Proof.
  induction 1 as [|x l Hx Hl IH]; simpl; [eauto|].
  destruct IH as [r Hr]. rewrite Hr. simpl.
  apply insert_desc_numbers; [done|].
  apply sort_desc_perm in Hr. by rewrite Hr.
Qed.

(** What the stage adds leaves the schema fields as they are. *)
Lemma decorate_lookup job a k :
  k <> "job_id" -> k <> "job_url" -> decorate job a !! k = a !! k.
Proof. intros. unfold decorate. by rewrite !lookup_insert_ne. Qed.

Lemma genuine_lookup E items job_title company st k :
  k <> "job_title" -> k <> "company" -> k <> "analysis_timestamp" ->
  (genuine E items job_title company st).1 !! k
  = (list_to_map items : dict) !! k.
Proof. intros. unfold genuine. simpl. by rewrite !lookup_insert_ne. Qed.


End AnalysisLemmas.

Section AnalysisTheorems.
Import Py Matcher.




(** The run of the witness: the second job is skipped, the other two get
    the two answers, and the higher score comes first. *)
Example matching_run :
  match analyze_all_jobs two_answers "jobs_with_descriptions.json" "resume"
          st_three_jobs with
  | Ok (results, st') =>
      (map (fun a : dict => (a !! "job_id", a !! "overall_score")) results, calls st')
  | Raise _ => ([], O)
  end
  = ([(Some (PStr "3"), Some (PInt 70)); (Some (PStr "1"), Some (PInt 42))], 2%nat).
Proof. run. Qed.


End AnalysisTheorems.

Section SchemaTheorems.
Import Py Matcher.

Lemma schema_ok_ext (a b : dict) :
  (forall k, k ∈ schema_keys -> a !! k = b !! k) -> schema_ok a <-> schema_ok b.
Proof.
  intros H. unfold schema_ok.
  rewrite !H by (unfold schema_keys; set_solver). done.
Qed.

Lemma fallback_shape_decorate job a :
  fallback_shape a -> fallback_shape (decorate job a).
Proof. unfold fallback_shape. by rewrite !decorate_lookup. Qed.

Lemma schema_key_not_metadata k :
  k ∈ schema_keys ->
  k <> "job_title" /\ k <> "company" /\ k <> "analysis_timestamp"
  /\ k <> "job_id" /\ k <> "job_url".
Proof.
  unfold schema_keys. rewrite !elem_of_cons, elem_of_nil.
  intros [->|[->|[->|[->|[->|[->|[]]]]]]]; done.
Qed.

(** C7 (amended). A record of the Matching stage is either the fallback
    record, which satisfies the schema, or carries the scores and the
    priority of the object that the service returned, as they are: it
    satisfies the schema exactly when that object does.  The stage checks
    neither the kind nor the range of a value. *)
Theorem analysis_records_schema E jobs_file resume_text st results st' :
  analyze_all_jobs E jobs_file resume_text st = Ok (results, st') ->
  forall a, a ∈ results ->
    (fallback_shape a /\ schema_ok a)
    \/ (exists n prompt items,
          parsed_object (llm E n prompt) = Some items
          /\ (forall k, k ∈ schema_keys -> a !! k = (list_to_map items : dict) !! k)
          /\ (schema_ok a <-> schema_ok (list_to_map items))).
Proof.
  unfold analyze_all_jobs.
  destruct (files st !! jobs_file) as [jobs|]; [|done].
  destruct (analyze_jobs E resume_text jobs [] st) as [[produced st1]|] eqn:Hloop;
    simpl; [|done].
  destruct (sort_desc produced) as [sorted|] eqn:Hsort; simpl; [|done].
  intros [= <- <-] a Ha.
  apply sort_desc_perm in Hsort. rewrite Hsort in Ha.
  destruct (analyze_jobs_inv _ _ _ _ _ _ _ Hloop) as (new & Hnew & Hfor).
  simpl in Hnew. subst new.
  assert (Hall : Forall (fun a => exists job, produced_for E resume_text job a) produced).
  { eapply Forall2_Forall_r; [exact Hfor|]. apply Forall_forall. eauto. }
  rewrite Forall_forall in Hall.
  destruct (Hall a Ha) as (job & d & st2 & _ & _ & ->).
  rewrite calculate_match_score_cases. cbv zeta.
  destruct (parsed_object _) as [items|] eqn:Hitems.
  - right. eexists _, _, items. split; [exact Hitems|].
    assert (Hk : forall k, k ∈ schema_keys ->
              decorate job (genuine E items (get job "title" (PStr "No title"))
                              (get job "company" (PStr "No company")) st2).1 !! k
              = (list_to_map items : dict) !! k).
    { intros k (? & ? & ? & ? & ?)%schema_key_not_metadata.
      rewrite decorate_lookup by done. by apply genuine_lookup. }
    split; [exact Hk|]. by apply schema_ok_ext.
  - left. assert (Hf := fallback_shape_decorate job _
                          (fallback_has_shape E (get job "title" (PStr "No title"))
                             (get job "company" (PStr "No company")) (called st2))).
    split; [exact Hf|]. by apply fallback_schema_ok.
Qed.

Lemma analysis_records_schema_witness :
  analyze_all_jobs (scripted [Content (Some prose_response)])
    "jobs_with_descriptions.json" "resume" st_one_job
  = Ok ([record42], tick (called st_one_job))
  /\ ((fallback_shape record42 /\ schema_ok record42)
      \/ (exists n prompt items,
            parsed_object (llm (scripted [Content (Some prose_response)]) n prompt)
            = Some items
            /\ (forall k, k ∈ schema_keys ->
                  record42 !! k = (list_to_map items : dict) !! k)
            /\ (schema_ok record42 <-> schema_ok (list_to_map items)))).
Proof.
  assert (H : analyze_all_jobs (scripted [Content (Some prose_response)])
                "jobs_with_descriptions.json" "resume" st_one_job
              = Ok ([record42], tick (called st_one_job)))
    by run.
  split; [exact H|].
  exact (analysis_records_schema _ _ _ _ _ _ H _ (list_elem_of_here _ _)).
Defined.

(** The claim holds the schema for every response.  Here the service
    returns a well-formed object with the overall score 150 and the
    priority URGENT, and the stage hands both on. *)
Lemma analysis_records_schema_counterexample :
  analyze_all_jobs (scripted [Content (Some ("Here you go: " +:+ obj150))])
    "jobs_with_descriptions.json" "resume" st_one_job
  = Ok ([record150], tick (called st_one_job))
  /\ record150 !! "overall_score" = Some (PInt 150)
  /\ record150 !! "priority" = Some (PStr "URGENT")
  /\ record150 !! "error" = None
  /\ ~ schema_ok record150.
Proof.
  split_and!; [run..|].
  intros [(z & Hz & Hr) _]. vm_compute in Hz.
  injection Hz as <-. lia.
Qed.

End SchemaTheorems.

(** ** The Reporting stage *)

Section ReportLemmas.
Import Py Matcher.

Lemma add_raises a b e : Num.add a b = Raise e -> e = OverflowError.
Proof.
  destruct a as [x|f], b as [y|g]; simpl; try done.
  - unfold Num.float_of_int. destruct (binary_normalize _ _ _ _ _); simpl;
      congruence.
  - unfold Num.float_of_int. destruct (binary_normalize _ _ _ _ _); simpl;
      congruence.
Qed.

Lemma sum_raises scores : forall acc e,
  sum acc scores = Raise e -> e = TypeError \/ e = OverflowError.
Proof.
  induction scores as [|s scores IH]; intros acc e; simpl; [done|].
  destruct (Num.as_num s) as [x|]; [|intros [= <-]; auto].
  destruct (Num.add acc x) as [acc'|e'] eqn:Hadd; simpl.
  - apply IH.
  - intros [= <-]. right. by eapply add_raises.
Qed.

Lemma true_div_raises a n e :
  n <> 0 -> Num.true_div a n = Raise e -> e = OverflowError.
Proof.
  intros Hn. unfold Num.true_div.
  destruct (Z.eqb_spec n 0) as [|_]; [done|].
  destruct a as [x|f].
  - destruct x, n; try done; destruct (SFdiv _ _ _ _); congruence.
  - unfold Num.float_of_int. destruct (binary_normalize _ _ _ _ _); simpl;
      congruence.
Qed.

(** The mean of no scores divides by zero, the mean of some does not. *)
Lemma mean_nil : mean [] = Raise ZeroDivisionError.
Proof. reflexivity. Qed.

Lemma mean_raises scores e :
  scores <> [] -> mean scores = Raise e -> e = TypeError \/ e = OverflowError.
Proof.
  intros Hne. unfold mean.
  destruct (sum (Num.NInt 0) scores) as [total|e'] eqn:Hsum; simpl.
  - intros ->%true_div_raises; [auto|]. destruct scores; [done|]. simpl. lia.
  - intros [= <-]. by eapply sum_raises.
Qed.

Lemma ge_int_raises s n e : Obj.ge_int s n = Raise e -> e = TypeError.
Proof. unfold Obj.ge_int. destruct (Num.as_num s); congruence. Qed.

Lemma lt_int_raises s n e : Obj.lt_int s n = Raise e -> e = TypeError.
Proof. unfold Obj.lt_int. destruct (Num.as_num s); congruence. Qed.

Lemma is_medium_raises s e : is_medium s = Raise e -> e = TypeError.
Proof.
  unfold is_medium. destruct (Obj.ge_int s 60) as [[]|] eqn:H; simpl.
  - apply lt_int_raises.
  - done.
  - intros [= <-]. by eapply ge_int_raises.
Qed.

Lemma count_if_raises p scores e :
  (forall s e, p s = Raise e -> e = TypeError) ->
  count_if p scores = Raise e -> e = TypeError.
Proof.
  intros Hp. induction scores as [|s scores IH]; simpl; [done|].
  destruct (p s) as [b|e'] eqn:Hs; simpl; [|intros [= <-]; by eapply Hp].
  destruct (count_if p scores); simpl; [done|]. intros [= <-]. by apply IH.
Qed.

Lemma strengths_line_raises job e : strengths_line job = Raise e -> e = TypeError.
Proof.
  unfold strengths_line. destruct (get job "strengths" (PList [])) as [| | | |s|l|];
    try congruence.
  - destruct (take 2 (chars s)); congruence.
  - destruct (take 2 l) as [|[] [|[] []]]; congruence.
Qed.

Lemma top_entries_raises jobs : forall i e,
  top_entries i jobs = Raise e -> e = TypeError.
Proof.
  induction jobs as [|job jobs IH]; intros i e; simpl; [done|].
  unfold top_entry.
  destruct (strengths_line job) as [line|e'] eqn:Hline; simpl.
  - destruct (top_entries (S i) jobs) eqn:Hrest; simpl; [done|].
    intros [= <-]. by eapply IH.
  - intros [= <-]. by eapply strengths_line_raises.
Qed.

Lemma create_summary_report_raises E results st e :
  create_summary_report E results st = Raise e ->
  e = TypeError \/ e = OverflowError.
Proof.
  unfold create_summary_report. destruct results as [|r results]; [done|].
  set (scores := map score_key (r :: results)).
  assert (Hne : scores <> []) by done. clearbody scores.
  set (top5 := take 5 (r :: results)). clearbody top5.
  destruct (mean scores) as [avg|e1] eqn:Hmean; cbn [bind].
  2:{ intros [= ->]. by eapply mean_raises. }
  destruct (count_if _ scores) as [high|e2] eqn:Hhigh; cbn [bind].
  2:{ intros [= ->]. left. eapply count_if_raises; [|exact Hhigh].
      intros s e'. apply ge_int_raises. }
  destruct (count_if is_medium scores) as [medium|e3] eqn:Hmedium; cbn [bind].
  2:{ intros [= ->]. left. eapply count_if_raises; [|exact Hmedium].
      apply is_medium_raises. }
  destruct (top_entries 1 top5) as [top|e4] eqn:Htop; cbn [bind]; [done|].
  intros [= ->]. left. by eapply top_entries_raises.
Qed.

End ReportLemmas.

Section ReportTheorems.
Import Py Matcher.

(** C10. For the empty collection the report is the fixed text and the
    statistics are not reached: nothing is read, not even the clock.  The
    mean of an empty list would divide by zero; the mean that the report
    takes is over a list with an element, and no call of the report raises
    [ZeroDivisionError]. *)
Theorem empty_report_and_no_division_by_zero :
  (forall E st, create_summary_report E [] st = Ok ("No jobs analyzed.", st))
  /\ mean [] = Raise ZeroDivisionError
  /\ (forall scores, scores <> [] -> mean scores <> Raise ZeroDivisionError)
  /\ (forall E results st,
        create_summary_report E results st <> Raise ZeroDivisionError).
Proof.
  split_and!.
  - done.
  - exact mean_nil.
  - intros scores Hne Hmean. by destruct (mean_raises _ _ Hne Hmean).
  - intros E results st H. by destruct (create_summary_report_raises _ _ _ _ H).
Qed.

(** C6 (amended). The report is a function of the collection and of the
    reading of the clock that it prints, to the second: two calls with the
    same collection at readings that print alike give the same text or the
    same exception.  A call changes no file and asks nothing of the
    inference service; it reads the clock once, and not at all for the
    empty collection, whose report is the fixed text. *)
Theorem report_function_of_input_and_clock E E' results st st' :
  strftime (now E (ticks st)) = strftime (now E' (ticks st')) ->
  outcome (create_summary_report E results st)
  = outcome (create_summary_report E' results st')
  /\ (forall text st2,
        create_summary_report E results st = Ok (text, st2) ->
        files st2 = files st /\ calls st2 = calls st
        /\ ticks st2 = match results with
                       | [] => ticks st
                       | _ :: _ => S (ticks st)
                       end)
  /\ (results = [] ->
        create_summary_report E results st = Ok ("No jobs analyzed.", st)).
Proof.
  intros Hclock. unfold create_summary_report.
  destruct results as [|r results].
  { split_and!; try done. by intros text st2 [= <- <-]. }
  set (scores := map score_key (r :: results)). clearbody scores.
  set (top5 := take 5 (r :: results)). clearbody top5.
  destruct (mean scores) as [avg|e1]; cbn [bind outcome]; [|done].
  destruct (count_if _ scores) as [high|e2]; cbn [bind outcome]; [|done].
  destruct (count_if is_medium scores) as [medium|e3]; cbn [bind outcome]; [|done].
  rewrite Hclock.
  destruct (top_entries 1 top5) as [top|e4]; cbn [bind outcome]; [|done].
  split_and!; try done. by intros text st2 [= <- <-].
Qed.

Lemma report_function_of_input_and_clock_witness :
  strftime (now (scripted []) (ticks (at_tick 3)))
  = strftime (now (scripted [Failed]) (ticks (at_tick 3)))
  /\ outcome (create_summary_report (scripted []) [record42] (at_tick 3))
     = outcome (create_summary_report (scripted [Failed]) [record42] (at_tick 3)).
Proof.
  split; [reflexivity|].
  exact (proj1 (report_function_of_input_and_clock (scripted []) (scripted [Failed])
                  [record42] (at_tick 3) (at_tick 3) eq_refl)).
Defined.

(** The claim makes the report a function of the collection alone.  The
    text has a line with the time of the call: here the same collection is
    reported twice, the second call in the state that the first leaves,
    and the two texts differ. *)
Lemma report_deterministic_counterexample :
  create_summary_report (scripted []) [record42] (at_tick 0)
  = Ok (report42 "2025-01-15 09:30:00", at_tick 1)
  /\ create_summary_report (scripted []) [record42] (at_tick 1)
     = Ok (report42 "2025-01-15 09:30:01", at_tick 2)
  /\ report42 "2025-01-15 09:30:00" <> report42 "2025-01-15 09:30:01".
Proof.
  split_and!; [run|run|].
  assert (H : String.eqb (report42 "2025-01-15 09:30:00")
                (report42 "2025-01-15 09:30:01") = false) by run.
  intros Heq. rewrite Heq, String.eqb_refl in H. discriminate.
Qed.

End ReportTheorems.

(** ** The Enrichment stage *)

Section EnrichmentLemmas.
Import Py GetJD.










End EnrichmentLemmas.

Section EnrichmentTheorems.
Import Py GetJD.








End EnrichmentTheorems.

(** ** The Discovery stage *)

Section DiscoveryLemmas.
Import Py GetJobs.

Lemma info_ids_app l1 l2 : info_ids (l1 ++ l2) = (info_ids l1 ++ info_ids l2)%list.
Proof.
  induction l1 as [|e l1 IH]; simpl; [done|]. destruct e; simpl; by rewrite ?IH.
Qed.

Lemma get_job_info_spec E job_id st :
  dict_truthy (get_job_info E job_id st).1 = true
  /\ id_of (get_job_info E job_id st).1 = as_id job_id
  /\ log (get_job_info E job_id st).2 = (log st ++ [GetJobInfo job_id])%list.
Proof.
  unfold get_job_info.
  destruct (match job_fields E _ job_id with Some f => f | None => _ end)
    as [[title company] location].
  done.
Qed.

(** The loop over a page adds the new identifiers of the page, each once
    and at its first place, as far as the quota goes. *)
Lemma collect_page_ids E max_jobs ids : forall collected seen st,
  map id_of (collect_page E max_jobs ids collected seen st).1.1
  = (map id_of collected
     ++ map as_id (take (quota_left max_jobs collected) (fresh seen ids)))%list.
Proof.
  induction ids as [|job_id ids IH]; intros collected seen st; simpl.
  - by rewrite take_nil, app_nil_r.
  - destruct (bool_decide (job_id ∈ seen)) eqn:Hseen; simpl; [apply IH|].
    destruct (Z.ltb_spec (Z.of_nat (length collected)) max_jobs) as [Hlt|Hge].
    + destruct (get_job_info_spec E job_id st) as (Htruthy & Hid & _).
      destruct (get_job_info E job_id st) as [job_info st1]. simpl in *.
      rewrite Htruthy, IH, map_app. simpl. rewrite Hid, <- app_assoc. simpl.
      unfold quota_left. rewrite length_app. simpl.
      replace (Z.to_nat (max_jobs - Z.of_nat (length collected)))
        with (S (Z.to_nat (max_jobs - Z.of_nat (length collected + 1)))) by lia.
      done.
    + rewrite IH. unfold quota_left.
      replace (Z.to_nat (max_jobs - Z.of_nat (length collected))) with O by lia.
      by rewrite !take_0.
Qed.

Lemma collect_page_inv E max_jobs ids : forall collected seen st S,
  map id_of collected = map as_id S -> NoDup S ->
  (forall s, s ∈ seen <-> s ∈ S) ->
  Z.of_nat (length collected) <= Z.max 0 max_jobs ->
  exists new,
    map id_of (collect_page E max_jobs ids collected seen st).1.1
    = map as_id (S ++ new)
    /\ NoDup (S ++ new)
    /\ (forall s, s ∈ (collect_page E max_jobs ids collected seen st).1.2
                  <-> s ∈ (S ++ new)%list)
    /\ Z.of_nat (length (collect_page E max_jobs ids collected seen st).1.1)
       <= Z.max 0 max_jobs
    /\ info_ids (log (collect_page E max_jobs ids collected seen st).2)
       = (info_ids (log st) ++ new)%list.
Proof.
  induction ids as [|job_id ids IH]; intros collected seen st S Hids Hnodup Hseen Hlen;
    simpl.
  - exists []. rewrite !app_nil_r. done.
  - destruct (bool_decide_reflect (job_id ∈ seen)) as [Hin|Hnotin]; simpl;
      [by apply IH|].
    destruct (Z.ltb_spec (Z.of_nat (length collected)) max_jobs) as [Hlt|Hge];
      [|by apply IH].
    destruct (get_job_info_spec E job_id st) as (Htruthy & Hid & Hlog).
    destruct (get_job_info E job_id st) as [job_info st1]. simpl in *.
    rewrite Htruthy.
    destruct (IH (collected ++ [job_info])%list ({[job_id]} ∪ seen) st1
                (S ++ [job_id])%list) as (new & H1 & H2 & H3 & H4 & H5).
    + rewrite !map_app. simpl. by rewrite Hids, Hid.
    + apply NoDup_app. split_and!; [done| |apply NoDup_singleton].
      intros s Hs ->%list_elem_of_singleton. apply Hnotin. by apply Hseen.
    + intros s. rewrite elem_of_union, elem_of_singleton, elem_of_app,
        list_elem_of_singleton, Hseen. tauto.
    + rewrite length_app. simpl. lia.
    + exists (job_id :: new). rewrite <- app_assoc in *. simpl in *.
      split_and!; try done.
      rewrite H5, Hlog, info_ids_app. simpl. by rewrite <- app_assoc.
Qed.

Lemma collect_loop_inv fuel E max_jobs : forall collected seen st S jobs st',
  map id_of collected = map as_id S -> NoDup S ->
  (forall s, s ∈ seen <-> s ∈ S) ->
  Z.of_nat (length collected) <= Z.max 0 max_jobs ->
  collect_loop fuel E max_jobs collected seen st = Some (jobs, st') ->
  exists new,
    map id_of jobs = map as_id (S ++ new)
    /\ NoDup (S ++ new)
    /\ Z.of_nat (length jobs) <= Z.max 0 max_jobs
    /\ info_ids (log st') = (info_ids (log st) ++ new)%list.
Proof.
  induction fuel as [|fuel IH]; intros collected seen st S jobs st' Hids Hnodup Hseen Hlen;
    simpl; [done|].
  destruct (Z.of_nat (length collected) <? max_jobs).
  2:{ intros [= <- <-]. exists []. rewrite !app_nil_r. done. }
  set (st1 := emit GetJobIdsFromPage st).
  set (ids := add_id _ _).
  destruct (collect_page_inv E max_jobs ids collected seen st1 S Hids Hnodup Hseen Hlen)
    as (new & H1 & H2 & H3 & H4 & H5).
  destruct (collect_page E max_jobs ids collected seen st1) as [[collected' seen'] st2].
  simpl in *.
  assert (Hlog : info_ids (log st2) = (info_ids (log st) ++ new)%list).
  { rewrite H5. unfold st1. simpl. rewrite info_ids_app. simpl.
    by rewrite app_nil_r. }
  destruct (scroll_ok E (length (log st2))).
  - intros Hrun.
    destruct (IH _ _ _ _ _ _ H1 H2 H3 H4 Hrun) as (new' & G1 & G2 & G3 & G4).
    exists (new ++ new')%list. rewrite app_assoc. split_and!; try done.
    rewrite G4. simpl. rewrite info_ids_app, Hlog. simpl.
    by rewrite app_nil_r, <- app_assoc.
  - destruct (click_next_ok E _).
    + intros Hrun.
      destruct (IH _ _ _ _ _ _ H1 H2 H3 H4 Hrun) as (new' & G1 & G2 & G3 & G4).
      exists (new ++ new')%list. rewrite app_assoc. split_and!; try done.
      rewrite G4. simpl. rewrite !info_ids_app, Hlog. simpl.
      by rewrite !app_nil_r, <- app_assoc.
    + intros [= <- <-]. exists new. split_and!; try done.
      simpl. rewrite !info_ids_app, Hlog. simpl. by rewrite !app_nil_r.
Qed.

Lemma ensure_logged_in_info_ids E email password cookies_file st :
  info_ids (log (ensure_logged_in E email password cookies_file st).2)
  = info_ids (log st).
Proof.
  unfold ensure_logged_in, use_cookies_login, auto_login, manual_login_prompt,
    save_cookies.
  repeat match goal with
         | |- context [if ?b then _ else _] => destruct b; simpl
         end; rewrite ?info_ids_app; simpl; by rewrite ?app_nil_r.
Qed.

End DiscoveryLemmas.

Section DiscoveryTheorems.
Import Py GetJobs.

(** C8. The collection that one call of [collect_job_ids_from_search]
    returns has each identifier once and never more records than
    [max_jobs] (none when [max_jobs] is negative).  The information of an
    identifier is asked for once, when it is first seen and the quota is
    not yet met; on each page the records that are added are those of the
    new identifiers, each at its first place, cut at what is left of the
    quota, so that a repeated identifier neither replaces a record nor
    counts. *)
Theorem discovery_dedup_and_quota fuel E search_url max_jobs email password st jobs st' :
  collect_job_ids_from_search fuel E search_url max_jobs email password st
  = Some (jobs, st') ->
  (exists ids,
     map id_of jobs = map as_id ids
     /\ NoDup ids
     /\ info_ids (log st') = (info_ids (log st) ++ ids)%list)
  /\ Z.of_nat (length jobs) <= Z.max 0 max_jobs
  /\ (0 <= max_jobs -> Z.of_nat (length jobs) <= max_jobs)
  /\ (forall ids collected seen st0,
        map id_of (collect_page E max_jobs ids collected seen st0).1.1
        = (map id_of collected
           ++ map as_id (take (quota_left max_jobs collected) (fresh seen ids)))%list).
Proof.
  unfold collect_job_ids_from_search. intros Hrun.
  assert (Hauth := ensure_logged_in_info_ids E email password
                     "linkedin_cookies.json" st).
  destruct (ensure_logged_in E email password "linkedin_cookies.json" st)
    as [[] st1]; simpl in *.
  - destruct (collect_loop fuel E max_jobs [] ∅ (emit (DriverGet search_url) st1))
      as [[collected st3]|] eqn:Hloop; [|done].
    injection Hrun as <- <-.
    destruct (collect_loop_inv fuel E max_jobs [] ∅ _ [] _ _ eq_refl
                (NoDup_nil_2) ltac:(set_solver) ltac:(simpl; lia) Hloop)
      as (new & H1 & H2 & H3 & H4).
    simpl in *. split_and!; [|done|lia|intros; apply collect_page_ids].
    exists new. split_and!; try done.
    rewrite H4, info_ids_app, Hauth. simpl. by rewrite app_nil_r.
  - injection Hrun as <- <-. simpl.
    split_and!; [|lia|lia|intros; apply collect_page_ids].
    exists []. split_and!; [done|constructor|]. by rewrite Hauth, app_nil_r.
Qed.

Lemma small_run_returns : small_run = Some (small_jobs, small_state).
Proof. run. Qed.

Lemma discovery_dedup_and_quota_witness :
  collect_job_ids_from_search 3 small_site "https://www.linkedin.com/jobs/search/"
    2 PNone PNone init = Some (small_jobs, small_state)
  /\ (exists ids,
        map id_of small_jobs = map as_id ids
        /\ NoDup ids
        /\ info_ids (log small_state) = (info_ids (log init) ++ ids)%list)
  /\ Z.of_nat (length small_jobs) <= Z.max 0 2.
Proof.
  split; [exact small_run_returns|].
  destruct (discovery_dedup_and_quota _ _ _ _ _ _ _ _ _ small_run_returns)
    as (H1 & H2 & _).
  by split.
Defined.

(** The run of the witness: of the cards 1, 2, 1, 3 the collector takes 1
    and 2 and stops at the quota of two. *)
Example discovery_run :
  option_map (fun r => (map id_of r.1, log r.2))
    (collect_job_ids_from_search 3 small_site "https://www.linkedin.com/jobs/search/"
       2 PNone PNone init)
  = Some ([as_id "1"; as_id "2"],
          [UseCookiesLogin "linkedin_cookies.json"; ManualLoginPrompt; SaveCookies;
           DriverGet "https://www.linkedin.com/jobs/search/"; GetJobIdsFromPage;
           GetJobInfo "1"; GetJobInfo "2"; ScrollToLoadMoreJobs; ClickNextJob]).
Proof. run. Qed.


End DiscoveryTheorems.

(** ** The background pipeline *)

Section PipelineTheorems.
Import Py.





(** The run of the witness: what the browser was asked, and the message
    that the front end shows. *)
Example locked_out_run :
  option_map (fun final => (App.browser_log final,
                            App.process_status final !! "message"))
    (App.collect_jobs_background 5 locked_out_world
       "https://www.linkedin.com/jobs/search/" 10 idle)
  = Some ([GetJobs.UseCookiesLogin "linkedin_cookies.json"; GetJobs.ManualLoginPrompt],
          Some (PStr "Successfully collected 0 jobs with descriptions!")).
Proof. run. Qed.

(** The script [main.py] is another matter: it saves the collection only
    when it is not empty and loads the file in any case, so after a failed
    login it goes on with the jobs that an earlier run has left there. *)
Example main_reads_stale_file :
  Main.discover_and_enrich 5 locked_out_world "https://www.linkedin.com/jobs/search/"
    (App.store idle)
  = Some (Main.Enriched (Ok [GetJD.job_details_of description_only ∪ titled_job])
            (GetJD.save "jobs_with_descriptions.json"
               [GetJD.job_details_of description_only ∪ titled_job]
               {| GetJD.requests := 1;
                  GetJD.files := {[ "collected_jobs.json" := [titled_job] ]} |}))
  /\ Main.discover_and_enrich 5 locked_out_world "https://www.linkedin.com/jobs/search/"
       fresh_store
     = Some (Main.Exit 1 fresh_store).
Proof. split; run. Qed.

End PipelineTheorems.

(* ===================================================================== *)
(** * Further properties of the code *)
(* ===================================================================== *)

Local Set Warnings "-clear-no-such-hyp".

(** ** Discovery: the identifiers of a page, the login, the records *)

Section MoreDiscoveryLemmas.
Import Py GetJobs.

Lemma add_id_spec x job_ids :
  (NoDup job_ids -> NoDup (add_id x job_ids))
  /\ (forall s, s ∈ add_id x job_ids <-> s ∈ job_ids \/ (s <> "" /\ x = Some s)).
Proof.
  unfold add_id. destruct x as [job_id|]; [|naive_solver].
  destruct (String.eqb_spec job_id ""); simpl; [naive_solver|].
  destruct (bool_decide_reflect (job_id ∈ job_ids)); simpl; [naive_solver|].
  split.
  - intros H. apply NoDup_app. split_and!; [done| |apply NoDup_singleton].
    intros s Hs ->%list_elem_of_singleton. done.
  - intros s. rewrite elem_of_app, list_elem_of_singleton. naive_solver.
Qed.

Lemma add_ids_spec found : forall job_ids,
  (NoDup job_ids -> NoDup (add_ids found job_ids))
  /\ (forall s, s ∈ add_ids found job_ids
                <-> s ∈ job_ids \/ (s <> "" /\ Some s ∈ found)).
Proof.
  unfold add_ids.
  induction found as [|x found IH]; intros job_ids; simpl.
  - split; [done|]. intros s. rewrite elem_of_nil. naive_solver.
  - destruct (add_id_spec x job_ids) as [Hnd Hin].
    destruct (IH (add_id x job_ids)) as [IHnd IHin].
    split; [auto|].
    intros s. rewrite IHin, Hin, elem_of_cons. naive_solver.
Qed.

Lemma get_job_info_record E job_id st :
  job_id <> "" -> discovery_record (get_job_info E job_id st).1.
Proof.
  intros Hid. unfold get_job_info.
  destruct (match job_fields E _ job_id with Some f => f | None => _ end)
    as [[title company] location].
  exists job_id, (time_time E (length (log st))). cbn [fst].
  split_and!; try done.
  all: destruct title, company, location; unfold text_or_null; simpl; eauto.
Qed.

Lemma page_ids_spec E st :
  let ids := (get_job_ids_from_page E st).1 in
  let p := page E (length (log st)) in
  NoDup ids
  /\ ("" ∉ ids)
  /\ (forall job_id, job_id ∈ ids ->
        Some job_id ∈ data_job_ids p \/ Some job_id ∈ view_link_ids p
        \/ current_job_id p = Some job_id)
  /\ (forall job_id, job_id <> "" ->
        Some job_id ∈ data_job_ids p \/ current_job_id p = Some job_id ->
        job_id ∈ ids)
  /\ (forall found, found <> "" -> Some found ∈ data_job_ids p ->
        forall job_id, job_id ∈ ids ->
          Some job_id ∈ data_job_ids p \/ current_job_id p = Some job_id).
Proof.
  intros ids p. subst ids. unfold get_job_ids_from_page. fold p. cbn [fst].
  fold (add_ids (data_job_ids p) []). fold (add_ids (view_link_ids p) []).
  destruct (add_ids_spec (data_job_ids p) []) as [Hnd1 Hin1].
  destruct (add_ids_spec (view_link_ids p) []) as [Hnd2 Hin2].
  specialize (Hnd1 NoDup_nil_2). specialize (Hnd2 NoDup_nil_2).
  set (ids1 := add_ids (data_job_ids p) []) in *.
  set (ids2 := add_ids (view_link_ids p) []) in *.
  assert (Hids : forall s, s ∈ match ids1 with [] => ids2 | _ => ids1 end
                           <-> (s ∈ ids1 \/ (ids1 = [] /\ s ∈ ids2))).
  { intros s. destruct ids1; [rewrite elem_of_nil|]; naive_solver. }
  assert (Hnd : NoDup match ids1 with [] => ids2 | _ => ids1 end)
    by (by destruct ids1).
  set (ids12 := match ids1 with [] => ids2 | _ => ids1 end) in *.
  destruct (add_id_spec (current_job_id p) ids12) as [Hnd3 Hin3].
  split_and!.
  - auto.
  - rewrite Hin3, Hids, Hin1, Hin2, elem_of_nil. naive_solver.
  - intros s. rewrite Hin3, Hids, Hin1, Hin2, elem_of_nil. naive_solver.
  - intros s Hs. rewrite Hin3, Hids, Hin1, Hin2, elem_of_nil. naive_solver.
  - intros found Hfound Hin s. rewrite Hin3, Hids, Hin1, Hin2, elem_of_nil.
    assert (found ∈ ids1) as Hne by (apply Hin1; auto).
    intros [[[[]|?]|[-> _]]|?]; [naive_solver| |naive_solver].
    by apply elem_of_nil in Hne.
Qed.

Lemma page_ids_nonempty E st : "" ∉ (get_job_ids_from_page E st).1.
Proof. apply (page_ids_spec E st). Qed.

Lemma page_ids_NoDup E st : NoDup (get_job_ids_from_page E st).1.
Proof. apply (page_ids_spec E st). Qed.

Lemma collect_page_records E max_jobs ids : forall collected seen st,
  "" ∉ ids -> Forall discovery_record collected ->
  Forall discovery_record (collect_page E max_jobs ids collected seen st).1.1.
Proof.
  induction ids as [|job_id ids IH]; intros collected seen st Hids Hall; simpl;
    [done|].
  apply not_elem_of_cons in Hids as [Hne Hids].
  destruct (negb _ && _); [|by apply IH].
  pose proof (get_job_info_record E job_id st (not_eq_sym Hne)) as Hrec.
  destruct (get_job_info E job_id st) as [job_info st1]. simpl in Hrec.
  destruct (dict_truthy job_info); apply IH; try done.
  apply Forall_app. split; [done|]. by constructor.
Qed.

Lemma collect_loop_records fuel E max_jobs : forall collected seen st jobs st',
  Forall discovery_record collected ->
  collect_loop fuel E max_jobs collected seen st = Some (jobs, st') ->
  Forall discovery_record jobs.
Proof.
  induction fuel as [|fuel IH]; intros collected seen st jobs st' Hall; simpl;
    [done|].
  destruct (Z.of_nat (length collected) <? max_jobs); [|by intros [= <- <-]].
  pose proof (page_ids_nonempty E st) as Hne.
  unfold get_job_ids_from_page in *. cbn [fst] in Hne.
  set (ids := add_id _ _) in *.
  pose proof (collect_page_records E max_jobs ids collected seen
                (emit GetJobIdsFromPage st) Hne Hall) as Hpage.
  destruct (collect_page E max_jobs ids collected seen _) as [[collected' seen'] st2].
  simpl in *.
  destruct (scroll_ok E _); [by apply IH|].
  destruct (click_next_ok E _); [by apply IH|].
  by intros [= <- <-].
Qed.


Lemma discovery_records E fuel search_url max_jobs email password st jobs st' :
  collect_job_ids_from_search fuel E search_url max_jobs email password st
  = Some (jobs, st') ->
  Forall discovery_record jobs.
Proof.
  unfold collect_job_ids_from_search.
  destruct (ensure_logged_in E email password _ st) as [[] st1]; simpl.
  - destruct (collect_loop fuel E max_jobs [] ∅ _) as [[collected st3]|] eqn:Hloop;
      [|done].
    intros [= <- <-]. eapply collect_loop_records; [|exact Hloop]. constructor.
  - intros [= <- <-]. constructor.
Qed.

(** The identifiers of a list without repetition are all new. *)
Lemma fresh_NoDup ids : forall seen,
  NoDup ids -> (forall s, s ∈ ids -> s ∉ seen) -> fresh seen ids = ids.
Proof.
  induction ids as [|job_id ids IH]; intros seen Hnd Hseen; simpl; [done|].
  apply NoDup_cons in Hnd as [Hnotin Hnd].
  rewrite bool_decide_eq_false_2 by (apply Hseen; left).
  f_equal. apply IH; [done|].
  intros s Hs. rewrite elem_of_union, elem_of_singleton.
  intros [->|Hin]; [done|]. apply (Hseen s); [by right|done].
Qed.

Lemma get_job_info_collected E job_id st :
  collected_jobs (get_job_info E job_id st).2 = collected_jobs st.
Proof.
  unfold get_job_info.
  by destruct (match job_fields E _ job_id with Some f => f | None => _ end)
    as [[title company] location].
Qed.

Lemma collect_page_collected E max_jobs ids : forall collected seen st,
  collected_jobs (collect_page E max_jobs ids collected seen st).2
  = collected_jobs st.
Proof.
  induction ids as [|job_id ids IH]; intros collected seen st; simpl; [done|].
  destruct (negb _ && _); [|by apply IH].
  pose proof (get_job_info_collected E job_id st) as H.
  destruct (get_job_info E job_id st) as [job_info st1]. simpl in H.
  destruct (dict_truthy job_info); by rewrite IH.
Qed.

Lemma collect_loop_collected fuel E max_jobs : forall collected seen st jobs st',
  collect_loop fuel E max_jobs collected seen st = Some (jobs, st') ->
  collected_jobs st' = collected_jobs st.
Proof.
  induction fuel as [|fuel IH]; intros collected seen st jobs st'; simpl; [done|].
  destruct (Z.of_nat (length collected) <? max_jobs); [|by intros [= <- <-]].
  set (ids := add_id _ _).
  pose proof (collect_page_collected E max_jobs ids collected seen
                (emit GetJobIdsFromPage st)) as Hpage.
  destruct (collect_page E max_jobs ids collected seen _) as [[collected' seen'] st2].
  simpl in *.
  destruct (scroll_ok E _); [by intros ->%IH|].
  destruct (click_next_ok E _); [by intros ->%IH|].
  by intros [= <- <-].
Qed.

Lemma ensure_logged_in_spec E email password cookies_file st :
  let r := ensure_logged_in E email password cookies_file st in
  is_logged_in r.2 = r.1
  /\ collected_jobs r.2 = collected_jobs st
  /\ (is_logged_in st = true -> r = (true, st))
  /\ (is_logged_in st = false -> cookies_file <> "" ->
        cookies_login_ok E (length (log st)) = true ->
        r = (true, logged_in (emit (UseCookiesLogin cookies_file) st)))
  /\ (exists new,
        asked_since st r.2 new
        /\ (AutoLogin ∈ new -> truthy email = true /\ truthy password = true)
        /\ (SaveCookies ∈ new -> r.1 = true)
        /\ (r.1 = false -> last new = Some ManualLoginPrompt)).
Proof.
  intros r. subst r.
  unfold ensure_logged_in, use_cookies_login, auto_login, manual_login_prompt,
    save_cookies, asked_since.
  destruct (is_logged_in st) eqn:Hin.
  { split_and!; try done. exists []. rewrite app_nil_r.
    split_and!; try done; by intros ?%elem_of_nil. }
  destruct (String.eqb_spec cookies_file ""); simpl;
    destruct (cookies_login_ok E _) eqn:Hc; simpl;
    destruct (truthy email) eqn:He, (truthy password) eqn:Hp; simpl;
    repeat match goal with
           | |- context [if ?b then _ else _] => destruct b eqn:?; simpl
           end;
    (split_and!; try done; [idtac]);
    rewrite <- ?app_assoc; simpl; eexists;
    (split; [reflexivity|]);
    (split_and!; try done;
     rewrite ?elem_of_cons, ?elem_of_nil; naive_solver).
Qed.

Lemma collect_loop_step fuel E max_jobs collected seen st :
  collect_loop (S fuel) E max_jobs collected seen st
  = if Z.of_nat (length collected) <? max_jobs then
      let '(current_job_ids, st1) := get_job_ids_from_page E st in
      let '(collected', seen', st2) :=
        collect_page E max_jobs current_job_ids collected seen st1 in
      let '(more, st3) := scroll_to_load_more_jobs E st2 in
      if more then collect_loop fuel E max_jobs collected' seen' st3
      else
        let '(next, st4) := click_next_job E st3 in
        if next then collect_loop fuel E max_jobs collected' seen' st4
        else Some (collected', st4)
    else Some (collected, st).
Proof. reflexivity. Qed.

End MoreDiscoveryLemmas.

Section MoreDiscoveryTheorems.
Import Py GetJobs.

(** X1. The identifiers that [get_job_ids_from_page] returns are pairwise
    distinct and none is empty; each is read off the page (a
    [data-job-id], a link to a job, or the job of the current URL); every
    [data-job-id] that is not empty and the current job are among them;
    and the links are looked at only when no [data-job-id] gave an
    identifier. *)
Theorem page_ids_distinct_and_from_page E st :
  let ids := (get_job_ids_from_page E st).1 in
  let p := page E (length (log st)) in
  NoDup ids
  /\ ("" ∉ ids)
  /\ (forall job_id, job_id ∈ ids ->
        Some job_id ∈ data_job_ids p \/ Some job_id ∈ view_link_ids p
        \/ current_job_id p = Some job_id)
  /\ (forall job_id, job_id <> "" ->
        Some job_id ∈ data_job_ids p \/ current_job_id p = Some job_id ->
        job_id ∈ ids)
  /\ (forall found, found <> "" -> Some found ∈ data_job_ids p ->
        forall job_id, job_id ∈ ids ->
          Some job_id ∈ data_job_ids p \/ current_job_id p = Some job_id).
Proof. apply page_ids_spec. Qed.

(** X2. [ensure_logged_in] returns whether the collector is logged in
    afterwards.  A collector that is logged in already is asked nothing;
    for one that is not, a cookie login that works ends the authentication
    at once (no credentials are submitted, nobody is prompted, no cookie
    file is written); credentials are submitted only when both the email
    and the password are given; and cookies are saved only after a login
    that worked. *)
Theorem ensure_logged_in_reports_state E email password cookies_file st :
  let r := ensure_logged_in E email password cookies_file st in
  is_logged_in r.2 = r.1
  /\ collected_jobs r.2 = collected_jobs st
  /\ (is_logged_in st = true -> r = (true, st))
  /\ (is_logged_in st = false -> cookies_file <> "" ->
        cookies_login_ok E (length (log st)) = true ->
        r = (true, logged_in (emit (UseCookiesLogin cookies_file) st)))
  /\ (exists new,
        asked_since st r.2 new
        /\ (AutoLogin ∈ new -> truthy email = true /\ truthy password = true)
        /\ (SaveCookies ∈ new -> r.1 = true)
        /\ (r.1 = false -> last new = Some ManualLoginPrompt)).
Proof. apply ensure_logged_in_spec. Qed.

(** X3. Every record that [collect_job_ids_from_search] returns has an
    identifier that is not empty, the URL [https://www.linkedin.com/jobs/view/]
    followed by that identifier, a timestamp, a title, a company and a
    location that are each a string or null, and no description; and the
    call appends exactly the returned records to [self.collected_jobs]. *)
Theorem discovered_records_shape fuel E search_url max_jobs email password st jobs st' :
  collect_job_ids_from_search fuel E search_url max_jobs email password st
  = Some (jobs, st') ->
  Forall discovery_record jobs
  /\ collected_jobs st' = (collected_jobs st ++ jobs)%list.
Proof.
  intros Hrun. split; [by eapply discovery_records|].
  revert Hrun. unfold collect_job_ids_from_search.
  pose proof (proj1 (proj2 (ensure_logged_in_spec E email password
                               "linkedin_cookies.json" st))) as Hkeep.
  destruct (ensure_logged_in E email password _ st) as [[] st1]; simpl in *.
  - destruct (collect_loop fuel E max_jobs [] ∅ _) as [[collected st3]|] eqn:Hloop;
      [|done].
    intros [= <- <-]. simpl. apply collect_loop_collected in Hloop.
    by rewrite Hloop, <- Hkeep.
  - intros [= <- <-]. by rewrite app_nil_r.
Qed.

Lemma discovered_records_shape_witness :
  collect_job_ids_from_search 3 small_site "https://www.linkedin.com/jobs/search/"
    2 PNone PNone init = Some (small_jobs, small_state)
  /\ Forall discovery_record small_jobs
  /\ collected_jobs small_state = (collected_jobs init ++ small_jobs)%list.
Proof.
  split; [exact small_run_returns|].
  exact (discovered_records_shape _ _ _ _ _ _ _ _ _ small_run_returns).
Defined.

(** X4. The quota on one page.  When the collector is logged in and
    neither scrolling nor the next job brings more, one round of the loop
    ends the call, and the records returned are those of the first
    [max_jobs] identifiers of the page, in the order of the page: as many as
    the smaller of [max_jobs] and the number of identifiers (none when
    [max_jobs] is not positive). *)
Theorem single_page_quota fuel E search_url max_jobs email password st st1 :
  single_page E ->
  ensure_logged_in E email password "linkedin_cookies.json" st = (true, st1) ->
  let ids := (get_job_ids_from_page E (emit (DriverGet search_url) st1)).1 in
  exists jobs st',
    collect_job_ids_from_search (S fuel) E search_url max_jobs email password st
    = Some (jobs, st')
    /\ map id_of jobs = map as_id (take (Z.to_nat max_jobs) ids)
    /\ length jobs = Nat.min (Z.to_nat max_jobs) (length ids).
Proof.
  intros [Hscroll Hclick] Hlogin ids.
  assert (Hlen : forall jobs : list dict,
            map id_of jobs = map as_id (take (Z.to_nat max_jobs) ids) ->
            length jobs = Nat.min (Z.to_nat max_jobs) (length ids)).
  { intros jobs H. apply (f_equal length) in H.
    by rewrite !length_map, length_take in H. }
  unfold collect_job_ids_from_search. rewrite Hlogin. cbn [negb].
  rewrite collect_loop_step.
  destruct (Z.ltb_spec (Z.of_nat (length (@nil dict))) max_jobs) as [Hpos|Hneg];
    change (Z.of_nat (length (@nil dict))) with 0 in *.
  - pose proof (page_ids_NoDup E (emit (DriverGet search_url) st1)) as Hnd.
    destruct (get_job_ids_from_page E (emit (DriverGet search_url) st1))
      as [ids' st2] eqn:Hpage.
    cbn [fst] in ids, Hnd. subst ids.
    pose proof (collect_page_ids E max_jobs ids' [] ∅ st2) as Hids.
    destruct (collect_page E max_jobs ids' [] ∅ st2) as [[collected seen'] st3].
    unfold scroll_to_load_more_jobs, click_next_job. rewrite Hscroll, Hclick.
    rewrite fresh_NoDup in Hids by (done || set_solver).
    unfold quota_left in Hids. simpl in Hids. rewrite Z.sub_0_r in Hids.
    eexists _, _. split; [reflexivity|]. split; [done|]. by apply Hlen.
  - eexists _, _. split; [reflexivity|].
    replace (Z.to_nat max_jobs) with O by lia. by rewrite take_0.
Qed.

Lemma single_page_quota_witness :
  single_page small_site
  /\ exists jobs st',
       collect_job_ids_from_search 1 small_site "https://www.linkedin.com/jobs/search/"
         2 PNone PNone init = Some (jobs, st')
       /\ map id_of jobs
          = map as_id
              (take (Z.to_nat 2)
                 (get_job_ids_from_page small_site
                    (emit (DriverGet "https://www.linkedin.com/jobs/search/")
                       small_login)).1)
       /\ length jobs
          = Nat.min (Z.to_nat 2)
              (length (get_job_ids_from_page small_site
                         (emit (DriverGet "https://www.linkedin.com/jobs/search/")
                            small_login)).1).
Proof.
  assert (H : single_page small_site) by (by split).
  split; [exact H|].
  exact (single_page_quota 0 small_site "https://www.linkedin.com/jobs/search/" 2
           PNone PNone init small_login H eq_refl).
Defined.

End MoreDiscoveryTheorems.

(** ** The background collection as a whole *)

Section MoreEnrichmentLemmas.
Import Py GetJD.






Lemma first_match_spec page sels : first_text page sels (first_match page sels).
Proof.
  induction sels as [|sel sels IH]; simpl.
  - intros sel []%elem_of_nil.
  - destruct (page sel) as [text|] eqn:Hsel.
    + exists 0%nat, sel. split_and!; try done. intros j sel' Hj. lia.
    + destruct (first_match page sels) as [text|]; simpl in *.
      * destruct IH as (i & sel0 & Hi & Htext & Hbefore).
        exists (S i), sel0. split_and!; try done.
        intros [|j] sel' Hj; simpl; [by intros [= <-]|].
        apply Hbefore. lia.
      * intros sel' [->|Hin]%elem_of_cons; auto.
Qed.

Lemma first_text_unique page sels r r' :
  first_text page sels r -> first_text page sels r' -> r = r'.
Proof.
  destruct r as [t|], r' as [t'|]; simpl; try done.
  - intros (i & sel & Hi & Ht & Hb) (i' & sel' & Hi' & Ht' & Hb').
    destruct (Nat.lt_trichotomy i i') as [H|[->|H]].
    + rewrite (Hb' _ _ H Hi) in Ht. done.
    + congruence.
    + rewrite (Hb _ _ H Hi') in Ht'. done.
  - intros (i & sel & Hi & Ht & Hb) Hnone.
    rewrite (Hnone sel) in Ht; [done|]. by eapply list_elem_of_lookup_2.
  - intros Hnone (i & sel & Hi & Ht & Hb).
    rewrite (Hnone sel) in Ht; [done|]. by eapply list_elem_of_lookup_2.
Qed.

Lemma get_job_info_url E job_id st :
  (GetJobs.get_job_info E job_id st).1 !! "url"
  = Some (PStr ("https://www.linkedin.com/jobs/view/" +:+ job_id))
  /\ (GetJobs.get_job_info E job_id st).1 !! "description" = None.
Proof.
  unfold GetJobs.get_job_info.
  by destruct (match GetJobs.job_fields E _ job_id with Some f => f | None => _ end)
    as [[title company] location].
Qed.

Lemma job_details_description page :
  job_details_of page !! "description"
  = Some (PStr (default "" (first_match page selectors))).
Proof. unfold job_details_of. by destruct (first_match page selectors). Qed.

End MoreEnrichmentLemmas.

Section MoreEnrichmentTheorems.
Import Py GetJD.



(** The run of the witness: six requests were made, and of the six
    records that were ready the file has the five of the checkpoint. *)
Example enrichment_stops_run :
  match fetch_all_job_descriptions (serving description_only)
          (six_jobs ++ no_url_job :: [other_job]) "jobs_with_descriptions.json"
          fresh_store with
  | (r, st') =>
      (r, requests st',
       option_map (fun l : list dict => length l)
         (files st' !! "jobs_with_descriptions.json"))
  end
  = (Raise (KeyError "url"), 6%nat, Some 5%nat).
Proof. run. Qed.

(** X7. The details of a fetched page.  The description is the text of
    the first description selector, in the order of the list, that matches
    an element of the page (the text may be empty, and a later selector is
    not looked at then), and the empty string when none matches; title,
    company and location are found the same way and are null when no
    selector matches; the employment type and the seniority level are
    always null; and the details have these six keys and no other. *)
Theorem fetched_details_by_priority page :
  exists d t c l,
    first_text page selectors d /\ first_text page title_selectors t
    /\ first_text page company_selectors c /\ first_text page location_selectors l
    /\ job_details_of page
       = list_to_map
           [("title", text_or_none t); ("company", text_or_none c);
            ("location", text_or_none l); ("employment_type", PNone);
            ("seniority_level", PNone);
            ("description", PStr (default "" d))]
    /\ (forall k, is_Some (job_details_of page !! k) <-> k ∈ detail_keys).
Proof.
  exists (first_match page selectors), (first_match page title_selectors),
    (first_match page company_selectors), (first_match page location_selectors).
  split_and!; try apply first_match_spec.
  - unfold job_details_of, field.
    by destruct (first_match page selectors), (first_match page title_selectors),
      (first_match page company_selectors), (first_match page location_selectors).
  - intros k. unfold job_details_of, detail_keys.
    rewrite !elem_of_cons, elem_of_nil. cbn [list_to_map foldr uncurry fst snd].
    rewrite !lookup_insert_is_Some, lookup_empty, is_Some_alt. naive_solver.
Qed.

(** X8. From Discovery to Matching.  A record that Discovery made is
    analysed by the Matching stage after Enrichment exactly when its page
    was fetched, a description selector matched an element of the page, and
    the text of the first such selector is not empty once cleaned.  A job
    whose fetch failed, or whose page shows no description, is skipped. *)
Theorem analysed_iff_page_has_description (Eb : GetJobs.env) (Es : env) job_id st n :
  let job := (GetJobs.get_job_info Eb job_id st).1 in
  let url := PStr ("https://www.linkedin.com/jobs/view/" +:+ job_id) in
  qualifies (enrich Es n job) = true
  <-> exists page text cleaned,
        http_get Es n url = Some page
        /\ first_text page selectors (Some text)
        /\ Matcher.clean_text (PStr text) = Ok cleaned
        /\ cleaned <> "".
Proof.
  intros job url.
  destruct (get_job_info_url Eb job_id st) as [Hurl Hdesc]. fold job url in Hurl, Hdesc.
  unfold enrich. rewrite Hurl.
  destruct (http_get Es n url) as [page|].
  - unfold qualifies, get.
    rewrite (lookup_union_Some_l _ _ _ _ (job_details_description page)).
    pose proof (first_match_spec page selectors) as Hfirst.
    destruct (first_match page selectors) as [text|] eqn:Hm; cbn [default from_option]; unfold id.
    + destruct (Matcher.clean_text (PStr text)) as [cleaned|e] eqn:Hclean.
      * rewrite negb_true_iff. split.
        -- intros Hne%String.eqb_neq. by exists page, text, cleaned.
        -- intros (page' & text' & cleaned' & [= <-] & Htext & Hc & Hne).
           assert (Some text' = Some text) as [= ->]
             by (by eapply first_text_unique).
           rewrite Hclean in Hc. injection Hc as <-. by apply String.eqb_neq.
      * split; [done|].
        intros (page' & text' & cleaned' & [= <-] & Htext & Hc & Hne).
        assert (Some text' = Some text) as [= ->]
          by (by eapply first_text_unique).
        congruence.
    + split; [done|].
      intros (page' & text' & cleaned' & [= <-] & Htext & _).
      by pose proof (first_text_unique _ _ _ _ Htext Hfirst).
  - unfold qualifies, get. rewrite Hdesc. split; [done|].
    by intros (? & ? & ? & ? & _).
Qed.

End MoreEnrichmentTheorems.

Section MorePipelineTheorems.
Import Py.



End MorePipelineTheorems.

(** ** The Matching stage: requests, metadata, ranking *)

Section MoreMatchingLemmas.
Import Py Matcher.

Lemma calculate_match_score_counts E resume_text d job_title company st :
  let st' := (calculate_match_score E resume_text d job_title company st).2 in
  calls st' = S (calls st) /\ ticks st' = S (ticks st) /\ files st' = files st.
Proof.
  unfold calculate_match_score, _create_fallback_analysis.
  destruct (llm E (calls st) _) as [|[content|]]; [done| |done].
  destruct (Text.search_braces content) as [span|]; [|done].
  by destruct (Json.loads span) as [[]|].
Qed.

Lemma analyze_jobs_counts E resume_text jobs : forall results st out st',
  analyze_jobs E resume_text jobs results st = Ok (out, st') ->
  calls st' = (calls st + length (filter (fun j => qualifies j = true) jobs))%nat
  /\ ticks st' = (ticks st + length (filter (fun j => qualifies j = true) jobs))%nat
  /\ files st' = files st.
Proof.
  induction jobs as [|job jobs IH]; intros results st out st'; simpl.
  - intros [= <- <-]. rewrite !Nat.add_0_r. done.
  - destruct (clean_text (get job "description" (PStr ""))) as [d|e] eqn:Hd;
      simpl; [|done].
    destruct (String.eqb d "") eqn:Hempty.
    + intros H. rewrite filter_cons_False; [by eapply IH|].
      unfold qualifies. rewrite Hd, Hempty. done.
    + pose proof (calculate_match_score_counts E resume_text d
                    (get job "title" (PStr "No title"))
                    (get job "company" (PStr "No company")) st) as Hc.
      destruct (calculate_match_score E resume_text d _ _ st) as [a st1].
      simpl in Hc. destruct Hc as (Hc1 & Hc2 & Hc3).
      intros (H1 & H2 & H3)%IH.
      rewrite filter_cons_True
        by (unfold qualifies; by rewrite Hd, Hempty).
      cbn [length]. split_and!; [lia|lia|congruence].
Qed.

Lemma analyze_all_jobs_counts E jobs_file resume_text st results st' :
  analyze_all_jobs E jobs_file resume_text st = Ok (results, st') ->
  calls st' = (calls st + length results)%nat
  /\ ticks st' = (ticks st + length results)%nat
  /\ files st' = files st
  /\ (forall jobs, files st !! jobs_file = Some jobs ->
        length results = length (filter (fun j => qualifies j = true) jobs)).
Proof.
  unfold analyze_all_jobs.
  destruct (files st !! jobs_file) as [jobs|] eqn:Hfile; [|done].
  destruct (analyze_jobs E resume_text jobs [] st) as [[produced st1]|] eqn:Hloop;
    simpl; [|done].
  destruct (sort_desc produced) as [sorted|] eqn:Hsort; simpl; [|done].
  intros [= <- <-]. apply sort_desc_perm in Hsort.
  destruct (analyze_jobs_inv _ _ _ _ _ _ _ Hloop) as (new & Hnew & Hfor).
  simpl in Hnew. subst new.
  destruct (analyze_jobs_counts _ _ _ _ _ _ _ Hloop) as (H1 & H2 & H3).
  assert (Hlen : length sorted = length (filter (fun j => qualifies j = true) jobs))
    by (by rewrite Hsort, (Forall2_length _ _ _ Hfor)).
  rewrite Hlen. split_and!; try done. by intros ? [= <-].
Qed.

Lemma three_jobs_run_returns :
  analyze_all_jobs two_answers "jobs_with_descriptions.json" "resume" st_three_jobs
  = Ok (three_jobs_results, three_jobs_state).
Proof. run. Qed.

Lemma match_score_metadata E resume_text d job_title company st :
  let a := (calculate_match_score E resume_text d job_title company st).1 in
  a !! "job_title" = Some job_title /\ a !! "company" = Some company
  /\ exists n, a !! "analysis_timestamp" = Some (PStr (isoformat (now E n))).
Proof.
  rewrite calculate_match_score_cases. cbv zeta.
  destruct (parsed_object _) as [items|].
  - unfold genuine. cbn [fst].
    split_and!; [by rewrite lookup_insert_ne, lookup_insert_ne, ?lookup_insert_eq
                |by rewrite lookup_insert_ne, lookup_insert_eq|].
    eexists. apply lookup_insert_eq.
  - unfold _create_fallback_analysis. cbn [fst].
    split_and!; [done|done|]. by eexists.
Qed.

Lemma produced_for_metadata E resume_text job a :
  produced_for E resume_text job a ->
  a !! "job_id" = Some (get job "job_id" (PStr "unknown"))
  /\ a !! "job_url" = Some (get job "url" (PStr ""))
  /\ a !! "job_title" = Some (get job "title" (PStr "No title"))
  /\ a !! "company" = Some (get job "company" (PStr "No company"))
  /\ exists n, a !! "analysis_timestamp" = Some (PStr (isoformat (now E n))).
Proof.
  intros (d & st & _ & _ & ->).
  destruct (match_score_metadata E resume_text d (get job "title" (PStr "No title"))
              (get job "company" (PStr "No company")) st) as (H1 & H2 & n & H3).
  unfold decorate. split_and!.
  - by rewrite lookup_insert_ne, lookup_insert_eq.
  - by rewrite lookup_insert_eq.
  - by rewrite !lookup_insert_ne.
  - by rewrite !lookup_insert_ne.
  - exists n. by rewrite !lookup_insert_ne.
Qed.

Lemma lt_int_keys x y zx zy :
  score_key x = PInt zx -> score_key y = PInt zy ->
  Obj.lt (score_key x) (score_key y) = Ok (zx <? zy).
Proof.
  by intros -> ->.
Qed.

Lemma score_of_int a z : score_key a = PInt z -> score_of a = z.
Proof. unfold score_of. by intros ->. Qed.

Lemma insert_desc_ranked x l l' :
  int_keyed x -> Forall int_keyed l -> StronglySorted ranks_before l ->
  insert_desc x l = Ok l' ->
  StronglySorted ranks_before l'
  /\ forall z, with_score z l' = with_score z (x :: l).
Proof.
  intros [zx Hx] Hl Hs. revert l'.
  induction Hs as [|y l Hs IH Hy]; intros l'; simpl.
  - intros [= <-]. split; [|done]. repeat constructor.
  - apply Forall_cons in Hl as [[zy Hzy] Hl].
    rewrite (lt_int_keys x y zx zy Hx Hzy). simpl.
    destruct (Z.ltb_spec zx zy) as [Hlt|Hge].
    + destruct (insert_desc x l) as [r|] eqn:Hr; simpl; [|done].
      intros [= <-]. destruct (IH Hl r eq_refl) as [IHs IHw]. split.
      * constructor; [done|].
        apply insert_desc_perm in Hr. rewrite Hr. constructor; [|done].
        unfold ranks_before. rewrite (score_of_int _ _ Hx), (score_of_int _ _ Hzy). lia.
      * intros z. unfold with_score in *. rewrite !filter_cons, IHw, !filter_cons.
        rewrite (score_of_int _ _ Hx), (score_of_int _ _ Hzy).
        repeat case_decide; try done; lia.
    + intros [= <-]. split; [|done].
      constructor; [by constructor|]. constructor.
      * unfold ranks_before. rewrite (score_of_int _ _ Hx), (score_of_int _ _ Hzy). lia.
      * eapply Forall_impl; [exact Hy|]. unfold ranks_before. intros b Hb.
        rewrite (score_of_int _ _ Hx). rewrite (score_of_int _ _ Hzy) in Hb. lia.
Qed.

Lemma sort_desc_ranked l l' :
  Forall int_keyed l -> sort_desc l = Ok l' ->
  StronglySorted ranks_before l' /\ forall z, with_score z l' = with_score z l.
Proof.
  intros Hl. revert l'. induction Hl as [|x l Hx Hl IH]; intros l'; simpl.
  - intros [= <-]. split; [constructor|done].
  - destruct (sort_desc l) as [r|] eqn:Hr; simpl; [|done].
    destruct (IH r eq_refl) as [IHs IHw]. intros Hins.
    assert (Hr' : Forall int_keyed r)
      by (apply sort_desc_perm in Hr; by rewrite Hr).
    destruct (insert_desc_ranked x r l' Hx Hr' IHs Hins) as [Hs Hw].
    split; [done|]. intros z. rewrite Hw. unfold with_score in *.
    by rewrite !filter_cons, IHw.
Qed.

Lemma int_keyed_number_keyed a : int_keyed a -> number_keyed a.
Proof. intros [z Hz]. unfold number_keyed. rewrite Hz. simpl. eauto. Qed.

Lemma produced_int_keyed E resume_text job a :
  int_scores E -> produced_for E resume_text job a -> int_keyed a.
Proof.
  intros HE (d & st & _ & _ & ->). unfold int_keyed, score_key, get.
  rewrite decorate_lookup by done.
  rewrite calculate_match_score_cases. cbv zeta.
  destruct (parsed_object _) as [items|] eqn:Hitems.
  - rewrite genuine_lookup by done. apply (HE _ _ _ Hitems).
  - rewrite (proj1 (fallback_has_shape E _ _ _)). eauto.
Qed.

Lemma two_answers_int : int_scores two_answers.
Proof.
  intros n prompt items. unfold two_answers, scripted. cbn [llm].
  destruct n as [|[|n]]; [| |by destruct n].
  - assert (H : parsed_object (Content (Some prose_response)) = Some items42) by run.
    cbn [nth]. rewrite H. intros [= <-]. by eexists.
  - assert (H : parsed_object (Content (Some score_70))
                = Some [("overall_score", PInt 70)]) by run.
    cbn [nth]. rewrite H. intros [= <-]. by eexists.
Qed.

End MoreMatchingLemmas.

Section MoreMatchingTheorems.
Import Py Matcher.

(** X9. A run of [analyze_all_jobs] that returns has made one inference
    request and read the clock once for each record it returns, and none
    for a job that it skipped; it has written no file; and the records are
    as many as the jobs of the file whose cleaned description is not
    empty. *)
Theorem one_request_per_record E jobs_file resume_text st results st' :
  analyze_all_jobs E jobs_file resume_text st = Ok (results, st') ->
  calls st' = (calls st + length results)%nat
  /\ ticks st' = (ticks st + length results)%nat
  /\ files st' = files st
  /\ (forall jobs, files st !! jobs_file = Some jobs ->
        length results = length (filter (fun j => qualifies j = true) jobs)).
Proof. apply analyze_all_jobs_counts. Qed.

Lemma one_request_per_record_witness :
  analyze_all_jobs two_answers "jobs_with_descriptions.json" "resume" st_three_jobs
  = Ok (three_jobs_results, three_jobs_state)
  /\ calls three_jobs_state = (calls st_three_jobs + length three_jobs_results)%nat
  /\ ticks three_jobs_state = (ticks st_three_jobs + length three_jobs_results)%nat
  /\ files three_jobs_state = files st_three_jobs.
Proof.
  split; [exact three_jobs_run_returns|].
  destruct (one_request_per_record _ _ _ _ _ _ three_jobs_run_returns)
    as (H1 & H2 & H3 & _).
  by split_and!.
Defined.

(** X10. The identifier, the URL, the title and the company of a record
    that [analyze_all_jobs] returns are those of a job of the file whose
    description was analysed (or the defaults, where the job has none),
    and its timestamp is a reading of the clock, whatever the inference
    service answered: an answer that carries these keys does not change
    them. *)
Theorem metadata_comes_from_job E jobs_file resume_text st jobs results st' :
  files st !! jobs_file = Some jobs ->
  analyze_all_jobs E jobs_file resume_text st = Ok (results, st') ->
  forall a, a ∈ results ->
    exists job,
      job ∈ jobs /\ qualifies job = true
      /\ a !! "job_id" = Some (get job "job_id" (PStr "unknown"))
      /\ a !! "job_url" = Some (get job "url" (PStr ""))
      /\ a !! "job_title" = Some (get job "title" (PStr "No title"))
      /\ a !! "company" = Some (get job "company" (PStr "No company"))
      /\ exists n, a !! "analysis_timestamp" = Some (PStr (isoformat (now E n))).
Proof.
  intros Hfile. unfold analyze_all_jobs. rewrite Hfile.
  destruct (analyze_jobs E resume_text jobs [] st) as [[produced st1]|] eqn:Hloop;
    simpl; [|done].
  destruct (sort_desc produced) as [sorted|] eqn:Hsort; simpl; [|done].
  intros [= <- <-] a Ha.
  apply sort_desc_perm in Hsort. rewrite Hsort in Ha.
  destruct (analyze_jobs_inv _ _ _ _ _ _ _ Hloop) as (new & Hnew & Hfor).
  simpl in Hnew. subst new.
  apply list_elem_of_lookup_1 in Ha as [i Hi].
  destruct (Forall2_lookup_r _ _ _ _ _ Hfor Hi) as (job & Hjob & Hprod).
  apply list_elem_of_lookup_2, list_elem_of_filter in Hjob as [Hq Hin].
  exists job. split; [done|]. split; [done|].
  by apply (produced_for_metadata E resume_text).
Qed.

Lemma metadata_comes_from_job_witness :
  files st_three_jobs !! "jobs_with_descriptions.json" = Some three_jobs
  /\ analyze_all_jobs two_answers "jobs_with_descriptions.json" "resume"
       st_three_jobs
     = Ok (three_jobs_results, three_jobs_state)
  /\ forall a, a ∈ three_jobs_results ->
       exists job,
         job ∈ three_jobs /\ qualifies job = true
         /\ a !! "job_id" = Some (get job "job_id" (PStr "unknown"))
         /\ a !! "job_url" = Some (get job "url" (PStr ""))
         /\ a !! "job_title" = Some (get job "title" (PStr "No title"))
         /\ a !! "company" = Some (get job "company" (PStr "No company"))
         /\ exists n,
              a !! "analysis_timestamp" = Some (PStr (isoformat (now two_answers n))).
Proof.
  split; [reflexivity|]. split; [exact three_jobs_run_returns|].
  exact (metadata_comes_from_job two_answers "jobs_with_descriptions.json" "resume"
           st_three_jobs three_jobs three_jobs_results three_jobs_state
           eq_refl three_jobs_run_returns).
Defined.

(** X11. The ranking.  When the descriptions of the jobs are strings or
    null and every answer of the service gives an integer (or nothing) as
    its overall score, [analyze_all_jobs] returns the records of its loop
    ordered by overall score, highest first, and records with the same
    score keep the order of their jobs. *)
Theorem results_ranked_and_stable E jobs_file resume_text st jobs :
  files st !! jobs_file = Some jobs ->
  Forall description_is_text jobs ->
  int_scores E ->
  exists produced results st',
    analyze_jobs E resume_text jobs [] st = Ok (produced, st')
    /\ analyze_all_jobs E jobs_file resume_text st = Ok (results, st')
    /\ StronglySorted ranks_before results
    /\ forall z, with_score z results = with_score z produced.
Proof.
  intros Hfile Htext HE.
  destruct (analyze_jobs_total E resume_text jobs [] st Htext) as (produced & st' & Hloop).
  destruct (analyze_jobs_inv _ _ _ _ _ _ _ Hloop) as (new & Hnew & Hfor).
  simpl in Hnew. subst new.
  assert (Hint : Forall int_keyed produced).
  { eapply Forall2_Forall_r; [exact Hfor|].
    apply Forall_forall. intros job _ a Ha. by eapply produced_int_keyed. }
  destruct (sort_desc_numbers produced) as [sorted Hsort].
  { eapply Forall_impl; [exact Hint|]. exact int_keyed_number_keyed. }
  destruct (sort_desc_ranked _ _ Hint Hsort) as [Hs Hw].
  exists produced, sorted, st'. unfold analyze_all_jobs.
  rewrite Hfile, Hloop. simpl. rewrite Hsort. done.
Qed.

Lemma results_ranked_and_stable_witness :
  files st_three_jobs !! "jobs_with_descriptions.json" = Some three_jobs
  /\ Forall description_is_text three_jobs
  /\ int_scores two_answers
  /\ exists produced results st',
       analyze_jobs two_answers "resume" three_jobs [] st_three_jobs
       = Ok (produced, st')
       /\ analyze_all_jobs two_answers "jobs_with_descriptions.json" "resume"
            st_three_jobs = Ok (results, st')
       /\ StronglySorted ranks_before results
       /\ forall z, with_score z results = with_score z produced.
Proof.
  assert (H1 : files st_three_jobs !! "jobs_with_descriptions.json" = Some three_jobs)
    by reflexivity.
  assert (H2 : Forall description_is_text three_jobs) by (repeat constructor).
  split; [exact H1|]. split; [exact H2|]. split; [exact two_answers_int|].
  exact (results_ranked_and_stable two_answers "jobs_with_descriptions.json"
           "resume" st_three_jobs three_jobs H1 H2 two_answers_int).
Defined.
End MoreMatchingTheorems.

(** ** Cleaning the descriptions *)

Section CleaningLemmas.
Import Py Matcher Text.

Lemma collapse_ws_length s : forall in_run skip,
  (String.length (collapse_ws in_run skip s) <= String.length s)%nat.
Proof.
  induction s as [|c s IH]; intros in_run skip; [simpl; lia|].
  cbn [collapse_ws]. destruct skip as [|k].
  - destruct (ws_len (String c s)) as [|k].
    + cbn [String.length]. specialize (IH false 0%nat). lia.
    + destruct in_run; cbn [String.length]; specialize (IH true k); lia.
  - cbn [String.length]. specialize (IH in_run k). lia.
Qed.

Lemma lstrip_length s : (String.length (lstrip s) <= String.length s)%nat.
Proof.
  induction s as [|c s IH]; simpl; [lia|].
  destruct (Ascii.eqb c " "); simpl; lia.
Qed.

Lemma rstrip_length s : (String.length (rstrip s) <= String.length s)%nat.
Proof.
  induction s as [|c s IH]; simpl; [lia|].
  destruct (Ascii.eqb c " " && String.eqb (rstrip s) ""); simpl; lia.
Qed.

Lemma sub_show_more_length s : forall skip,
  (String.length (sub_show_more skip s) <= String.length s)%nat.
Proof.
  induction s as [|c s IH]; intros skip; [simpl; lia|].
  cbn [sub_show_more]. destruct skip as [|k].
  - destruct (ci_prefix "Show more" (String c s)) as [r|].
    + destruct (lazy_show_less r) as [rest|]; cbn [String.length].
      * etransitivity; [apply IH|lia].
      * specialize (IH 0%nat). lia.
    + cbn [String.length]. specialize (IH 0%nat). lia.
  - cbn [String.length]. specialize (IH k). lia.
Qed.

Lemma ws_len_head c s : ws_len (String c s) = 0%nat -> control_space c = false.
Proof.
  unfold ws_len, control_space. cbv zeta.
  destruct ((9 <=? byte c) && (byte c <=? 13) || (28 <=? byte c) && (byte c <=? 32))
    eqn:H; [done|]. intros _. lia.
Qed.

Lemma collapse_ws_chars a s : forall in_run skip,
  occurs a (collapse_ws in_run skip s) = true -> control_space a = false.
Proof.
  induction s as [|c s IH]; intros in_run skip; [done|].
  cbn [collapse_ws]. destruct skip as [|k]; [|apply IH].
  destruct (ws_len (String c s)) as [|k] eqn:Hws.
  - cbn [occurs]. intros [Hc|H]%orb_true_iff; [|by eapply IH].
    apply Ascii.eqb_eq in Hc as ->. by eapply ws_len_head.
  - destruct in_run; [apply IH|].
    cbn [occurs]. intros [Hc|H]%orb_true_iff; [|by eapply IH].
    by apply Ascii.eqb_eq in Hc as <-.
Qed.

Lemma lstrip_chars a s : occurs a (lstrip s) = true -> occurs a s = true.
Proof.
  induction s as [|c s IH]; simpl; [done|].
  destruct (Ascii.eqb c " "); [|done]. intros H. rewrite (IH H). apply orb_true_r.
Qed.

Lemma rstrip_chars a s : occurs a (rstrip s) = true -> occurs a s = true.
Proof.
  induction s as [|c s IH]; simpl; [done|].
  destruct (Ascii.eqb c " " && String.eqb (rstrip s) ""); simpl; [done|].
  intros [H|H]%orb_true_iff; [by rewrite H|]. rewrite (IH H). apply orb_true_r.
Qed.

Lemma sub_show_more_chars a s : forall skip,
  occurs a (sub_show_more skip s) = true -> occurs a s = true.
Proof.
  induction s as [|c s IH]; intros skip; [done|].
  cbn [sub_show_more occurs]. destruct skip as [|k].
  - destruct (ci_prefix "Show more" (String c s)) as [r|].
    + destruct (lazy_show_less r) as [rest|]; cbn [occurs].
      * intros H. rewrite (IH _ H). apply orb_true_r.
      * intros [H|H]%orb_true_iff; [by rewrite H|]. rewrite (IH _ H). apply orb_true_r.
    + cbn [occurs]. intros [H|H]%orb_true_iff; [by rewrite H|].
      rewrite (IH _ H). apply orb_true_r.
  - intros H. rewrite (IH _ H). apply orb_true_r.
Qed.

Lemma collapse_ws_blank s : forall skip,
  Space.blank_from skip s = true -> collapse_ws true skip s = "".
Proof.
  induction s as [|c s IH]; intros skip; [done|].
  cbn [Space.blank_from collapse_ws]. destruct skip as [|k]; [|apply IH].
  destruct (ws_len (String c s)) as [|k]; [done|apply IH].
Qed.

Lemma clean_text_blank s : Space.blank_from 0 s = true -> clean_text (PStr s) = Ok "".
Proof.
  unfold clean_text. destruct (negb (truthy (PStr s))); [done|].
  destruct s as [|c s]; [done|]. cbn [Space.blank_from collapse_ws].
  destruct (ws_len (String c s)) as [|k]; [done|].
  intros H. by rewrite (collapse_ws_blank _ _ H).
Qed.

Lemma blank_description_cleaned job :
  blank_description job -> clean_text (get job "description" (PStr "")) = Ok "".
Proof.
  unfold blank_description, get.
  destruct (job !! "description") as [[]|]; try done.
  apply clean_text_blank.
Qed.

End CleaningLemmas.

Section CleaningTheorems.
Import Py Matcher Text.

(** X12. [clean_text] of a string returns a string that is not longer
    than the given one and has no tab, line break or other white-space
    control character: the cleaned description is one line. *)
Theorem cleaned_text_is_one_line s :
  exists cleaned,
    clean_text (PStr s) = Ok cleaned
    /\ (String.length cleaned <= String.length s)%nat
    /\ (forall c, occurs c cleaned = true -> control_space c = false).
Proof.
  unfold clean_text. destruct (negb (truthy (PStr s))).
  - exists "". split_and!; [done|simpl; lia|done].
  - eexists. split; [reflexivity|]. split.
    + etransitivity; [apply sub_show_more_length|].
      unfold strip. etransitivity; [apply rstrip_length|].
      etransitivity; [apply lstrip_length|]. apply collapse_ws_length.
    + intros c H%sub_show_more_chars. unfold strip in H.
      apply rstrip_chars, lstrip_chars in H. by eapply collapse_ws_chars.
Qed.

(** X13. When no job of the file has a description to analyse (it is
    missing, null, or white space only), [analyze_all_jobs] returns the
    empty list: every job is skipped, no inference request is made and
    nothing changes. *)
Theorem blank_descriptions_are_skipped E jobs_file resume_text st jobs :
  files st !! jobs_file = Some jobs ->
  Forall blank_description jobs ->
  analyze_all_jobs E jobs_file resume_text st = Ok ([], st)
  /\ Forall (fun job => qualifies job = false) jobs.
Proof.
  intros Hfile Hblank. split.
  - unfold analyze_all_jobs. rewrite Hfile.
    assert (Hloop : forall results,
              analyze_jobs E resume_text jobs results st = Ok (results, st)).
    { clear Hfile.
      induction Hblank as [|job jobs Hjob Hjobs IH]; intros results; [done|].
      cbn [analyze_jobs]. rewrite (blank_description_cleaned _ Hjob).
      cbn [bind String.eqb]. apply IH. }
    by rewrite Hloop.
  - eapply Forall_impl; [exact Hblank|]. intros job Hjob.
    unfold qualifies. by rewrite (blank_description_cleaned _ Hjob).
Qed.

Lemma blank_descriptions_are_skipped_witness :
  files st_blank_jobs !! "jobs_with_descriptions.json" = Some blank_jobs
  /\ Forall blank_description blank_jobs
  /\ analyze_all_jobs (scripted []) "jobs_with_descriptions.json" "resume"
       st_blank_jobs = Ok ([], st_blank_jobs).
Proof.
  assert (H1 : files st_blank_jobs !! "jobs_with_descriptions.json" = Some blank_jobs)
    by reflexivity.
  assert (H2 : Forall blank_description blank_jobs)
    by (repeat constructor; by vm_compute).
  split; [exact H1|]. split; [exact H2|].
  exact (proj1 (blank_descriptions_are_skipped (scripted [])
                  "jobs_with_descriptions.json" "resume" st_blank_jobs blank_jobs
                  H1 H2)).
Defined.
End CleaningTheorems.

(** ** The report *)

Section MoreReportLemmas.
Import Py Matcher.

Lemma fallback_scores l :
  Forall fallback_shape l -> map score_key l = replicate (length l) (PInt 0).
Proof.
  induction 1 as [|a l Ha Hl IH]; [done|]. simpl. rewrite IH. f_equal.
  unfold score_key, get. by rewrite (proj1 Ha).
Qed.

Lemma sum_zeros n : sum (Num.NInt 0) (replicate n (PInt 0)) = Ok (Num.NInt 0).
Proof. induction n as [|n IH]; [done|]. simpl. exact IH. Qed.

Lemma mean_zeros n : mean (replicate (S n) (PInt 0)) = Ok (S754_zero false).
Proof.
  unfold mean. rewrite sum_zeros. cbn [bind]. rewrite length_replicate.
  unfold Num.true_div. destruct (Z.eqb_spec (Z.of_nat (S n)) 0); [lia|done].
Qed.

Lemma count_if_zeros p n :
  p (PInt 0) = Ok false -> count_if p (replicate n (PInt 0)) = Ok O.
Proof. intros Hp. induction n as [|n IH]; [done|]. simpl. by rewrite Hp, IH. Qed.

Lemma top_entries_fallback l : forall i,
  Forall fallback_shape l -> exists top, top_entries i l = Ok top.
Proof.
  induction l as [|a l IH]; intros i Hl; [by eexists|].
  apply Forall_cons in Hl as [Ha Hl]. destruct (IH (S i) Hl) as [rest Hrest].
  cbn [top_entries]. rewrite Hrest. unfold top_entry, strengths_line, get.
  destruct Ha as (_ & _ & _ & _ & _ & _ & _ & -> & _). by eexists.
Qed.

Lemma count_priority_fallback p l :
  p <> "UNKNOWN" -> Forall fallback_shape l -> count_priority p l = O.
Proof.
  intros Hp. unfold count_priority. induction 1 as [|a l Ha Hl IH]; [done|].
  rewrite filter_cons_False; [done|].
  unfold get_none, get. destruct Ha as (_ & _ & _ & _ & _ & -> & _).
  cbn [eq_str]. intros H%String.eqb_eq. done.
Qed.

Lemma count_priority_view p l1 l2 :
  tail_view l1 = tail_view l2 -> count_priority p l1 = count_priority p l2.
Proof.
  unfold count_priority, tail_view. revert l2.
  induction l1 as [|a l1 IH]; intros [|b l2]; try done. simpl.
  intros [= Hs Hp Hrest]. rewrite !filter_cons, Hp.
  case_decide; simpl; by rewrite (IH _ Hrest).
Qed.

Lemma count_priority_app p l1 l2 :
  count_priority p (l1 ++ l2) = (count_priority p l1 + count_priority p l2)%nat.
Proof. unfold count_priority. by rewrite filter_app, length_app. Qed.

Lemma tail_view_scores l1 l2 :
  tail_view l1 = tail_view l2 -> map score_key l1 = map score_key l2.
Proof.
  unfold tail_view. revert l2.
  induction l1 as [|a l1 IH]; intros [|b l2]; try done. simpl.
  intros [= Hs Hp Hrest]. by rewrite Hs, (IH _ Hrest).
Qed.

End MoreReportLemmas.

Section MoreReportTheorems.
Import Py Matcher.

(** X14. When every analysis failed, the report is still made: for a
    collection of fallback records that is not empty, [create_summary_report]
    returns a text with the average score 0.0, no high and no medium match,
    and no job of HIGH or MEDIUM priority. *)
Theorem report_of_failed_analyses E results st :
  results <> [] -> Forall fallback_shape results ->
  exists top,
    create_summary_report E results st
    = Ok (report_head (strftime (now E (ticks st))) (length results)
            (S754_zero false) 0 0
          +:+ top +:+ report_foot 0 0,
          tick st)
    /\ Num.format_1f (S754_zero false) = "0.0".
Proof.
  intros Hne Hall. destruct results as [|r results]; [done|].
  unfold create_summary_report.
  rewrite (fallback_scores _ Hall). cbn [length].
  rewrite mean_zeros. cbn [bind].
  rewrite !count_if_zeros by done. cbn [bind].
  destruct (top_entries_fallback (take 5 (r :: results)) 1) as [top Htop].
  { by apply Forall_take. }
  rewrite Htop. cbn [bind].
  rewrite !count_priority_fallback by done.
  by exists top.
Qed.

Lemma report_of_failed_analyses_witness :
  [failed_record] <> []
  /\ Forall fallback_shape [failed_record]
  /\ exists top,
       create_summary_report (scripted []) [failed_record] st0
       = Ok (report_head (strftime (now (scripted []) (ticks st0)))
               (length [failed_record]) (S754_zero false) 0 0
             +:+ top +:+ report_foot 0 0,
             tick st0)
       /\ Num.format_1f (S754_zero false) = "0.0".
Proof.
  assert (H1 : [failed_record] <> []) by done.
  assert (H2 : Forall fallback_shape [failed_record]).
  { constructor; [|constructor]. apply fallback_has_shape. }
  split; [exact H1|]. split; [exact H2|].
  exact (report_of_failed_analyses (scripted []) [failed_record] st0 H1 H2).
Defined.

(** X15. The report lists the first five records and no other.  Of the
    records after the fifth it reads the overall score and the priority
    only: two collections with the same first five records, whose further
    records agree on these two, get the same report (or the same
    exception). *)
Theorem report_lists_five_records E top5 rest1 rest2 st :
  length top5 = 5%nat ->
  tail_view rest1 = tail_view rest2 ->
  create_summary_report E (top5 ++ rest1) st
  = create_summary_report E (top5 ++ rest2) st.
Proof.
  intros Hlen Hview.
  unfold create_summary_report.
  destruct top5 as [|r top5]; [done|]. cbn [app].
  change (r :: top5 ++ rest1)%list with ((r :: top5) ++ rest1)%list.
  change (r :: top5 ++ rest2)%list with ((r :: top5) ++ rest2)%list.
  rewrite !map_app, (tail_view_scores _ _ Hview).
  rewrite !take_app_length' by done.
  rewrite !count_priority_app, !(count_priority_view _ _ _ Hview).
  rewrite !length_app.
  apply (f_equal (@length _)) in Hview. unfold tail_view in Hview.
  rewrite !length_map in Hview. by rewrite Hview.
Qed.

Lemma report_lists_five_records_witness :
  length (replicate 5 record42) = 5%nat
  /\ tail_view [<["job_title" := PStr "Data Engineer"]> record42]
     = tail_view [<["job_title" := PStr "Product Manager"]> record42]
  /\ create_summary_report (scripted []) (six_records "Data Engineer") st0
     = create_summary_report (scripted []) (six_records "Product Manager") st0.
Proof.
  assert (H : tail_view [<["job_title" := PStr "Data Engineer"]> record42]
              = tail_view [<["job_title" := PStr "Product Manager"]> record42])
    by run.
  split; [reflexivity|]. split; [exact H|].
  exact (report_lists_five_records (scripted []) (replicate 5 record42) _ _ st0
           eq_refl H).
Defined.
End MoreReportTheorems.

(** ** The search URL *)

Section UrlLemmas.
Import Py Url.





















End UrlLemmas.

Section UrlTheorems.
Import Py Url.




End UrlTheorems.

(** ** The routes of the web front end *)

Section ApiLemmas.
Import Py Api.

Lemma matcher_state_update d st : matcher_state (update d st) = matcher_state st.
Proof. reflexivity. Qed.




Lemma reset_store fs :
  fold_left (fun fs file_path =>
               if file_exists file_path fs then remove file_path fs else fs)
    files_to_remove fs
  = empty_store.
Proof.
  destruct fs as [[a|] [b|] [c|] [d|] [e|]]; reflexivity.
Qed.


End ApiLemmas.

Section ApiTheorems.
Import Py Api.



Example analysis_run :
  let st' := analyze_matches_background (web true) ready_app in
  (status_of st', process_status st' !! "results",
   is_some (job_match_report (files st')), calls st', ticks st')
  = (Some (PStr "completed"),
     Some (results_entry three_jobs_results 0
             (PFloat (binary_normalize Num.prec Num.emax 56 0 false))),
     true, 2%nat, 3%nat).
Proof. cbv zeta. run. Qed.


(** X19. When the analysis cannot start or the Matching stage raises (no
    resume data, resume data without a text, no inference client, no jobs
    file, scores that do not compare), [analyze_matches_background] ends
    with the status error and the text of the exception, and leaves every
    file as it was. *)
Theorem analysis_that_cannot_run E st :
  (forall results m, ~ matching_returns E st results m) ->
  let st' := analyze_matches_background E st in
  status_of st' = Some (PStr "error")
  /\ files st' = files st
  /\ exists e, process_status st' !! "error" = Some (PStr (error_text E e)).
Proof.
  intros Hno st'. subst st'.
  unfold analyze_matches_background, analysis_steps. cbn [update files].
  destruct (resume_data (files st)) as [rd|] eqn:Hrd.
  2:{ split_and!; try done; [by apply lookup_union_Some_l|].
      eexists. by apply lookup_union_Some_l. }
  destruct (resume_text_of rd) as [text|e] eqn:Htext.
  2:{ split_and!; try done; [by apply lookup_union_Some_l|].
      eexists. by apply lookup_union_Some_l. }
  destruct (matcher_starts E) eqn:Hstart; cbn [negb].
  2:{ split_and!; try done; [by apply lookup_union_Some_l|].
      eexists. by apply lookup_union_Some_l. }
  rewrite !matcher_state_update.
  destruct (Matcher.analyze_all_jobs _ _ _ _) as [[results m]|e] eqn:Hrun.
  { exfalso. apply (Hno results m). by exists rd, text. }
  split_and!; try done; [by apply lookup_union_Some_l|].
  eexists. by apply lookup_union_Some_l.
Qed.

Lemma analysis_that_cannot_run_witness :
  (forall results m, ~ matching_returns (web false) ready_app results m)
  /\ status_of (analyze_matches_background (web false) ready_app)
     = Some (PStr "error")
  /\ files (analyze_matches_background (web false) ready_app) = files ready_app.
Proof.
  assert (H : forall results m, ~ matching_returns (web false) ready_app results m).
  { intros results m (rd & text & _ & _ & Hstart & _). done. }
  split; [exact H|].
  destruct (analysis_that_cannot_run (web false) ready_app H) as (H1 & H2 & _).
  by split.
Defined.

(** X20. After [reset_process] the status is the initial one and none of
    the five generated files exists, whatever was there before: the
    analysis route refuses to start (400) and starts nothing, the results
    route answers 404, and every download is refused (403) or not found
    (404). *)
Theorem reset_clears_everything E st :
  let st' := (reset_process st).2 in
  process_status st' = idle_status
  /\ files st' = empty_store
  /\ (forall name, file_exists name (files st') = false)
  /\ (analyze_matches st').2 = false
  /\ (exists body, (analyze_matches st').1 = Json 400 body)
  /\ (exists body, get_results E st' = Json 404 body)
  /\ (forall name, exists code body,
        download_file name st' = Json code body /\ (code = 403 \/ code = 404)).
Proof.
  intros st'. subst st'. unfold reset_process. cbn [snd files process_status].
  rewrite reset_store.
  split_and!; try done.
  - intros name. unfold file_exists. simpl.
    by repeat case_match.
  - by eexists.
  - by eexists.
  - intros name. unfold download_file. cbn [files].
    destruct (bool_decide (name ∈ allowed_files)); cbn [negb]; [|eauto 6].
    replace (file_exists name empty_store) with false
      by (unfold file_exists; simpl; by repeat case_match).
    cbn [negb]. eauto 6.
Qed.





(** A body that sets the keywords to null and gives the distance as a
    text: the keywords are left out, not replaced by the default. *)
Example url_route_null_keywords :
  generate_url (web true)
    (PDict [("keywords", PNone); ("distance", PStr "10 miles")])
  = Json 200
      [("success", PBool true);
       ("url",
        PStr "https://www.linkedin.com/jobs/search/?geoId=103644278&location=United%20States&distance=10%20miles&sortBy=R&f_E=4&f_SB2=1&origin=JOB_SEARCH_PAGE_JOB_FILTER&refresh=true&f_TPR=r86400");
       ("parameters", PDict [("keywords", PNone); ("distance", PStr "10 miles")])].
Proof. run. Qed.
End ApiTheorems.

(** ** The key information of a job, and the script *)

Section KeyInfoTheorems.
Import Py Matcher KeyInfo.

(** X23. [extract_key_info] makes one inference request, never raises and
    always returns a JSON object: the object parsed from the response
    between its first [{] and its last [}], as it is (no key is added and
    the clock is not read), and the empty object when the request fails,
    the response has no such span, or the span does not parse. *)
Theorem key_info_is_an_object E job_description st :
  let reply := llm E (calls st) (key_info_prompt job_description) in
  extract_key_info E job_description st
  = (PDict (default [] (parsed_object reply)), called st)
  /\ (failure_path reply -> (extract_key_info E job_description st).1 = PDict []).
Proof.
  intros reply. subst reply. unfold extract_key_info, parsed_object, failure_path,
    no_span_parses.
  destruct (llm E (calls st) _) as [|[content|]]; [done| |done].
  destruct (Text.search_braces content) as [span|] eqn:Hspan; [|done].
  destruct (Json.loads span) as [v|] eqn:Hv; [|done].
  destruct (search_braces_inv _ _ Hspan) as (pre & mid & post & _ & -> & _).
  destruct (loads_object _ _ Hv) as [items ->]. done.
Qed.
End KeyInfoTheorems.

Section MainTheorems.
Import Py.






End MainTheorems.

(** ** The structured resume and its upload *)

Section SpaceFacts.




















End SpaceFacts.

Section ResumeProps.
Import Py ResumeHandling.



End ResumeProps.

Section UploadProps.
Import Py Upload.

Lemma is_pdf_named name : is_pdf name = true -> String.eqb name "" = false.
Proof. by destruct name. Qed.

Lemma status_union (d : list (string * pyval)) (m : dict) key v :
  (list_to_map d : dict) !! key = Some v -> (list_to_map d ∪ m) !! key = Some v.
Proof. apply lookup_union_Some_l. Qed.

(** An accepted upload whose text can be extracted: everything up to the
    preview is done, and the answer depends on the preview alone. *)
Lemma upload_resume_accepted E file st resume_text resume_json parsed :
  is_pdf (filename file) = true ->
  pdf_text E (body file) = Some resume_text ->
  ResumeHandling.get_info_from_text (parser E) resume_text (parsing st)
  = (resume_json, parsed) ->
  exists st1,
    saved_resume st1
    = Some (PDict [("text", PStr resume_text); ("structured", resume_json);
                   ("uploaded_at",
                    PStr (Matcher.isoformat
                            (Matcher.now (Api.matcher (api E)) (Api.ticks (app st)))))])
    /\ Api.jobs_with_descriptions (Api.files (app st1))
       = Api.jobs_with_descriptions (Api.files (app st))
    /\ status_entry "status" st1 = Some (PStr "completed")
    /\ status_entry "progress" st1 = Some (PInt 100)
    /\ upload_resume E (Some file) st
       = match preview resume_json with
         | inr p =>
             (Api.Json 200 [("success", PBool true);
                            ("message", PStr "Resume processed successfully");
                            ("preview", p)], st1)
         | inl e => failed E e st1
         end.
Proof.
  intros Hpdf Htext Hinfo. unfold upload_resume.
  rewrite (is_pdf_named _ Hpdf), Hpdf. cbn [negb]. rewrite Htext.
  cbv zeta. cbn [parsing update save]. rewrite Hinfo.
  eexists. split_and!; [| | | |reflexivity]; [done|done|by apply status_union..].
Qed.

Lemma failed_entries E e st :
  let st' := (failed E e st).2 in
  (failed E e st).1 = Api.Json 500 [("error", PStr (error_text E e))]
  /\ saved_resume st' = saved_resume st
  /\ Api.jobs_with_descriptions (Api.files (app st'))
     = Api.jobs_with_descriptions (Api.files (app st))
  /\ status_entry "status" st' = Some (PStr "error")
  /\ status_entry "error" st' = Some (PStr (error_text E e))
  /\ status_entry "progress" st' = status_entry "progress" st.
Proof.
  cbv zeta. unfold failed, status_entry. cbn [fst snd update app Api.update
    Api.process_status Api.files].
  split_and!; try done; try by apply status_union.
  rewrite lookup_union_r; done.
Qed.

Lemma preview_of_error_object msg :
  preview (ResumeHandling.error_object msg) = inr empty_preview.
Proof. reflexivity. Qed.

Lemma preview_null_section items :
  null_section items -> exists e, preview (PDict items) = inl e.
Proof.
  intros (key & Hkey & Hnull). unfold preview.
  cbn [get and_then].
  destruct (get "name" _ _) as [e|name] eqn:Hname; [by eexists|].
  assert (Hperson : key <> "personal_info").
  { intros ->. rewrite Hnull in Hname. done. }
  cbn [and_then].
  destruct (len (default (PList []) (items_get "experience" items))) as [e|n1] eqn:H1;
    [by eexists|].
  assert (Hexp : key <> "experience").
  { intros ->. rewrite Hnull in H1. done. }
  cbn [and_then].
  destruct (len (default (PList []) (items_get "education" items))) as [e|n2] eqn:H2;
    [by eexists|].
  assert (Hedu : key <> "education").
  { intros ->. rewrite Hnull in H2. done. }
  cbn [and_then].
  assert (key = "skills") as -> by set_solver.
  rewrite Hnull. by eexists.
Qed.

(** X26. Once the text of an uploaded PDF has been extracted,
    [upload_resume] writes [resume_data.json] with that text, whatever the
    parser returned and whatever the route then answers: the analysis finds
    the text under [text], and [analyze_matches] starts the analysis exactly
    when the file of the jobs exists. *)
Theorem uploaded_resume_is_ready_for_analysis E file st resume_text :
  is_pdf (filename file) = true ->
  pdf_text E (body file) = Some resume_text ->
  let st' := (upload_resume E (Some file) st).2 in
  exists data,
    saved_resume st' = Some data
    /\ Api.resume_text_of data = Ok (PStr resume_text)
    /\ (Api.analyze_matches (app st')).2
       = Api.is_some (Api.jobs_with_descriptions (Api.files (app st))).
Proof.
  intros Hpdf Htext.
  destruct (ResumeHandling.get_info_from_text (parser E) resume_text (parsing st))
    as [resume_json parsed] eqn:Hinfo.
  destruct (upload_resume_accepted _ _ _ _ _ _ Hpdf Htext Hinfo)
    as (st1 & Hsaved & Hjobs & _ & _ & ->).
  assert (Hst : exists st2,
             (match preview resume_json with
              | inr p =>
                  (Api.Json 200 [("success", PBool true);
                                 ("message", PStr "Resume processed successfully");
                                 ("preview", p)], st1)
              | inl e => failed E e st1
              end).2 = st2
             /\ saved_resume st2 = saved_resume st1
             /\ Api.jobs_with_descriptions (Api.files (app st2))
                = Api.jobs_with_descriptions (Api.files (app st1))).
  { destruct (preview resume_json) as [e|p]; eexists; (split; [reflexivity|]);
      [|done]. by destruct (failed_entries E e st1) as (_ & ? & ? & _). }
  destruct Hst as (st2 & -> & Hsaved2 & Hjobs2). cbv zeta.
  eexists. split; [by rewrite Hsaved2, Hsaved|]. split; [done|].
  unfold Api.analyze_matches, Api.file_exists.
  cbn [String.eqb Ascii.eqb Bool.eqb].
  fold (saved_resume st2). rewrite Hsaved2, Hsaved, Hjobs2, Hjobs. cbn [Api.is_some negb].
  by destruct (Api.jobs_with_descriptions (Api.files (app st))).
Qed.

Lemma uploaded_resume_is_ready_for_analysis_witness :
  is_pdf (filename resume_file) = true
  /\ pdf_text (uploads failing_parser) (body resume_file) = Some "Jane Doe"
  /\ exists data,
       saved_resume (upload_resume (uploads failing_parser) (Some resume_file)
                       fresh_upload).2 = Some data
       /\ Api.resume_text_of data = Ok (PStr "Jane Doe")
       /\ (Api.analyze_matches
             (app (upload_resume (uploads failing_parser) (Some resume_file)
                     fresh_upload).2)).2
          = Api.is_some (Api.jobs_with_descriptions (Api.files (app fresh_upload))).
Proof.
  split; [reflexivity|]. split; [reflexivity|].
  exact (uploaded_resume_is_ready_for_analysis (uploads failing_parser) resume_file
           fresh_upload "Jane Doe" eq_refl eq_refl).
Defined.

(** X27. When the parser returns its error object (its request failed,
    or the answer was no JSON), [upload_resume] still answers 200 with
    [success], with the preview of an empty resume (the name [N/A] and
    three counts of 0); the status becomes [completed] and the error
    object is stored as the structured resume. *)
Theorem failed_parse_is_reported_as_success E file st resume_text message :
  is_pdf (filename file) = true ->
  pdf_text E (body file) = Some resume_text ->
  (ResumeHandling.get_info_from_text (parser E) resume_text (parsing st)).1
  = ResumeHandling.error_object message ->
  let answer := upload_resume E (Some file) st in
  answer.1
  = Api.Json 200 [("success", PBool true);
                  ("message", PStr "Resume processed successfully");
                  ("preview", empty_preview)]
  /\ status_entry "status" answer.2 = Some (PStr "completed")
  /\ exists uploaded_at,
       saved_resume answer.2
       = Some (PDict [("text", PStr resume_text);
                      ("structured", ResumeHandling.error_object message);
                      ("uploaded_at", PStr uploaded_at)]).
Proof.
  intros Hpdf Htext Herror.
  destruct (ResumeHandling.get_info_from_text (parser E) resume_text (parsing st))
    as [resume_json parsed] eqn:Hinfo.
  cbn [fst] in Herror. subst resume_json.
  destruct (upload_resume_accepted _ _ _ _ _ _ Hpdf Htext Hinfo)
    as (st1 & Hsaved & _ & Hstatus & _ & ->).
  rewrite preview_of_error_object. cbv zeta. cbn [fst snd].
  split; [done|]. split; [done|]. by eexists.
Qed.

Lemma failed_parse_is_reported_as_success_witness :
  is_pdf (filename resume_file) = true
  /\ pdf_text (uploads failing_parser) (body resume_file) = Some "Jane Doe"
  /\ (ResumeHandling.get_info_from_text (parser (uploads failing_parser)) "Jane Doe"
        (parsing fresh_upload)).1
     = ResumeHandling.error_object "API call failed: Connection error."
  /\ (upload_resume (uploads failing_parser) (Some resume_file) fresh_upload).1
     = Api.Json 200 [("success", PBool true);
                     ("message", PStr "Resume processed successfully");
                     ("preview", empty_preview)].
Proof.
  split; [reflexivity|]. split; [reflexivity|]. split; [reflexivity|].
  exact (proj1 (failed_parse_is_reported_as_success (uploads failing_parser)
                  resume_file fresh_upload "Jane Doe"
                  "API call failed: Connection error." eq_refl eq_refl eq_refl)).
Defined.

(** X28. When the parsed resume is an object in which [personal_info],
    [experience], [education] or [skills] is null, [upload_resume] answers
    500 with the message of the exception that the preview raised, which
    is also stored in the status; the status is [error] while the progress
    stays at 100, and [resume_data.json] has been written with the text.
    With a null [personal_info] the message is that of [.get] asked of
    [None]. *)
Theorem null_section_fails_after_saving E file st resume_text items :
  is_pdf (filename file) = true ->
  pdf_text E (body file) = Some resume_text ->
  (ResumeHandling.get_info_from_text (parser E) resume_text (parsing st)).1
  = PDict items ->
  null_section items ->
  let answer := upload_resume E (Some file) st in
  (exists e,
      answer.1 = Api.Json 500 [("error", PStr (error_text E e))]
      /\ status_entry "error" answer.2 = Some (PStr (error_text E e)))
  /\ status_entry "status" answer.2 = Some (PStr "error")
  /\ status_entry "progress" answer.2 = Some (PInt 100)
  /\ (exists data, saved_resume answer.2 = Some data
                   /\ Api.resume_text_of data = Ok (PStr resume_text))
  /\ (items_get "personal_info" items = Some PNone ->
      answer.1
      = Api.Json 500 [("error", PStr "'NoneType' object has no attribute 'get'")]).
Proof.
  intros Hpdf Htext Hitems Hnull.
  destruct (ResumeHandling.get_info_from_text (parser E) resume_text (parsing st))
    as [resume_json parsed] eqn:Hinfo.
  cbn [fst] in Hitems. subst resume_json.
  destruct (upload_resume_accepted _ _ _ _ _ _ Hpdf Htext Hinfo)
    as (st1 & Hsaved & _ & _ & Hprogress & ->).
  destruct (preview_null_section _ Hnull) as [e He].
  cbv zeta. rewrite He.
  destruct (failed_entries E e st1) as (Hans & Hdata & _ & Hstatus & Herr & Hprog).
  split_and!.
  - by exists e.
  - done.
  - by rewrite Hprog.
  - eexists. by rewrite Hdata, Hsaved.
  - intros Hperson. rewrite Hans. unfold preview in He. cbn [get and_then] in He.
    rewrite Hperson in He. cbn in He. by injection He as <-.
Qed.

Lemma null_section_fails_after_saving_witness :
  is_pdf (filename resume_file) = true
  /\ pdf_text (uploads null_parser) (body resume_file) = Some "Jane Doe"
  /\ (ResumeHandling.get_info_from_text (parser (uploads null_parser)) "Jane Doe"
        (parsing fresh_upload)).1
     = PDict [("experience", PNone)]
  /\ null_section [("experience", PNone)]
  /\ status_entry "status"
       (upload_resume (uploads null_parser) (Some resume_file) fresh_upload).2
     = Some (PStr "error").
Proof.
  assert (Hnull : null_section [("experience", PNone)]).
  { exists "experience". split; [set_solver|reflexivity]. }
  split; [reflexivity|]. split; [reflexivity|]. split; [reflexivity|].
  split; [exact Hnull|].
  exact (proj1 (proj2 (null_section_fails_after_saving (uploads null_parser)
                         resume_file fresh_upload "Jane Doe" [("experience", PNone)]
                         eq_refl eq_refl eq_refl Hnull))).
Defined.

End UploadProps.
